(** * convert.py: cleaning, classification and merging of cricket statistics

    A shallow embedding of [src/convert.py] and the properties of its
    functions [clean_numeric_value], [determine_era],
    [get_country_from_name], [determine_role], of the loading, merging,
    filtering and ordering done by [process_cricket_data] and of the
    statistics counted by [main].

    Modelling conventions.
    - A Python [str] is a [string]; a character is a code point in 0..255
      (Latin-1).  On this range [\d] is 0-9, [str.isspace] holds of the
      code points 9-13, 28-32, 133 and 160, and [str.lower] moves A-Z and
      the letters 192..222 (215 apart) up by 32.
    - A Python [int] is a [Z].  A Python [float] is a binary64 number,
      given by the rational number it is; the two infinities are given by
      2^1024 and its opposite.  Its arithmetic rounds to the nearest float,
      ties to the even one, and goes to an infinity beyond the largest
      float; converting an [int] beyond that range raises [OverflowError].
      NaN is not represented: the program computes none, since it only adds
      numbers that are not negative, multiplies by 50 and divides by 100.
    - A raw value of a table row (what [row.to_dict()] holds, or the default
      of a [dict.get]) is a [cell]; a float cell is given by the text
      [str()] prints for it.
    - Exceptions are values of [result]; [try]/[except] is a match on it. *)

From Stdlib Require Import ZArith QArith Qround Qabs Qpower Qminmax.
From Stdlib Require Import String Ascii DecimalString Bool Lia Lqa.
From Stdlib Require Import Sorting.Sorted Permutation.
From Stdlib Require DecimalPos.
From stdpp Require Import gmap strings list.

Local Open Scope string_scope.
Local Open Scope Z_scope.

(** ** Exceptions *)

Inductive exn : Type := ValueError | TypeError | OverflowError | ZeroDivisionError.

Inductive result (A : Type) : Type :=
| Ok (a : A)
| Raise (e : exn).
Arguments Ok {A} a.
Arguments Raise {A} e.

Definition rbind {A B} (m : result A) (k : A -> result B) : result B :=
  match m with
  | Ok a => k a
  | Raise e => Raise e
  end.

Notation "'let*' x ':=' m 'in' k" := (rbind m (fun x => k))
  (at level 10, x name, m at level 100, k at level 200).

(** A function applied to what is returned. *)
Definition rmap {A B} (f : A -> B) (m : result A) : result B :=
  match m with
  | Ok a => Ok (f a)
  | Raise e => Raise e
  end.

(** ** Characters and strings *)

Module Str.

Definition code (c : ascii) : N := N_of_ascii c.

(** [\d] of [re] on code points below 256. *)
Definition is_digit (c : ascii) : bool :=
  ((48 <=? code c) && (code c <=? 57))%N.

(** [str.isspace] on code points below 256. *)
Definition is_space (c : ascii) : bool :=
  let n := code c in
  (((9 <=? n) && (n <=? 13)) || ((28 <=? n) && (n <=? 32))
   || (n =? 133) || (n =? 160))%N.

(** [str.lower] on one code point below 256. *)
Definition lower_char (c : ascii) : ascii :=
  let n := code c in
  if (((65 <=? n) && (n <=? 90))
      || ((192 <=? n) && (n <=? 222) && negb (n =? 215)))%N
  then ascii_of_N (n + 32) else c.

Fixpoint filter (p : ascii -> bool) (s : string) : string :=
  match s with
  | EmptyString => EmptyString
  | String c s' => if p c then String c (filter p s') else filter p s'
  end.

Fixpoint existsb (p : ascii -> bool) (s : string) : bool :=
  match s with
  | EmptyString => false
  | String c s' => p c || existsb p s'
  end.

Fixpoint forallb (p : ascii -> bool) (s : string) : bool :=
  match s with
  | EmptyString => true
  | String c s' => p c && forallb p s'
  end.

Fixpoint map (f : ascii -> ascii) (s : string) : string :=
  match s with
  | EmptyString => EmptyString
  | String c s' => String (f c) (map f s')
  end.

(** [c in s] for a one-character [c]. *)
Definition contains_char (c : ascii) (s : string) : bool :=
  existsb (Ascii.eqb c) s.

(** [s.replace(c, "")] for a one-character [c]. *)
Definition remove_char (c : ascii) (s : string) : string :=
  filter (fun x => negb (Ascii.eqb x c)) s.

Fixpoint lstrip (s : string) : string :=
  match s with
  | EmptyString => EmptyString
  | String c s' => if is_space c then lstrip s' else s
  end.

Fixpoint rstrip (s : string) : string :=
  match s with
  | EmptyString => EmptyString
  | String c s' =>
      match rstrip s' with
      | EmptyString => if is_space c then EmptyString else String c EmptyString
      | r => String c r
      end
  end.

(** [s.strip()] *)
Definition strip (s : string) : string := rstrip (lstrip s).

(** [s.lower()] *)
Definition lower (s : string) : string := map lower_char s.

(** [s.split(c)] for a one-character separator: the pieces between the
    occurrences of [c], empty pieces included; never the empty list. *)
Fixpoint split (c : ascii) (s : string) : list string :=
  match s with
  | EmptyString => [EmptyString]
  | String x s' =>
      if Ascii.eqb x c then EmptyString :: split c s'
      else match split c s' with
           | p :: ps => String x p :: ps
           | [] => [String x EmptyString]
           end
  end.

(** [s.startswith(p)] *)
Fixpoint is_prefix (p s : string) : bool :=
  match p, s with
  | EmptyString, _ => true
  | String a p', String b s' => Ascii.eqb a b && is_prefix p' s'
  | String _ _, EmptyString => false
  end.

(** [p in s] for strings: [p] starts at some position of [s]. *)
Fixpoint is_substring (p s : string) : bool :=
  is_prefix p s ||
  match s with
  | EmptyString => false
  | String _ s' => is_substring p s'
  end.

Definition is_empty (s : string) : bool :=
  match s with EmptyString => true | _ => false end.

End Str.

(** ** Floats *)

(** What stands for an infinity. *)
Definition float_inf : Q := inject_Z (2 ^ 1024).

Definition is_inf (q : Q) : bool := Qle_bool float_inf (Qabs q).

(** The integer part of the binary logarithm of a positive number. *)
Definition ilog2 (q : Q) : Z :=
  let k := Z.log2 (Qnum q) - Z.log2 (Zpos (Qden q)) in
  if Qle_bool (2 ^ k) q then k else k - 1.

(** The exponent of the last binary place of the floats around [q]: 53
    binary places, none below 2^-1074. *)
Definition float_exp (q : Q) : Z := Z.max (ilog2 q - 52) (-1074).

(** The nearest integer, the even one of two that are equally near. *)
Definition round_half_even (x : Q) : Z :=
  let f := Qfloor x in
  match (x - inject_Z f ?= 1 # 2)%Q with
  | Lt => f
  | Gt => f + 1
  | Eq => if Z.even f then f else f + 1
  end.

Definition float_nearest (q : Q) : Q :=
  (inject_Z (round_half_even (q / 2 ^ float_exp q)) * 2 ^ float_exp q)%Q.

(** The float nearest to a positive [q], the infinity when that is beyond
    the largest float. *)
Definition round_abs (q : Q) : Q :=
  if Qle_bool float_inf (float_nearest q) then float_inf else float_nearest q.

(** The float nearest to [q]. *)
Definition float_round (q : Q) : Q :=
  Qred match (q ?= 0)%Q with
       | Eq => 0
       | Gt => round_abs q
       | Lt => - round_abs (- q)
       end.

(** The value of a float: an infinity is [float_inf] or its opposite. *)
Definition float_val (q : Q) : Q :=
  if is_inf q then (if Qle_bool 0 q then float_inf else - float_inf)%Q else q.

(** [x + y], [x * y] and [x / y] on floats: no exception but for the
    division by zero. *)
Definition float_add (p q : Q) : Q :=
  if is_inf p then p else if is_inf q then q else float_round (p + q).

Definition float_mul (p q : Q) : Q :=
  if is_inf p || is_inf q
  then match (p * q ?= 0)%Q with
       | Gt => float_inf
       | Lt => (- float_inf)%Q
       | Eq => 0%Q
       end
  else float_round (p * q).

Definition float_div (p q : Q) : result Q :=
  if Qeq_bool q 0 then Raise ZeroDivisionError
  else if is_inf p then Ok (if Qle_bool 0 q then p else - p)%Q
  else if is_inf q then Ok 0%Q
  else Ok (float_round (p / q)).

(** ** Numbers computed by the program *)

Inductive num : Type :=
| NInt (z : Z)
| NFloat (q : Q).

Definition num_val (n : num) : Q :=
  match n with
  | NInt z => inject_Z z
  | NFloat q => q
  end.

(** The [int] operand of an operation on floats is converted:
    [OverflowError] when it rounds beyond the largest float. *)
Definition float_of_int (z : Z) : result Q :=
  let r := float_round (inject_Z z) in
  if is_inf r then Raise OverflowError else Ok r.

Definition as_float (n : num) : result Q :=
  match n with
  | NInt z => float_of_int z
  | NFloat q => Ok (float_val q)
  end.

(** [a + b]: an [int] when both are, a [float] otherwise. *)
Definition num_add (a b : num) : result num :=
  match a, b with
  | NInt x, NInt y => Ok (NInt (x + y))
  | _, _ => let* p := as_float a in
            let* q := as_float b in
            Ok (NFloat (float_add p q))
  end.

(** [a * b] *)
Definition num_mul (a b : num) : result num :=
  match a, b with
  | NInt x, NInt y => Ok (NInt (x * y))
  | _, _ => let* p := as_float a in
            let* q := as_float b in
            Ok (NFloat (float_mul p q))
  end.

(** [a / b]: true division, always a [float]; the quotient of two [int]s is
    rounded once, and is an [OverflowError] beyond the largest float. *)
Definition num_div (a b : num) : result num :=
  match a, b with
  | NInt x, NInt y =>
      if y =? 0 then Raise ZeroDivisionError
      else let r := float_round (inject_Z x / inject_Z y) in
           if is_inf r then Raise OverflowError else Ok (NFloat r)
  | _, _ => let* p := as_float a in
            let* q := as_float b in
            let* r := float_div p q in
            Ok (NFloat r)
  end.

(** Comparisons are exact, also between an [int] and a [float]; the
    infinities lie beyond every [int]. *)
Definition num_ext (n : num) : Z * Q :=
  match n with
  | NInt z => (0, inject_Z z)
  | NFloat q => if is_inf q then (if Qle_bool 0 q then 1 else -1, 0%Q) else (0, q)
  end.

Definition num_cmp (a b : num) : comparison :=
  match fst (num_ext a) ?= fst (num_ext b) with
  | Eq => (snd (num_ext a) ?= snd (num_ext b))%Q
  | c => c
  end.

(** [a > b], [a < b], [a == b] *)
Definition num_gt (a b : num) : bool :=
  match num_cmp a b with Gt => true | _ => false end.
Definition num_lt (a b : num) : bool :=
  match num_cmp a b with Lt => true | _ => false end.
Definition num_eq (a b : num) : bool :=
  match num_cmp a b with Eq => true | _ => false end.

(** Truth value of a number: [bool(a)]. *)
Definition num_truthy (a : num) : bool := negb (num_eq a (NInt 0)).

(** [max(a, b)]: the first argument unless the second is greater. *)
Definition num_max (a b : num) : num := if num_gt b a then b else a.

(** ** Raw values of a row *)

Inductive cell : Type :=
| CNone                 (* [None] *)
| CStr (s : string)
| CInt (z : Z)
| CFloat (repr : string) (* a float, given by [str()] of it; NaN is "nan" *)
| CBool (b : bool).

(** [pd.isna(value)] *)
Definition pd_isna (v : cell) : bool :=
  match v with
  | CNone => true
  | CFloat r => String.eqb r "nan"
  | _ => false
  end.

(** [value == s] for a string literal [s] *)
Definition cell_eq_str (v : cell) (s : string) : bool :=
  match v with
  | CStr t => String.eqb t s
  | _ => false
  end.

(** [str(value)] *)
Definition py_str (v : cell) : string :=
  match v with
  | CNone => "None"
  | CStr s => s
  | CInt z => NilZero.string_of_int (Z.to_int z)
  | CFloat r => r
  | CBool true => "True"
  | CBool false => "False"
  end.

(** Truth value of a raw value: [None], [""], [0], [0.0], [-0.0] and
    [False] are false; NaN is true. *)
Definition cell_truthy (v : cell) : bool :=
  match v with
  | CNone => false
  | CStr s => negb (Str.is_empty s)
  | CInt z => negb (z =? 0)
  | CFloat r => negb (String.eqb r "0.0" || String.eqb r "-0.0")
  | CBool b => b
  end.

(** ** [int()] and [float()] on the strings this program passes to them *)

Definition digit_val (c : ascii) : Z := Z.of_N (Str.code c) - 48.

Fixpoint digits_val_acc (acc : Z) (s : string) : Z :=
  match s with
  | EmptyString => acc
  | String c s' => digits_val_acc (acc * 10 + digit_val c) s'
  end.

Definition digits_val (s : string) : Z := digits_val_acc 0 s.

(** CPython refuses to convert a numeral of more than this many digits
    ([sys.int_info.default_max_str_digits]). *)
Definition int_max_str_digits : nat := 4300.

(** [int(s)] for [s] made of digits and dots: [ValueError] unless [s] is a
    non-empty digit string within the length limit. *)
Definition py_int (s : string) : result Z :=
  if Str.is_empty s || negb (Str.forallb Str.is_digit s)
     || (int_max_str_digits <? String.length s)%nat
  then Raise ValueError
  else Ok (digits_val s).

(** [float(s)] for [s] made of digits and dots: [ValueError] unless [s] has
    exactly one dot and at least one digit; the value is the float nearest
    to the decimal numeral. *)
Definition py_float (s : string) : result Q :=
  match Str.split "." s with
  | [ip; fp] =>
      if Str.forallb Str.is_digit ip && Str.forallb Str.is_digit fp
         && negb (Str.is_empty ip && Str.is_empty fp)
      then Ok (float_round (Qmake (digits_val (ip ++ fp))
                                 (Z.to_pos (10 ^ Z.of_nat (String.length fp)))))
      else Raise ValueError
  | _ => Raise ValueError
  end.

(** ** [clean_numeric_value] *)

Definition digit_or_dot (c : ascii) : bool :=
  Str.is_digit c || Ascii.eqb c ".".

Definition clean_chars (value : cell) : string :=
  let str_val := Str.strip (Str.remove_char "," (Str.remove_char "*" (py_str value))) in
  Str.filter digit_or_dot str_val.

Definition clean_numeric_value (value : cell) : result num :=
  if pd_isna value || cell_eq_str value "-" || cell_eq_str value ""
  then Ok (NInt 0)
  else
    let str_val := clean_chars value in
    let body :=
      if Str.contains_char "." str_val
      then let* q := py_float str_val in Ok (NFloat q)
      else if negb (Str.is_empty str_val)
           then let* z := py_int str_val in Ok (NInt z)
           else Ok (NInt 0) in
    match body with
    | Ok n => Ok n
    | Raise ValueError | Raise TypeError => Ok (NInt 0)
    | Raise e => Raise e
    end.

(** ** [determine_era] *)

(** [re.findall(r"\d{4}", s)]: the matches are tried at each position from
    the left; after a match the search goes on behind it. *)
Fixpoint findall_4digits (s : string) : list string :=
  match s with
  | String c1 s' =>
      match s' with
      | String c2 (String c3 (String c4 rest)) =>
          if Str.is_digit c1 && Str.is_digit c2 && Str.is_digit c3 && Str.is_digit c4
          then String c1 (String c2 (String c3 (String c4 EmptyString)))
               :: findall_4digits rest
          else findall_4digits s'
      | _ => []
      end
  | EmptyString => []
  end.

Definition determine_era (span : cell) : result string :=
  if pd_isna span || cell_eq_str span "-" then Ok "Unknown"
  else
    let years := findall_4digits (py_str span) in
    match last years with
    | None => Ok "Unknown"
    | Some y =>
        let* last_year := py_int y in
        if last_year >=? 2010 then Ok "Modern"
        else if last_year >=? 1990 then Ok "Classic"
        else Ok "Vintage"
    end.

(** ** [get_country_from_name] *)

Definition excluded_names : list string :=
  [ "Asia"; "ICC"; "Afr"; "Africa"; "World"; "Rest"; "XI" ].

Definition exclude_teams : gset string := list_to_set excluded_names.

Definition country_codes : list (string * string) :=
  [ ("SL", "Sri Lanka"); ("SA", "South Africa"); ("WI", "West Indies");
    ("NZ", "New Zealand"); ("AUS", "Australia"); ("INDIA", "India");
    ("ENG", "England"); ("PAK", "Pakistan"); ("BDESH", "Bangladesh");
    ("ZIM", "Zimbabwe"); ("AFG", "Afghanistan"); ("IRE", "Ireland");
    ("SCOT", "Scotland"); ("Neth", "Netherlands"); ("UAE", "UAE");
    ("KENYA", "Kenya"); ("Can", "Canada"); ("Ber", "Bermuda");
    ("USA", "USA"); ("Nep", "Nepal"); ("HKG", "Hong Kong");
    ("Oman", "Oman"); ("PNG", "Papua New Guinea"); ("NAM", "Namibia") ].

Definition country_mapping : gmap string string := list_to_map country_codes.

(** The items of [common_patterns], in the order the loop visits them. *)
Definition common_patterns : list (string * string) :=
  [ ("India", "India"); ("Australia", "Australia"); ("England", "England");
    ("Pakistan", "Pakistan"); ("South Africa", "South Africa");
    ("West Indies", "West Indies"); ("Sri Lanka", "Sri Lanka");
    ("New Zealand", "New Zealand"); ("Bangladesh", "Bangladesh");
    ("Zimbabwe", "Zimbabwe") ].

(** One round of the loop over [countries]: the new [valid_countries]. *)
Definition country_step (valid_countries : list string) (country : string)
  : list string :=
  if bool_decide (country ∉ exclude_teams) then
    match country_mapping !! country with
    | Some full => valid_countries ++ [full]
    | None => valid_countries ++ [country]
    end
  else valid_countries.

(** The loop over [common_patterns.items()], left at the first match. *)
Fixpoint pattern_loop (items : list (string * string)) (player_name : string)
  : string :=
  match items with
  | [] => "Unknown"
  | (pattern, country) :: items' =>
      if Str.is_substring (Str.lower pattern) (Str.lower player_name)
      then country
      else pattern_loop items' player_name
  end.

(** [l[i]] where the index is known to be in range: the program indexes
    the pieces of a [split] only at 0, or at 1 when the separator is in the
    string ([split_not_nil], [split_second]). *)
Definition nth_piece (i : nat) (l : list string) : string := default "" (l !! i).

Definition get_country_from_name (player_name : string) : string :=
  let fallback := pattern_loop common_patterns player_name in
  if Str.contains_char "(" player_name && Str.contains_char ")" player_name then
    let country_part :=
      nth_piece 0 (Str.split ")" (nth_piece 1 (Str.split "(" player_name))) in
    let countries := Str.strip <$> Str.split "/" country_part in
    let valid_countries := fold_left country_step countries [] in
    match valid_countries with
    | first :: _ => first
    | [] => fallback
    end
  else fallback.

(** ** [determine_role] *)

(** [d.get(key, 0)] *)
Definition get0 (d : gmap string num) (key : string) : num :=
  default (NInt 0) (d !! key).

Definition determine_role (batting_stats bowling_stats fielding_stats : gmap string num)
  : result string :=
  let batting_avg := get0 batting_stats "Ave" in
  let bowling_avg := get0 bowling_stats "Ave" in
  let wickets := get0 bowling_stats "Wkts" in
  let runs := get0 batting_stats "Runs" in
  let dismissals := get0 fielding_stats "Dis" in
  let stumpings := get0 fielding_stats "St" in
  if num_gt stumpings (NInt 5)
     || (num_gt dismissals (NInt 20) && num_gt stumpings (NInt 0))
  then Ok "Wicket-keeper"
  else if (num_gt runs (NInt 1000) && num_gt wickets (NInt 20))
          || (num_gt batting_avg (NInt 25) && num_gt bowling_avg (NInt 0)
              && num_lt bowling_avg (NInt 35) && num_gt wickets (NInt 10))
  then Ok "All-rounder"
  else
    let* hundredth := num_div runs (NInt 100) in
    if num_gt wickets hundredth && num_gt wickets (NInt 50)
    then Ok "Bowler"
    else if num_gt wickets (NInt 100)
    then Ok "Bowler"
    else Ok "Batsman".

(** ** [process_cricket_data]: merging, filtering and ordering *)

(** The loaded [players_data]: for each player, category and format the
    row of that player as a dictionary, empty when there is none.  The
    loading of the files into this dictionary is modelled further down. *)

Inductive format : Type := Test | ODI | T20.

Record formats : Type := { of_ODI : gmap string cell;
                           of_T20 : gmap string cell;
                           of_Test : gmap string cell }.

Record player_data : Type := { batting : formats;
                               bowling : formats;
                               fielding : formats }.

(** [d[fmt]] *)
Definition at_format (d : formats) (fmt : format) : gmap string cell :=
  match fmt with
  | Test => of_Test d
  | ODI => of_ODI d
  | T20 => of_T20 d
  end.

(** Truth value of a dictionary: it is not empty. *)
Definition row_truthy (r : gmap string cell) : bool := negb (bool_decide (r = ∅)).

(** [r.get(key, dflt)] and [r.get(key)] *)
Definition row_get (r : gmap string cell) (key : string) (dflt : cell) : cell :=
  default dflt (r !! key).

(** A [for] loop whose body may raise. *)
Fixpoint for_loop {S X} (body : S -> X -> result S) (xs : list X) (st : S)
  : result S :=
  match xs with
  | [] => Ok st
  | x :: xs' => let* st' := body st x in for_loop body xs' st'
  end.

Definition priority : list format := [Test; ODI; T20].

Record batting_vars : Type :=
  { total_runs : num; total_matches_batting : num; batting_avg : num; span : cell }.

Definition batting_body (data : player_data) (st : batting_vars) (fmt : format)
  : result batting_vars :=
  if row_truthy (at_format (batting data) fmt) then
    let batting_data := at_format (batting data) fmt in
    let* r := clean_numeric_value (row_get batting_data "Runs" (CInt 0)) in
    let* total_runs' := num_add (total_runs st) r in
    let* m := clean_numeric_value (row_get batting_data "Mat" (CInt 0)) in
    let* total_matches' := num_add (total_matches_batting st) m in
    let* a :=
      if negb (num_truthy (batting_avg st))
         && cell_truthy (row_get batting_data "Ave" CNone)
      then clean_numeric_value (row_get batting_data "Ave" (CInt 0))
      else Ok (batting_avg st) in
    let sp :=
      if negb (cell_truthy (span st))
         && cell_truthy (row_get batting_data "Span" CNone)
      then row_get batting_data "Span" (CStr "")
      else span st in
    Ok {| total_runs := total_runs';
          total_matches_batting := total_matches';
          batting_avg := a;
          span := sp |}
  else Ok st.

Definition batting_init : batting_vars :=
  {| total_runs := NInt 0; total_matches_batting := NInt 0;
     batting_avg := NInt 0; span := CStr "" |}.

Record bowling_vars : Type :=
  { total_wickets : num; total_matches_bowling : num; bowling_avg : num }.

Definition bowling_body (data : player_data) (st : bowling_vars) (fmt : format)
  : result bowling_vars :=
  if row_truthy (at_format (bowling data) fmt) then
    let bowling_data := at_format (bowling data) fmt in
    let* w := clean_numeric_value (row_get bowling_data "Wkts" (CInt 0)) in
    let* total_wickets' := num_add (total_wickets st) w in
    let* m := clean_numeric_value (row_get bowling_data "Mat" (CInt 0)) in
    let* total_matches' := num_add (total_matches_bowling st) m in
    let* a :=
      if negb (num_truthy (bowling_avg st))
         && cell_truthy (row_get bowling_data "Ave" CNone)
      then clean_numeric_value (row_get bowling_data "Ave" (CInt 0))
      else Ok (bowling_avg st) in
    Ok {| total_wickets := total_wickets';
          total_matches_bowling := total_matches';
          bowling_avg := a |}
  else Ok st.

Definition bowling_init : bowling_vars :=
  {| total_wickets := NInt 0; total_matches_bowling := NInt 0;
     bowling_avg := NInt 0 |}.

Record fielding_vars : Type :=
  { total_dismissals : num; total_stumpings : num }.

Definition fielding_body (data : player_data) (st : fielding_vars) (fmt : format)
  : result fielding_vars :=
  if row_truthy (at_format (fielding data) fmt) then
    let fielding_data := at_format (fielding data) fmt in
    let* d := clean_numeric_value (row_get fielding_data "Dis" (CInt 0)) in
    let* total_dismissals' := num_add (total_dismissals st) d in
    let* s := clean_numeric_value (row_get fielding_data "St" (CInt 0)) in
    let* total_stumpings' := num_add (total_stumpings st) s in
    Ok {| total_dismissals := total_dismissals';
          total_stumpings := total_stumpings' |}
  else Ok st.

Definition fielding_init : fielding_vars :=
  {| total_dismissals := NInt 0; total_stumpings := NInt 0 |}.

(** The numeric entries of the three combined dictionaries
    ([combined_batting] also stores the span, which is read from the
    variable [span] and never from the dictionary). *)
Definition combined_batting (b : batting_vars) : gmap string num :=
  {[ "Runs" := total_runs b; "Mat" := total_matches_batting b;
     "Ave" := batting_avg b ]}.

Definition combined_bowling (w : bowling_vars) : gmap string num :=
  {[ "Wkts" := total_wickets w; "Mat" := total_matches_bowling w;
     "Ave" := bowling_avg w ]}.

Definition combined_fielding (f : fielding_vars) : gmap string num :=
  {[ "Dis" := total_dismissals f; "St" := total_stumpings f ]}.

(** [max(combined_batting.get("Mat", 0), combined_bowling.get("Mat", 0))] *)
Definition total_matches_of (b : batting_vars) (w : bowling_vars) : num :=
  num_max (get0 (combined_batting b) "Mat") (get0 (combined_bowling w) "Mat").

(** The test that sends the loop to the next player. *)
Definition skipped (b : batting_vars) (w : bowling_vars) : bool :=
  let total_matches := total_matches_of b w in
  num_lt total_matches (NInt 100)
  || (num_eq total_matches (NInt 0) && num_eq (total_runs b) (NInt 0)
      && num_eq (total_wickets w) (NInt 0)).

Record player_obj : Type :=
  { name : string; country : string; role : string; matches : num;
    runs : num; wickets : num; average : num; era : string }.

Definition clean_name_of (player_name : string) : string :=
  if Str.contains_char "(" player_name
  then Str.strip (nth_piece 0 (Str.split "(" player_name))
  else player_name.

(** The body of the [try] for one player: [None] is [continue]. *)
Definition player_body (player_name : string) (data : player_data)
  : result (option player_obj) :=
  let* b := for_loop (batting_body data) priority batting_init in
  let* w := for_loop (bowling_body data) priority bowling_init in
  let* f := for_loop (fielding_body data) priority fielding_init in
  let total_matches := total_matches_of b w in
  if skipped b w then Ok None
  else
    let* role := determine_role (combined_batting b) (combined_bowling w)
                                (combined_fielding f) in
    let clean_name := clean_name_of player_name in
    let country := get_country_from_name player_name in
    let average :=
      if num_gt (batting_avg b) (NInt 0) then batting_avg b
      else if String.eqb role "Bowler" then bowling_avg w
      else NInt 0 in
    let* era := determine_era (span b) in
    Ok (Some {| name := clean_name; country := country; role := role;
                matches := total_matches; runs := total_runs b;
                wickets := total_wickets w; average := average; era := era |}).

(** One round of the loop over [players_data.items()]; an exception in the
    body is caught and the player is left out. *)
Definition player_step (final_players : list player_obj)
    (item : string * player_data) : list player_obj :=
  match player_body item.1 item.2 with
  | Ok (Some player) => final_players ++ [player]
  | Ok None => final_players
  | Raise _ => final_players
  end.

Definition collect_players (players_data : list (string * player_data))
  : list player_obj :=
  fold_left player_step players_data [].

(** The sort key [x["runs"] + x["wickets"] * 50]. *)
Definition sort_key (x : player_obj) : result num :=
  let* fifty := num_mul (wickets x) (NInt 50) in
  num_add (runs x) fifty.

(** The keys of the records, computed in the order of the list before any
    record is moved; the first exception ends it. *)
Fixpoint with_keys (l : list player_obj) : result (list (num * player_obj)) :=
  match l with
  | [] => Ok []
  | x :: l' =>
      let* k := sort_key x in
      let* ks := with_keys l' in
      Ok ((k, x) :: ks)
  end.

(** [l.sort(key=key, reverse=True)] on records that carry their keys:
    decreasing keys, and elements with equal keys stay in the order they
    have in [l].  The result of such a sort does not depend on how it is
    computed ([sort_reverse_unique]); here each element is put in front of
    the sorted rest and moved behind the elements of greater key. *)
Fixpoint insert_desc {A} (key : A -> num) (x : A) (l : list A) : list A :=
  match l with
  | [] => [x]
  | y :: l' => if num_gt (key y) (key x) then y :: insert_desc key x l'
               else x :: l
  end.

Definition sort_reverse {A} (key : A -> num) (l : list A) : list A :=
  foldr (insert_desc key) [] l.

(** The sort is outside every [try]: an exception of a key is raised by
    [process_cricket_data]. *)
Definition process_cricket_data (players_data : list (string * player_data))
  : result (list player_obj) :=
  let final_players := collect_players players_data in
  let* keyed := with_keys final_players in
  Ok ((sort_reverse fst keyed).*2).

(** ** [process_cricket_data]: loading the files *)

(** The nine files are given as a function of the category and the format:
    [Some rows] with the rows of the table in their order when the file is
    there and is read, [None] when it is missing or the reading raises.
    [players_data] is the list of its items in the order of insertion.
    What is printed is outside the model. *)

Inductive category : Type := Batting | Bowling | Fielding.

#[global] Instance category_eq_dec : EqDecision category.
Proof. solve_decision. Defined.

#[global] Instance format_eq_dec : EqDecision format.
Proof. solve_decision. Defined.

(** [data[category]] *)
Definition at_category (data : player_data) (cat : category) : formats :=
  match cat with
  | Batting => batting data
  | Bowling => bowling data
  | Fielding => fielding data
  end.

(** The entry the [defaultdict] makes for a name it has not seen: no row
    in any category and format. *)
Definition new_player : player_data :=
  {| batting := {| of_ODI := ∅; of_T20 := ∅; of_Test := ∅ |};
     bowling := {| of_ODI := ∅; of_T20 := ∅; of_Test := ∅ |};
     fielding := {| of_ODI := ∅; of_T20 := ∅; of_Test := ∅ |} |}.

(** [d[format_type] = row] *)
Definition set_format (d : formats) (fmt : format) (row : gmap string cell) : formats :=
  match fmt with
  | ODI => {| of_ODI := row; of_T20 := of_T20 d; of_Test := of_Test d |}
  | T20 => {| of_ODI := of_ODI d; of_T20 := row; of_Test := of_Test d |}
  | Test => {| of_ODI := of_ODI d; of_T20 := of_T20 d; of_Test := row |}
  end.

(** [data[category][format_type] = row] *)
Definition set_row (data : player_data) (cat : category) (fmt : format)
    (row : gmap string cell) : player_data :=
  match cat with
  | Batting => {| batting := set_format (batting data) fmt row;
                  bowling := bowling data; fielding := fielding data |}
  | Bowling => {| batting := batting data;
                  bowling := set_format (bowling data) fmt row;
                  fielding := fielding data |}
  | Fielding => {| batting := batting data; bowling := bowling data;
                   fielding := set_format (fielding data) fmt row |}
  end.

(** [players_data[player_name][category][format_type] = row], on the items
    of the dictionary in the order of insertion: the entry of a known name
    is changed where it stands, a new name gets an entry at the end. *)
Fixpoint store_row (players_data : list (string * player_data))
    (player_name : string) (cat : category) (fmt : format)
    (row : gmap string cell) : list (string * player_data) :=
  match players_data with
  | [] => [(player_name, set_row new_player cat fmt row)]
  | (n, d) :: rest =>
      if String.eqb n player_name then (n, set_row d cat fmt row) :: rest
      else (n, d) :: store_row rest player_name cat fmt row
  end.

(** [str(row.get("Player", "")).strip()] *)
Definition row_player (row : gmap string cell) : string :=
  Str.strip (py_str (row_get row "Player" (CStr ""))).

(** [not (not player_name or player_name == "nan")] *)
Definition name_kept (player_name : string) : bool :=
  negb (Str.is_empty player_name || String.eqb player_name "nan").

(** The body of the loop over the rows of one file. *)
Definition load_row (cat : category) (fmt : format)
    (players_data : list (string * player_data)) (row : gmap string cell)
  : list (string * player_data) :=
  let player_name := row_player row in
  if name_kept player_name then store_row players_data player_name cat fmt row
  else players_data.

(** One file: its rows when it is there and can be read, nothing when it is
    missing or the reading fails. *)
Definition load_file (cat : category) (fmt : format)
    (players_data : list (string * player_data))
    (file : option (list (gmap string cell))) : list (string * player_data) :=
  match file with
  | Some rows => fold_left (load_row cat fmt) rows players_data
  | None => players_data
  end.

Definition categories : list category := [Batting; Bowling; Fielding].

Definition file_formats : list format := [ODI; T20; Test].

(** The two loops over the categories and the formats. *)
Definition load_players (files : category -> format -> option (list (gmap string cell)))
  : list (string * player_data) :=
  fold_left
    (fun players_data cat =>
       fold_left (fun players_data fmt =>
                    load_file cat fmt players_data (files cat fmt))
                 file_formats players_data)
    categories [].

(** [process_cricket_data] from the files on. *)
Definition process_files (files : category -> format -> option (list (gmap string cell)))
  : result (list player_obj) :=
  process_cricket_data (load_players files).

(** ** [main]: the statistics *)

(** A dictionary from texts to counts, as the list of its items in the
    order of insertion. *)
Fixpoint dict_get (d : list (string * Z)) (key : string) (dflt : Z) : Z :=
  match d with
  | [] => dflt
  | (k, v) :: rest => if String.eqb k key then v else dict_get rest key dflt
  end.

Fixpoint dict_set (d : list (string * Z)) (key : string) (v : Z)
  : list (string * Z) :=
  match d with
  | [] => [(key, v)]
  | (k, v0) :: rest =>
      if String.eqb k key then (k, v) :: rest else (k, v0) :: dict_set rest key v
  end.

(** The body of the loop over the players: [roles] and [eras] each count
    one more for the role and the era of the player. *)
Definition statistics_body (st : list (string * Z) * list (string * Z))
    (player : player_obj) : list (string * Z) * list (string * Z) :=
  let '(roles, eras) := st in
  (dict_set roles (role player) (dict_get roles (role player) 0 + 1),
   dict_set eras (era player) (dict_get eras (era player) 0 + 1)).

Definition statistics (players : list player_obj)
  : list (string * Z) * list (string * Z) :=
  fold_left statistics_body players ([], []).

(** * Vocabulary of the properties *)

(** ** Cleaned values *)

(** The value is absent, the placeholder or empty. *)
Definition is_placeholder (v : cell) : bool :=
  pd_isna v || cell_eq_str v "-" || cell_eq_str v "".

(** What is made of the digits and dots that are left: a float when there
    is a dot, an integer otherwise, 0 for the empty string and whenever
    the conversion fails. *)
Definition parse_or_zero (s : string) : num :=
  if Str.contains_char "." s then
    match py_float s with Ok q => NFloat q | Raise _ => NInt 0 end
  else if Str.is_empty s then NInt 0
  else match py_int s with Ok z => NInt z | Raise _ => NInt 0 end.

(** The number the cleaning is to give: 0 for a placeholder, and otherwise
    the digits and dots of the text of the value, parsed. *)
Definition clean_spec (v : cell) : num :=
  if is_placeholder v then NInt 0
  else parse_or_zero (Str.filter digit_or_dot (py_str v)).

(** The cleaned value of a column of a row, 0 when the column is missing. *)
Definition cleaned (r : gmap string cell) (key : string) : num :=
  clean_spec (row_get r key (CInt 0)).

(** ** The rules of the roles *)

(** The value of a statistic: [d.get(key, 0)] as a rational number. *)
Definition stat (d : gmap string num) (key : string) : Q := num_val (get0 d key).

Definition keeper_rule (dismissals stumpings : Q) : Prop :=
  (5 < stumpings \/ (20 < dismissals /\ 0 < stumpings))%Q.

Definition all_rounder_rule (runs batting_avg wickets bowling_avg : Q) : Prop :=
  ((1000 < runs /\ 20 < wickets)
   \/ (25 < batting_avg /\ 0 < bowling_avg /\ bowling_avg < 35 /\ 10 < wickets))%Q.

Definition bowler_rule (runs wickets : Q) : Prop :=
  ((runs / 100 < wickets /\ 50 < wickets) \/ 100 < wickets)%Q.

(** ** Years and eras *)

(** [d] is made of four digits. *)
Definition four_digits (d : string) : Prop :=
  String.length d = 4%nat /\ Str.forallb Str.is_digit d = true.

(** [s] contains four digits in a row. *)
Definition has_4digits (s : string) : Prop :=
  exists pre d post, s = pre ++ d ++ post /\ four_digits d.

(** The last character of [s] is a digit. *)
Fixpoint ends_digit (s : string) : bool :=
  match s with
  | EmptyString => false
  | String c EmptyString => Str.is_digit c
  | String _ s' => ends_digit s'
  end.

(** [s] starts with four digits. *)
Definition starts_4digits (s : string) : bool :=
  match s with
  | String c1 (String c2 (String c3 (String c4 _))) =>
      Str.is_digit c1 && Str.is_digit c2 && Str.is_digit c3 && Str.is_digit c4
  | _ => false
  end.

(** The year the era is decided on: the last match, read as a number. *)
Definition end_year (span : cell) : option Z :=
  digits_val <$> last (findall_4digits (py_str span)).

Definition era_of_year (y : Z) : string :=
  if y >=? 2010 then "Modern" else if y >=? 1990 then "Classic" else "Vintage".

(** The era of a span, as [determine_era] computes it without raising. *)
Definition era_of (span : cell) : string :=
  if pd_isna span || cell_eq_str span "-" then "Unknown"
  else match end_year span with
       | None => "Unknown"
       | Some y => era_of_year y
       end.

(** ** Segments, tokens and known countries *)

(** The text taken for the parenthesized segment:
    [player_name.split("(")[1].split(")")[0]]. *)
Definition segment_of (player_name : string) : string :=
  nth_piece 0 (Str.split ")" (nth_piece 1 (Str.split "(" player_name))).

(** The full name of a token: its entry in the table, or the token. *)
Definition full_name (token : string) : string :=
  default token (country_mapping !! token).

(** The tokens of a segment that are left, under their full names. *)
Definition surviving_tokens (segment : string) : list string :=
  full_name <$> filter (fun t => t ∉ exclude_teams)
                       (Str.strip <$> Str.split "/" segment).

Definition known_countries : list string :=
  [ "India"; "Australia"; "England"; "Pakistan"; "South Africa";
    "West Indies"; "Sri Lanka"; "New Zealand"; "Bangladesh"; "Zimbabwe" ].

(** Where the segment ends: at the end of the name or before the next
    parenthesis. *)
Definition ends_segment (rest : string) : Prop :=
  match rest with
  | EmptyString => True
  | String c _ => c = "("%char \/ c = ")"%char
  end.

(** Some opening parenthesis of [s] has a closing one behind it. *)
Fixpoint closes_after_open (s : string) : bool :=
  match s with
  | EmptyString => false
  | String c s' =>
      (Ascii.eqb c "(" && Str.contains_char ")" s') || closes_after_open s'
  end.

(** [s] does not end with white space. *)
Fixpoint last_kept (s : string) : bool :=
  match s with
  | EmptyString => true
  | String c EmptyString => negb (Str.is_space c)
  | String _ s' => last_kept s'
  end.

(** The first known country whose name occurs in the player name, letter
    case apart. *)
Definition first_known (player_name : string) : option string :=
  head (filter (fun c => Str.is_substring (Str.lower c) (Str.lower player_name) = true)
               known_countries).

Definition codes : list string := country_codes.*1.

Definition is_letter (c : ascii) : bool :=
  (((65 <=? Str.code c) && (Str.code c <=? 90))
   || ((97 <=? Str.code c) && (Str.code c <=? 122)))%N.

Definition is_small_letter (c : ascii) : bool :=
  ((97 <=? Str.code c) && (Str.code c <=? 122))%N.

(** ** Numbers in order and in range *)

(** A number other than the infinities and the [int]s beyond them. *)
Definition finite (n : num) : Prop := (Qabs (num_val n) < float_inf)%Q.

(** The order of the numbers: [a <= b]. *)
Definition num_le (a b : num) : Prop := num_gt a b = false.

Definition ext_le (x y : Z * Q) : Prop :=
  fst x < fst y \/ (fst x = fst y /\ (snd x <= snd y)%Q).

(** Halfway between the largest float and 2^1024: from there on rounding
    leaves the floats. *)
Definition float_threshold : Q := inject_Z (2 ^ 1024 - 2 ^ 970).

(** An [int] below [B] in absolute value, or a float. *)
Definition bounded (B : Z) (n : num) : Prop :=
  match n with
  | NInt z => Z.abs z < B
  | NFloat _ => True
  end.

(** [runs / 100] is beyond the floats: [runs] is an [int] of that size. *)
Definition division_overflows (runs : num) : Prop :=
  exists z, runs = NInt z /\ 100 * (2 ^ 1024 - 2 ^ 970) <= Z.abs z.

(** ** The merging loops *)

(** The rows of the formats [fmts] that are there, in the order of [fmts]. *)
Definition rows_present (d : formats) (fmts : list format) : list (gmap string cell) :=
  filter (fun r => row_truthy r = true) (at_format d <$> fmts).

(** The first number of a list that is not zero. *)
Definition first_nonzero (l : list num) : option num :=
  head (filter (fun n => num_truthy n = true) l).

(** The average kept when the loop starts with the average [a]. *)
Definition kept_average (a : num) (averages : list num) : option num :=
  if num_truthy a then Some a else first_nonzero averages.

(** Python's sum of a list of numbers: they are added one by one, in
    their order, to what is there. *)
Definition num_sum_from (start : num) (l : list num) : result num :=
  for_loop num_add l start.

Definition num_sum (l : list num) : result num := num_sum_from (NInt 0) l.

(** The cleaned values of a column, over the rows that are there. *)
Definition column (d : formats) (key : string) : list num :=
  (fun r => cleaned r key) <$> rows_present d priority.

(** Every [int] of a column has at most 300 digits. *)
Definition modest (d : formats) (key : string) : Prop :=
  forall fmt, bounded (10 ^ 300) (cleaned (at_format d fmt) key).

(** No summed column of the player holds an [int] of more than 300
    digits. *)
Definition modest_player (data : player_data) : Prop :=
  modest (batting data) "Runs" /\ modest (batting data) "Mat"
  /\ modest (bowling data) "Wkts" /\ modest (bowling data) "Mat"
  /\ modest (fielding data) "Dis" /\ modest (fielding data) "St".

(** The three merging loops of a player end, with the variables [b], [w]
    and [f]. *)
Definition merged_as (data : player_data) (b : batting_vars) (w : bowling_vars)
    (f : fielding_vars) : Prop :=
  for_loop (batting_body data) priority batting_init = Ok b
  /\ for_loop (bowling_body data) priority bowling_init = Ok w
  /\ for_loop (fielding_body data) priority fielding_init = Ok f.

(** ** Records, the filter and the order *)

(** The record built from the merged variables and the role. *)
Definition record_of (player_name : string) (b : batting_vars) (w : bowling_vars)
    (role : string) : player_obj :=
  {| name := clean_name_of player_name;
     country := get_country_from_name player_name;
     role := role;
     matches := total_matches_of b w;
     runs := total_runs b;
     wickets := total_wickets w;
     average := if num_gt (batting_avg b) (NInt 0) then batting_avg b
                else if String.eqb role "Bowler" then bowling_avg w
                else NInt 0;
     era := era_of (span b) |}.

(** The record of a player, when one is made. *)
Definition record_if_kept (item : string * player_data) : option player_obj :=
  match player_body item.1 item.2 with
  | Ok r => r
  | Raise _ => None
  end.

(** The rule of the filter, on the values of the totals. *)
Definition excluded_rule (total_matches total_runs total_wickets : Q) : Prop :=
  (total_matches < 100
   \/ (total_matches == 0 /\ total_runs == 0 /\ total_wickets == 0))%Q.

(** [x] may stand before [y]: its key is not smaller. *)
Definition key_ge {A} (key : A -> num) (x y : A) : Prop := num_le (key y) (key x).

(** The elements of [l] whose key equals [k], in their order. *)
Definition with_key {A} (key : A -> num) (k : num) (l : list A) : list A :=
  filter (fun x => num_eq (key x) k = true) l.

(** The key of a record whose key is computed without an exception. *)
Definition key_of (x : player_obj) : num :=
  match sort_key x with
  | Ok k => k
  | Raise _ => NInt 0
  end.

(** ** Sample players *)

Definition no_rows : formats := {| of_ODI := ∅; of_T20 := ∅; of_Test := ∅ |}.

Definition test_only (r : gmap string cell) : formats :=
  {| of_ODI := ∅; of_T20 := ∅; of_Test := r |}.

Definition batting_row (runs mat : Z) (ave span : cell) : gmap string cell :=
  {[ "Player" := CStr "A"; "Runs" := CInt runs; "Mat" := CInt mat;
     "Ave" := ave; "Span" := span ]}.

Definition bowling_row (wkts mat : Z) (ave : cell) : gmap string cell :=
  {[ "Player" := CStr "A"; "Wkts" := CInt wkts; "Mat" := CInt mat; "Ave" := ave ]}.

(** A player with one Test batting row. *)
Definition test_batsman (runs mat : Z) : player_data :=
  {| batting := test_only (batting_row runs mat (CFloat "45.5") (CStr "2000-2015"));
     bowling := no_rows; fielding := no_rows |}.

(** The merged variables of the sample players. *)
Definition test_batsman_vars (runs mat : Z) : batting_vars :=
  {| total_runs := NInt runs; total_matches_batting := NInt mat;
     batting_avg := NFloat (Qred 45.5); span := CStr "2000-2015" |}.

Definition test_batsman_record : player_obj :=
  {| name := "A"; country := "Australia"; role := "Batsman";
     matches := NInt 150; runs := NInt 5000; wickets := NInt 0;
     average := NFloat (Qred 45.5); era := "Modern" |}.

Definition test_bowler : player_data :=
  {| batting := no_rows;
     bowling := test_only (bowling_row 150 120 (CFloat "25.5"));
     fielding := no_rows |}.

(** A player whose batting average is the placeholder and who bowled a
    little. *)
Definition test_no_average : player_data :=
  {| batting := test_only (batting_row 5000 150 (CStr "-") (CStr "2000-2015"));
     bowling := test_only (bowling_row 5 150 (CFloat "30.0"));
     fielding := no_rows |}.

(** The batting rows of a player whose Test row has no span (pandas holds
    NaN for the empty cell) and whose ODI row has the span "2000-2015". *)
Definition empty_test_span : player_data :=
  {| batting :=
       {| of_ODI := batting_row 3000 100 (CFloat "35.0") (CStr "2000-2015");
          of_T20 := ∅;
          of_Test := batting_row 5000 150 (CFloat "40.5") (CFloat "nan") |};
     bowling := no_rows; fielding := no_rows |}.

(** The same rows when the Test table has no column "Span" at all. *)
Definition no_test_span : player_data :=
  {| batting :=
       {| of_ODI := batting_row 3000 100 (CFloat "35.0") (CStr "2000-2015");
          of_T20 := ∅;
          of_Test := delete "Span" (batting_row 5000 150 (CFloat "40.5") CNone) |};
     bowling := no_rows; fielding := no_rows |}.

(** [n] zeros. *)
Fixpoint zeros (n : nat) : string :=
  match n with
  | O => EmptyString
  | S n' => String "0" (zeros n')
  end.

(** A player with 150 Test matches whose runs are the numeral of 10^400. *)
Definition huge_runs : player_data :=
  {| batting :=
       test_only {[ "Player" := CStr "A"; "Runs" := CStr (String "1" (zeros 400));
                    "Mat" := CInt 150; "Ave" := CFloat "45.5";
                    "Span" := CStr "2000-2015" ]};
     bowling := no_rows; fielding := no_rows |}.

(** The merged batting variables of [huge_runs]. *)
Definition huge_runs_vars : batting_vars :=
  {| total_runs := NInt (10 ^ 400); total_matches_batting := NInt 150;
     batting_avg := NFloat (Qred 45.5); span := CStr "2000-2015" |}.

(** Players with 100 Test matches: one with the runs [runs], a float or an
    [int], one with the wickets [wkts]. *)
Definition runs_only (runs : cell) : player_data :=
  {| batting := test_only {[ "Player" := CStr "A"; "Runs" := runs; "Mat" := CInt 100 ]};
     bowling := no_rows; fielding := no_rows |}.

Definition wickets_only (wkts : cell) : player_data :=
  {| batting := no_rows;
     bowling := test_only {[ "Player" := CStr "A"; "Wkts" := wkts; "Mat" := CInt 100 ]};
     fielding := no_rows |}.

(** A player whose runs are the numeral of 10^310 and whose wickets are the
    float 0.5. *)
Definition unsortable : player_data :=
  {| batting :=
       test_only {[ "Player" := CStr "A"; "Runs" := CStr (String "1" (zeros 310));
                    "Mat" := CInt 100 ]};
     bowling :=
       test_only {[ "Player" := CStr "A"; "Wkts" := CFloat "0.5"; "Mat" := CInt 100 ]};
     fielding := no_rows |}.

(** A player whose Test fielding row has the numeral of 10^400 for the
    dismissals and whose ODI row has the float 0.5. *)
Definition huge_dismissals : player_data :=
  {| batting := no_rows; bowling := no_rows;
     fielding :=
       {| of_ODI := {[ "Player" := CStr "A"; "Dis" := CFloat "0.5" ]};
          of_T20 := ∅;
          of_Test := {[ "Player" := CStr "A";
                        "Dis" := CStr (String "1" (zeros 400)) ]} |} |}.

Definition five_players : list (string * player_data) :=
  [("A", test_batsman 5000 150); ("B", test_batsman 5000 120);
   ("C", test_batsman 7000 130); ("D", test_bowler);
   ("E", test_batsman 5000 110)].

(** ** Loading, names and counts *)

(** [players_data[name]] without making an entry. *)
Fixpoint lookup_player (players_data : list (string * player_data))
    (player_name : string) : option player_data :=
  match players_data with
  | [] => None
  | (n, d) :: rest =>
      if String.eqb n player_name then Some d else lookup_player rest player_name
  end.

(** The row held for a player, category and format; empty when there is
    none. *)
Definition stored_row (players_data : list (string * player_data))
    (player_name : string) (cat : category) (fmt : format) : gmap string cell :=
  match lookup_player players_data player_name with
  | Some d => at_format (at_category d cat) fmt
  | None => ∅
  end.

(** The rows of a file that carry the name [player_name]. *)
Definition rows_named (player_name : string) (rows : list (gmap string cell))
  : list (gmap string cell) :=
  filter (fun r => row_player r = player_name) rows.

(** The files in the order in which they are read. *)
Definition sources : list (category * format) :=
  [ (Batting, ODI); (Batting, T20); (Batting, Test);
    (Bowling, ODI); (Bowling, T20); (Bowling, Test);
    (Fielding, ODI); (Fielding, T20); (Fielding, Test) ].

(** The loading of one file. *)
Definition load_source (files : category -> format -> option (list (gmap string cell)))
    (players_data : list (string * player_data))
    (src : category * format) : list (string * player_data) :=
  load_file src.1 src.2 players_data (files src.1 src.2).

(** A dictionary gets a key at its end unless it has the key. *)
Definition add_name (names : list string) (n : string) : list string :=
  if bool_decide (n ∈ names) then names else names ++ [n].

(** The names of a list, each at the place where it comes first. *)
Definition first_seen (l : list string) : list string := fold_left add_name l [].

(** The names under which the rows of a file are stored. *)
Definition kept_names (file : option (list (gmap string cell))) : list string :=
  match file with
  | Some rows => filter (fun n => name_kept n = true) (row_player <$> rows)
  | None => []
  end.

(** The names of all files, in the order in which the rows are read. *)
Definition scanned_names (files : category -> format -> option (list (gmap string cell)))
  : list string :=
  concat ((fun src => kept_names (files src.1 src.2)) <$> sources).

(** [s] does not start with white space. *)
Definition head_kept (s : string) : bool :=
  match s with
  | EmptyString => true
  | String c _ => negb (Str.is_space c)
  end.

Definition sample_rows : list (gmap string cell) :=
  [ {[ "Player" := CStr " A (AUS)"; "Runs" := CInt 100; "Mat" := CInt 3 ]};
    {[ "Player" := CFloat "nan"; "Runs" := CInt 7 ]};
    {[ "Player" := CStr "B"; "Runs" := CInt 900; "Mat" := CInt 120 ]};
    {[ "Player" := CStr "A (AUS) "; "Runs" := CInt 5000; "Mat" := CInt 150 ]} ].

(** One batting file for the Test format, no other file. *)
Definition sample_files (cat : category) (fmt : format)
  : option (list (gmap string cell)) :=
  match cat, fmt with
  | Batting, Test => Some sample_rows
  | _, _ => None
  end.

Definition sample_player_A : player_data :=
  set_row new_player Batting Test
    {[ "Player" := CStr "A (AUS) "; "Runs" := CInt 5000; "Mat" := CInt 150 ]}.

Definition sample_player_B : player_data :=
  set_row new_player Batting Test
    {[ "Player" := CStr "B"; "Runs" := CInt 900; "Mat" := CInt 120 ]}.

(** The digits of a text. *)
Definition digits_of (s : string) : string := Str.filter Str.is_digit s.

(** The float written by the decimal numeral [ip.fp]: the one nearest to
    its value. *)
Definition decimal_value (ip fp : string) : Q :=
  float_round (Qmake (digits_val (ip ++ fp))
                     (Z.to_pos (10 ^ Z.of_nat (String.length fp)))).

Definition eras : list string := ["Modern"; "Classic"; "Vintage"; "Unknown"].

(** The years written with four digits. *)
Definition four_digit_years : list Z := seqZ 1000 9000.

Definition role_labels : list string :=
  ["Wicket-keeper"; "All-rounder"; "Bowler"; "Batsman"].

(** Fielding files and no others. *)
Definition fielding_files (cat : category) (fmt : format)
  : option (list (gmap string cell)) :=
  match cat with
  | Fielding => Some sample_rows
  | _ => None
  end.

(** The counting of one field. *)
Definition count_step (field : player_obj -> string) (d : list (string * Z))
    (player : player_obj) : list (string * Z) :=
  dict_set d (field player) (dict_get d (field player) 0 + 1).

(** The number of players with the label [k]. *)
Definition count_of (field : player_obj -> string) (k : string)
    (players : list player_obj) : Z :=
  Z.of_nat (length (filter (fun p => field p = k) players)).

(** The sum of the counts of a dictionary. *)
Definition dict_total (d : list (string * Z)) : Z :=
  foldr (fun kv acc => kv.2 + acc) 0 d.

(** * Properties *)

(** ** Floats *)

Lemma pow2_pos (k : Z) : (0 < 2 ^ k)%Q.
Proof. apply Qpower_0_lt. reflexivity. Qed.

Lemma pow2_plus (a b : Z) : (2 ^ (a + b) == 2 ^ a * 2 ^ b)%Q.
Proof. apply Qpower_plus. discriminate. Qed.

Lemma pow2_minus (a b : Z) : (2 ^ (a - b) == 2 ^ a / 2 ^ b)%Q.
Proof. apply Qpower_minus. discriminate. Qed.

Lemma pow2_Z (k : Z) : 0 <= k -> (inject_Z (2 ^ k) == 2 ^ k)%Q.
Proof. intros Hk. apply (Zpower_Qpower 2 k Hk). Qed.

Lemma pow2_le (a b : Z) : a <= b -> (2 ^ a <= 2 ^ b)%Q.
Proof. intros Hab. apply Qpower_le_compat_l; [exact Hab|discriminate]. Qed.

Lemma pow2_lt (a b : Z) : a < b -> (2 ^ a < 2 ^ b)%Q.
Proof. intros Hab. apply Qpower_lt_compat_l; [exact Hab|reflexivity]. Qed.

Lemma pow2_le_inv (a b : Z) : (2 ^ a <= 2 ^ b)%Q -> a <= b.
Proof.
  intros H. destruct (Z_le_gt_dec a b) as [Hle|Hgt]; [exact Hle|].
  exfalso. apply (Qlt_not_le _ _ (pow2_lt b a ltac:(lia))), H.
Qed.

Lemma ilog2_spec (q : Q) :
  (0 < q)%Q -> (2 ^ ilog2 q <= q /\ q < 2 ^ (ilog2 q + 1))%Q.
Proof.
  intros Hq. destruct q as [n d]. unfold ilog2. cbn [Qnum Qden].
  assert (0 < n) as Hn by (unfold Qlt in Hq; simpl in Hq; lia).
  set (a := Z.log2 n). set (b := Z.log2 (Z.pos d)).
  destruct (Z.log2_spec n Hn) as [Ha1 Ha2]. fold a in Ha1, Ha2.
  destruct (Z.log2_spec (Z.pos d) ltac:(lia)) as [Hb1 Hb2]. fold b in Hb1, Hb2.
  assert (0 <= a) as Ha0 by apply Z.log2_nonneg.
  assert (0 <= b) as Hb0 by apply Z.log2_nonneg.
  assert (n # d == inject_Z n / inject_Z (Z.pos d))%Q as Hnd by apply Qmake_Qdiv.
  assert (0 < inject_Z (Z.pos d))%Q as Hdpos by (unfold Qlt; simpl; lia).
  assert (inject_Z (2 ^ a) <= inject_Z n)%Q as Qa1 by (rewrite <- Zle_Qle; exact Ha1).
  assert (inject_Z n < inject_Z (2 ^ Z.succ a))%Q as Qa2 by (rewrite <- Zlt_Qlt; exact Ha2).
  assert (inject_Z (2 ^ b) <= inject_Z (Z.pos d))%Q as Qb1 by (rewrite <- Zle_Qle; exact Hb1).
  assert (inject_Z (Z.pos d) < inject_Z (2 ^ Z.succ b))%Q as Qb2 by (rewrite <- Zlt_Qlt; exact Hb2).
  rewrite pow2_Z in Qa1, Qa2, Qb1, Qb2 by lia.
  pose proof (pow2_pos a) as Pa. pose proof (pow2_pos b) as Pb.
  pose proof (pow2_pos (Z.succ b)) as Pb'.
  assert (n # d < 2 ^ (a - b + 1))%Q as Hup.
  { rewrite Hnd. replace (a - b + 1) with (Z.succ a - b) by lia. rewrite pow2_minus.
    apply Qlt_shift_div_l; [exact Pb|].
    assert (inject_Z n / inject_Z (Z.pos d) * 2 ^ b
            == inject_Z n * 2 ^ b / inject_Z (Z.pos d))%Q as -> by (unfold Qdiv; ring).
    apply Qlt_shift_div_r; [exact Hdpos|].
    apply Qlt_le_trans with (2 ^ Z.succ a * 2 ^ b)%Q.
    - apply Qmult_lt_compat_r; assumption.
    - apply Qmult_le_l; [apply pow2_pos|exact Qb1]. }
  assert (2 ^ (a - b - 1) <= n # d)%Q as Hlow.
  { rewrite Hnd. replace (a - b - 1) with (a - Z.succ b) by lia. rewrite pow2_minus.
    apply Qle_shift_div_r; [exact Pb'|].
    assert (inject_Z n / inject_Z (Z.pos d) * 2 ^ Z.succ b
            == inject_Z n * 2 ^ Z.succ b / inject_Z (Z.pos d))%Q as -> by (unfold Qdiv; ring).
    apply Qle_shift_div_l; [exact Hdpos|].
    apply Qle_trans with (inject_Z n * inject_Z (Z.pos d))%Q.
    - apply Qmult_le_compat_r; [exact Qa1|apply Qlt_le_weak, Hdpos].
    - apply Qmult_le_l; [|apply Qlt_le_weak, Qb2].
      eapply Qlt_le_trans; [exact Pa|exact Qa1]. }
  destruct (Qle_bool (2 ^ (a - b)) (n # d)) eqn:Hk.
  - apply Qle_bool_iff in Hk. split; [exact Hk|exact Hup].
  - split; [exact Hlow|].
    replace (a - b - 1 + 1) with (a - b) by lia.
    apply Qnot_le_lt. intros H. apply Qle_bool_iff in H. congruence.
Qed.

Lemma ilog2_le (q : Q) (k : Z) : (0 < q)%Q -> (q < 2 ^ (k + 1))%Q -> ilog2 q <= k.
Proof.
  intros Hq Hlt. destruct (ilog2_spec q Hq) as [Hlo _].
  assert (2 ^ ilog2 q < 2 ^ (k + 1))%Q as H by (eapply Qle_lt_trans; eassumption).
  destruct (Z_le_gt_dec (ilog2 q) k) as [Hle|Hgt]; [exact Hle|].
  exfalso. apply (Qlt_not_le _ _ H). apply pow2_le. lia.
Qed.

Lemma ilog2_ge (q : Q) (k : Z) : (2 ^ k <= q)%Q -> k <= ilog2 q.
Proof.
  intros Hle.
  assert (0 < q)%Q as Hq by (eapply Qlt_le_trans; [apply (pow2_pos k)|exact Hle]).
  destruct (ilog2_spec q Hq) as [_ Hhi].
  assert (2 ^ k < 2 ^ (ilog2 q + 1))%Q as H by (eapply Qle_lt_trans; eassumption).
  destruct (Z_le_gt_dec k (ilog2 q)) as [Hl|Hgt]; [exact Hl|].
  exfalso. apply (Qlt_not_le _ _ H). apply pow2_le. lia.
Qed.

(** *** Rounding to the nearest integer *)

Lemma inject_Z_minus (a b : Z) : (inject_Z (a - b) == inject_Z a - inject_Z b)%Q.
Proof. unfold Z.sub. rewrite inject_Z_plus, inject_Z_opp. reflexivity. Qed.

Lemma rhe_cases (x : Q) :
  round_half_even x = Qfloor x \/ round_half_even x = Qfloor x + 1.
Proof.
  unfold round_half_even.
  destruct (x - inject_Z (Qfloor x) ?= 1 # 2)%Q; [|tauto|tauto].
  destruct (Z.even (Qfloor x)); tauto.
Qed.

Lemma floor_frac (x : Q) :
  (0 <= x - inject_Z (Qfloor x) /\ x - inject_Z (Qfloor x) < 1)%Q.
Proof.
  pose proof (Qfloor_le x). pose proof (Qlt_floor x) as Hlt.
  rewrite inject_Z_plus in Hlt. change (inject_Z 1) with 1%Q in Hlt. split; lra.
Qed.

Lemma rhe_le_int (x : Q) (n : Z) : (x <= inject_Z n)%Q -> round_half_even x <= n.
Proof.
  intros Hx. pose proof (Qfloor_resp_le _ _ Hx) as Hf. rewrite Qfloor_Z in Hf.
  destruct (Z.eq_dec (Qfloor x) n) as [Heq|Hne].
  - unfold round_half_even. rewrite Heq.
    assert ((x - inject_Z n ?= 1 # 2)%Q = Lt) as ->; [|lia].
    rewrite <- Qlt_alt. lra.
  - destruct (rhe_cases x) as [-> | ->]; lia.
Qed.

Lemma rhe_ge_int (x : Q) (n : Z) : (inject_Z n <= x)%Q -> n <= round_half_even x.
Proof.
  intros Hx. pose proof (Qfloor_resp_le _ _ Hx) as Hf. rewrite Qfloor_Z in Hf.
  destruct (rhe_cases x) as [-> | ->]; lia.
Qed.

Lemma floor_ge (x : Q) (n : Z) : (inject_Z n <= x)%Q -> n <= Qfloor x.
Proof. intros Hx. pose proof (Qfloor_resp_le _ _ Hx) as Hf. rewrite Qfloor_Z in Hf. exact Hf. Qed.

Lemma floor_lt (x : Q) (n : Z) : (x < inject_Z n)%Q -> Qfloor x < n.
Proof.
  intros Hx. destruct (Z_lt_ge_dec (Qfloor x) n) as [Hlt|Hge]; [exact Hlt|].
  exfalso. pose proof (Qfloor_le x) as Hf.
  assert (inject_Z n <= inject_Z (Qfloor x))%Q by (rewrite <- Zle_Qle; lia). lra.
Qed.

(** Halfway to an even integer goes up to it, below halfway stays below. *)
Lemma rhe_half_up (x : Q) (n : Z) :
  Z.even n = true -> (inject_Z n - (1 # 2) <= x)%Q -> n <= round_half_even x.
Proof.
  intros Hev Hx.
  assert (n - 1 <= Qfloor x) as Hf.
  { apply floor_ge. rewrite inject_Z_minus. change (inject_Z 1) with 1%Q. lra. }
  destruct (Z.eq_dec (Qfloor x) (n - 1)) as [Heq|Hne].
  - unfold round_half_even. rewrite Heq.
    destruct (x - inject_Z (n - 1) ?= 1 # 2)%Q eqn:Hc.
    + replace (Z.even (n - 1)) with false; [lia|].
      rewrite Z.even_sub, Hev. reflexivity.
    + rewrite <- Qlt_alt in Hc. rewrite inject_Z_minus in Hc. change (inject_Z 1) with 1%Q in Hc. lra.
    + lia.
  - destruct (rhe_cases x) as [-> | ->]; lia.
Qed.

Lemma rhe_half_down (x : Q) (n : Z) :
  (x < inject_Z n - (1 # 2))%Q -> round_half_even x <= n - 1.
Proof.
  intros Hx.
  assert (Qfloor x < n) as Hf by (apply floor_lt; lra).
  destruct (Z.eq_dec (Qfloor x) (n - 1)) as [Heq|Hne].
  - unfold round_half_even. rewrite Heq.
    assert ((x - inject_Z (n - 1) ?= 1 # 2)%Q = Lt) as ->; [|lia].
    rewrite <- Qlt_alt. rewrite inject_Z_minus. change (inject_Z 1) with 1%Q. lra.
  - destruct (rhe_cases x) as [-> | ->]; lia.
Qed.

(** *** The floats around a number *)

Lemma float_exp_ge (q : Q) : -1074 <= float_exp q.
Proof. unfold float_exp. lia. Qed.

Lemma float_exp_le (q : Q) (k : Z) :
  (0 < q)%Q -> (q < 2 ^ (k + 1))%Q -> -1074 <= k - 52 -> float_exp q <= k - 52.
Proof.
  intros Hq Hlt Hk. unfold float_exp. pose proof (ilog2_le q k Hq Hlt). lia.
Qed.

Lemma scale_grid (n e e' : Z) :
  e <= e' -> (inject_Z n * 2 ^ e' / 2 ^ e == inject_Z (n * 2 ^ (e' - e)))%Q.
Proof.
  intros He. rewrite inject_Z_mult, pow2_Z by lia. rewrite pow2_minus.
  unfold Qdiv. ring.
Qed.

Lemma nearest_le_grid (q : Q) (n e' : Z) :
  (q <= inject_Z n * 2 ^ e')%Q -> float_exp q <= e' ->
  (float_nearest q <= inject_Z n * 2 ^ e')%Q.
Proof.
  intros Hq He. unfold float_nearest. set (e := float_exp q) in *.
  pose proof (pow2_pos e) as Pe.
  assert (q / 2 ^ e <= inject_Z (n * 2 ^ (e' - e)))%Q as Hx.
  { rewrite <- scale_grid by exact He.
    unfold Qdiv. apply Qmult_le_compat_r; [exact Hq|].
    apply Qlt_le_weak, Qinv_lt_0_compat, Pe. }
  apply rhe_le_int in Hx. rewrite Zle_Qle in Hx.
  rewrite <- scale_grid in Hx by exact He.
  apply (Qmult_le_compat_r _ _ (2 ^ e)) in Hx; [|apply Qlt_le_weak, Pe].
  eapply Qle_trans; [exact Hx|].
  apply Qle_lteq. right. field. intros H0. rewrite H0 in Pe. discriminate.
Qed.

Lemma nearest_ge_grid (q : Q) (n e' : Z) :
  (inject_Z n * 2 ^ e' <= q)%Q -> float_exp q <= e' ->
  (inject_Z n * 2 ^ e' <= float_nearest q)%Q.
Proof.
  intros Hq He. unfold float_nearest. set (e := float_exp q) in *.
  pose proof (pow2_pos e) as Pe.
  assert (inject_Z (n * 2 ^ (e' - e)) <= q / 2 ^ e)%Q as Hx.
  { rewrite <- scale_grid by exact He.
    unfold Qdiv. apply Qmult_le_compat_r; [exact Hq|].
    apply Qlt_le_weak, Qinv_lt_0_compat, Pe. }
  apply rhe_ge_int in Hx. rewrite Zle_Qle in Hx.
  rewrite <- scale_grid in Hx by exact He.
  apply (Qmult_le_compat_r _ _ (2 ^ e)) in Hx; [|apply Qlt_le_weak, Pe].
  eapply Qle_trans; [|exact Hx].
  apply Qle_lteq. right. field. intros H0. rewrite H0 in Pe. discriminate.
Qed.

Lemma nearest_nonneg (q : Q) : (0 <= q)%Q -> (0 <= float_nearest q)%Q.
Proof.
  intros Hq.
  pose proof (nearest_ge_grid q 0 (float_exp q)) as H.
  rewrite Qmult_0_l in H. apply H; [exact Hq|lia].
Qed.

Lemma float_inf_pos : (0 < float_inf)%Q.
Proof. reflexivity. Qed.

Lemma float_inf_pow : (float_inf == 2 ^ 1024)%Q.
Proof. unfold float_inf. apply pow2_Z. lia. Qed.

Lemma round_abs_nonneg (q : Q) : (0 <= q)%Q -> (0 <= round_abs q)%Q.
Proof.
  intros Hq. unfold round_abs.
  destruct (Qle_bool float_inf (float_nearest q)); [discriminate|].
  apply nearest_nonneg, Hq.
Qed.

Lemma round_abs_le_inf (q : Q) : (round_abs q <= float_inf)%Q.
Proof.
  unfold round_abs.
  destruct (Qle_bool float_inf (float_nearest q)) eqn:H; [apply Qle_refl|].
  apply Qlt_le_weak, Qnot_le_lt. intros Hle. apply Qle_bool_iff in Hle. congruence.
Qed.

Lemma round_abs_le (q c : Q) :
  (float_nearest q <= c)%Q -> (c < float_inf)%Q -> (round_abs q <= c)%Q.
Proof.
  intros Hn Hc. unfold round_abs.
  destruct (Qle_bool float_inf (float_nearest q)) eqn:H; [|exact Hn].
  apply Qle_bool_iff in H. lra.
Qed.

Lemma round_abs_inf (q : Q) :
  Qle_bool float_inf (round_abs q) = Qle_bool float_inf (float_nearest q).
Proof.
  unfold round_abs.
  destruct (Qle_bool float_inf (float_nearest q)) eqn:H; [reflexivity|exact H].
Qed.

(** Below 2^53 rounding does not cross an integer. *)
Lemma round_abs_le_int (q : Q) (z : Z) :
  (0 < q)%Q -> (q <= inject_Z z)%Q -> z < 2 ^ 53 -> (round_abs q <= inject_Z z)%Q.
Proof.
  intros Hq Hz Hz53.
  assert (inject_Z z < 2 ^ 53)%Q as Hlt.
  { rewrite <- pow2_Z by lia. rewrite <- Zlt_Qlt. exact Hz53. }
  assert (float_exp q <= 0) as He.
  { apply (float_exp_le q 52 Hq); [|lia]. change (52 + 1) with 53. lra. }
  apply round_abs_le.
  - pose proof (nearest_le_grid q z 0) as H.
    change (2 ^ 0)%Q with 1%Q in H. rewrite Qmult_1_r in H. apply H; assumption.
  - eapply Qlt_trans; [exact Hlt|]. rewrite float_inf_pow. apply pow2_lt. lia.
Qed.

Lemma threshold_val : (float_threshold == 2 ^ 1024 - 2 ^ 970)%Q.
Proof.
  unfold float_threshold. rewrite inject_Z_minus, !pow2_Z by lia. reflexivity.
Qed.

Lemma nearest_overflow (q : Q) :
  (0 < q)%Q ->
  Qle_bool float_inf (float_nearest q) = Qle_bool float_threshold q.
Proof.
  intros Hq.
  pose proof threshold_val as Ht. pose proof float_inf_pow as Hi.
  pose proof (pow2_pos 970) as P970.
  assert (2 ^ 1024 == 2 ^ 970 * 2 ^ 54)%Q as H1024 by exact (pow2_plus 970 54).
  assert (2 ^ 1023 == 2 ^ 970 * 2 ^ 53)%Q as H1023 by exact (pow2_plus 970 53).
  assert (2 ^ 971 == 2 ^ 970 * 2)%Q as H971 by exact (pow2_plus 970 1).
  assert (2 ^ 54 == 18014398509481984)%Q as H54 by reflexivity.
  assert (2 ^ 53 == 9007199254740992)%Q as H53 by reflexivity.
  destruct (Qlt_le_dec q (2 ^ 1023)) as [Hsmall|Hbig].
  - (* below the last binade *)
    assert (float_exp q <= 1023) as He.
    { assert (float_exp q <= 1022 - 52); [|lia].
      apply float_exp_le; [exact Hq|exact Hsmall|lia]. }
    pose proof (nearest_le_grid q 1 1023) as Hn.
    rewrite Qmult_1_l in Hn. specialize (Hn (Qlt_le_weak _ _ Hsmall) He).
    assert (Qle_bool float_inf (float_nearest q) = false) as ->.
    { apply not_true_iff_false. intros H. apply Qle_bool_iff in H. nra. }
    symmetry. apply not_true_iff_false. intros H. apply Qle_bool_iff in H. nra.
  - destruct (Qlt_le_dec q (2 ^ 1024)) as [Hlast|Hover].
    + (* the last binade *)
      assert (ilog2 q = 1023) as Hl.
      { pose proof (ilog2_ge q 1023 Hbig). pose proof (ilog2_le q 1023 Hq Hlast). lia. }
      assert (float_exp q = 971) as He by (unfold float_exp; rewrite Hl; reflexivity).
      unfold float_nearest. rewrite He.
      pose proof (pow2_pos 971) as P971.
      destruct (Qle_bool float_threshold q) eqn:Hth.
      * apply Qle_bool_iff in Hth. apply Qle_bool_iff.
        assert (2 ^ 53 <= round_half_even (q / 2 ^ 971)) as Hm.
        { apply rhe_half_up; [reflexivity|].
          apply Qle_shift_div_l; [exact P971|].
          change (inject_Z (2 ^ 53)) with 9007199254740992%Q. nra. }
        rewrite Zle_Qle in Hm. change (inject_Z (2 ^ 53)) with 9007199254740992%Q in Hm.
        nra.
      * apply not_true_iff_false. intros H. apply Qle_bool_iff in H.
        assert (~ float_threshold <= q)%Q as Hn
          by (intros Hle; apply Qle_bool_iff in Hle; congruence).
        apply Qnot_le_lt in Hn.
        assert (round_half_even (q / 2 ^ 971) <= 2 ^ 53 - 1) as Hm.
        { apply rhe_half_down. apply Qlt_shift_div_r; [exact P971|].
          change (inject_Z (2 ^ 53)) with 9007199254740992%Q. nra. }
        rewrite Zle_Qle in Hm.
        change (inject_Z (2 ^ 53 - 1)) with 9007199254740991%Q in Hm. nra.
    + (* beyond *)
      assert (1024 <= ilog2 q) as Hl by (apply ilog2_ge, Hover).
      pose proof (nearest_ge_grid q 1 (ilog2 q)) as Hn.
      rewrite Qmult_1_l in Hn.
      destruct (ilog2_spec q Hq) as [Hlo _].
      specialize (Hn Hlo ltac:(unfold float_exp; lia)).
      pose proof (pow2_le 1024 (ilog2 q) Hl) as Hp.
      assert (Qle_bool float_inf (float_nearest q) = true) as ->
        by (apply Qle_bool_iff; lra).
      symmetry. apply Qle_bool_iff. lra.
Qed.

(** *** [float_round] *)

Lemma float_round_eq (q : Q) :
  (float_round q ==
   match (q ?= 0)%Q with
   | Eq => 0
   | Gt => round_abs q
   | Lt => - round_abs (- q)
   end)%Q.
Proof. unfold float_round. apply Qred_correct. Qed.

Lemma float_round_pos (q : Q) : (0 < q)%Q -> (float_round q == round_abs q)%Q.
Proof.
  intros Hq. rewrite float_round_eq.
  assert ((q ?= 0)%Q = Gt) as -> by (rewrite <- Qgt_alt; exact Hq). reflexivity.
Qed.

Lemma float_round_neg (q : Q) : (q < 0)%Q -> (float_round q == - round_abs (- q))%Q.
Proof.
  intros Hq. rewrite float_round_eq.
  assert ((q ?= 0)%Q = Lt) as -> by (rewrite <- Qlt_alt; exact Hq). reflexivity.
Qed.

Lemma float_round_zero (q : Q) : (q == 0)%Q -> (float_round q == 0)%Q.
Proof.
  intros Hq. rewrite float_round_eq.
  assert ((q ?= 0)%Q = Eq) as -> by (rewrite <- Qeq_alt; exact Hq). reflexivity.
Qed.

Lemma float_round_nonneg (q : Q) : (0 <= q)%Q -> (0 <= float_round q)%Q.
Proof.
  intros Hq. destruct (Qlt_le_dec 0 q) as [Hpos|Hle].
  - rewrite (float_round_pos q Hpos). apply round_abs_nonneg, Hq.
  - rewrite float_round_zero; [apply Qle_refl|]. apply Qle_antisym; assumption.
Qed.

Lemma float_round_nonpos (q : Q) : (q <= 0)%Q -> (float_round q <= 0)%Q.
Proof.
  intros Hq. destruct (Qlt_le_dec q 0) as [Hneg|Hle].
  - rewrite (float_round_neg q Hneg).
    pose proof (round_abs_nonneg (- q)%Q ltac:(lra)). lra.
  - rewrite float_round_zero; [apply Qle_refl|]. apply Qle_antisym; assumption.
Qed.

(** Rounding does not cross an integer below 2^53. *)
Lemma float_round_le_int (q : Q) (z : Z) :
  (q <= inject_Z z)%Q -> 0 <= z < 2 ^ 53 -> (float_round q <= inject_Z z)%Q.
Proof.
  intros Hq Hz.
  assert (0 <= inject_Z z)%Q as Hz0 by (change 0%Q with (inject_Z 0); rewrite <- Zle_Qle; lia).
  destruct (Qlt_le_dec 0 q) as [Hpos|Hle].
  - rewrite (float_round_pos q Hpos). apply round_abs_le_int; [exact Hpos|exact Hq|lia].
  - pose proof (float_round_nonpos q Hle). lra.
Qed.

Lemma round_abs_bounds (q : Q) : (0 <= q)%Q -> (0 <= round_abs q <= float_inf)%Q.
Proof. intros Hq. split; [apply round_abs_nonneg, Hq|apply round_abs_le_inf]. Qed.

Lemma float_round_range (q : Q) : (- float_inf <= float_round q <= float_inf)%Q.
Proof.
  pose proof float_inf_pos.
  destruct (Qlt_le_dec 0 q) as [Hpos|Hle].
  - rewrite (float_round_pos q Hpos).
    pose proof (round_abs_bounds q (Qlt_le_weak _ _ Hpos)). lra.
  - destruct (Qlt_le_dec q 0) as [Hneg|Hge].
    + rewrite (float_round_neg q Hneg).
      pose proof (round_abs_bounds (- q)%Q ltac:(lra)). lra.
    + rewrite float_round_zero; [lra|]. apply Qle_antisym; assumption.
Qed.

Lemma is_inf_iff (q : Q) : is_inf q = true <-> (float_inf <= Qabs q)%Q.
Proof. apply Qle_bool_iff. Qed.

Lemma is_inf_pos (q : Q) : (0 <= q)%Q -> is_inf q = Qle_bool float_inf q.
Proof.
  intros Hq. unfold is_inf.
  assert (Qabs q == q)%Q as -> by (apply Qabs_pos, Hq). reflexivity.
Qed.

Lemma is_inf_opp (q : Q) : is_inf (- q) = is_inf q.
Proof.
  unfold is_inf. assert (Qabs (- q) == Qabs q)%Q as -> by apply Qabs_opp. reflexivity.
Qed.

Lemma is_inf_proper (p q : Q) : (p == q)%Q -> is_inf p = is_inf q.
Proof. intros H. unfold is_inf. rewrite H. reflexivity. Qed.

(** Rounding leaves the range of the floats from [float_threshold] on. *)
Lemma float_round_overflow (q : Q) :
  is_inf (float_round q) = Qle_bool float_threshold (Qabs q).
Proof.
  assert (0 < float_threshold)%Q as Hth by reflexivity.
  destruct (Qlt_le_dec 0 q) as [Hpos|Hle].
  - rewrite (is_inf_proper _ _ (float_round_pos q Hpos)).
    rewrite is_inf_pos by (apply round_abs_nonneg, Qlt_le_weak, Hpos).
    rewrite round_abs_inf, (nearest_overflow q Hpos).
    assert (Qabs q == q)%Q as -> by (apply Qabs_pos, Qlt_le_weak, Hpos). reflexivity.
  - destruct (Qlt_le_dec q 0) as [Hneg|Hge].
    + rewrite (is_inf_proper _ _ (float_round_neg q Hneg)), is_inf_opp.
      assert (0 < - q)%Q as Hpos by lra.
      rewrite is_inf_pos by (apply round_abs_nonneg, Qlt_le_weak, Hpos).
      rewrite round_abs_inf, (nearest_overflow _ Hpos).
      assert (Qabs q == - q)%Q as -> by (apply Qabs_neg, Hle). reflexivity.
    + assert (q == 0)%Q as H0 by (apply Qle_antisym; assumption).
      rewrite (is_inf_proper _ _ (float_round_zero q H0)).
      assert (Qabs q == 0)%Q as -> by (rewrite H0; reflexivity). reflexivity.
Qed.

(** *** The conversion of an [int] *)

Lemma float_of_int_raises (z : Z) :
  float_of_int z = Raise OverflowError <-> 2 ^ 1024 - 2 ^ 970 <= Z.abs z.
Proof.
  unfold float_of_int. rewrite float_round_overflow.
  assert (Qabs (inject_Z z) == inject_Z (Z.abs z))%Q as Habs.
  { unfold Qabs, inject_Z. simpl. reflexivity. }
  rewrite Habs. unfold float_threshold.
  destruct (Qle_bool _ _) eqn:H.
  - apply Qle_bool_iff in H. rewrite <- Zle_Qle in H. tauto.
  - split; [discriminate|]. intros Hle. rewrite Zle_Qle in Hle.
    apply Qle_bool_iff in Hle. congruence.
Qed.

Lemma float_of_int_cases (z : Z) :
  (float_of_int z = Raise OverflowError /\ 2 ^ 1024 - 2 ^ 970 <= Z.abs z)
  \/ (float_of_int z = Ok (float_round (inject_Z z)) /\ Z.abs z < 2 ^ 1024 - 2 ^ 970
      /\ is_inf (float_round (inject_Z z)) = false).
Proof.
  pose proof (float_of_int_raises z) as H. unfold float_of_int in *.
  destruct (is_inf (float_round (inject_Z z))).
  - left. split; [reflexivity|]. apply H. reflexivity.
  - right. split; [reflexivity|]. split; [|reflexivity].
    destruct (Z_lt_le_dec (Z.abs z) (2 ^ 1024 - 2 ^ 970)) as [Hlt|Hge]; [exact Hlt|].
    apply H in Hge. discriminate.
Qed.

(** ** Comparisons of numbers *)

Lemma num_gt_ext (a b : num) :
  num_gt a b = false <-> ext_le (num_ext a) (num_ext b).
Proof.
  unfold num_gt, num_cmp, ext_le.
  destruct (num_ext a) as [c1 v1], (num_ext b) as [c2 v2]. cbn [fst snd].
  destruct (Z.compare_spec c1 c2) as [Heq|Hlt|Hgt].
  - destruct (v1 ?= v2)%Q eqn:Hc.
    + rewrite <- Qeq_alt in Hc. split; [|reflexivity]. intros _. right. split; [exact Heq|lra].
    + rewrite <- Qlt_alt in Hc. split; [|reflexivity]. intros _. right. split; [exact Heq|lra].
    + rewrite <- Qgt_alt in Hc. split; [discriminate|]. intros [H|[_ H]]; [lia|lra].
  - split; [|reflexivity]. intros _. left. exact Hlt.
  - split; [discriminate|]. intros [H|[H _]]; lia.
Qed.

Lemma num_le_refl (a : num) : num_le a a.
Proof. apply num_gt_ext. right. split; [reflexivity|apply Qle_refl]. Qed.

Lemma num_le_trans (a b c : num) : num_le a b -> num_le b c -> num_le a c.
Proof.
  unfold num_le. rewrite !num_gt_ext. unfold ext_le.
  intros [H1|[H1 H1']] [H2|[H2 H2']].
  - left. lia.
  - left. lia.
  - left. lia.
  - right. split; [lia|lra].
Qed.

Lemma num_le_total (a b : num) : num_le a b \/ num_le b a.
Proof.
  unfold num_le. rewrite !num_gt_ext. unfold ext_le.
  destruct (Z.lt_trichotomy (fst (num_ext a)) (fst (num_ext b))) as [H|[H|H]].
  - left. left. exact H.
  - destruct (Qlt_le_dec (snd (num_ext b)) (snd (num_ext a))) as [Hlt|Hle].
    + right. right. split; [lia|lra].
    + left. right. split; [exact H|exact Hle].
  - right. left. exact H.
Qed.

Lemma num_gt_le (a b : num) : num_gt a b = true -> num_le b a.
Proof.
  intros Hgt. destruct (num_le_total a b) as [H|H]; [|exact H].
  unfold num_le in H. congruence.
Qed.

Lemma num_cmp_opp (a b : num) : num_cmp b a = CompOpp (num_cmp a b).
Proof.
  unfold num_cmp. rewrite (Z.compare_antisym (fst (num_ext a)) (fst (num_ext b))).
  destruct (fst (num_ext a) ?= fst (num_ext b)); simpl; try reflexivity.
  symmetry. apply Qcompare_antisym.
Qed.

Lemma num_lt_gt (a b : num) : num_lt a b = num_gt b a.
Proof.
  unfold num_lt, num_gt. rewrite (num_cmp_opp a b).
  destruct (num_cmp a b); reflexivity.
Qed.

Lemma num_eq_le (a b : num) : num_eq a b = true <-> num_le a b /\ num_le b a.
Proof.
  unfold num_le, num_eq, num_gt. rewrite (num_cmp_opp a b).
  destruct (num_cmp a b); simpl; split; intros H;
    try discriminate; try (split; reflexivity); try reflexivity;
    destruct H as [H1 H2]; discriminate.
Qed.

Lemma num_eq_refl (a : num) : num_eq a a = true.
Proof. apply num_eq_le. split; apply num_le_refl. Qed.

Lemma num_eq_sym (a b : num) : num_eq a b = num_eq b a.
Proof.
  apply eq_true_iff_eq. rewrite !num_eq_le. tauto.
Qed.

Lemma num_eq_trans (a b c : num) :
  num_eq a b = true -> num_eq b c = true -> num_eq a c = true.
Proof.
  rewrite !num_eq_le. intros [H1 H2] [H3 H4].
  split; eapply num_le_trans; eassumption.
Qed.

(** Where one side is finite, the comparison is that of the values. *)
Lemma num_ext_finite (n : num) : finite n -> num_ext n = (0, num_val n).
Proof.
  unfold finite. destruct n as [z|q]; simpl; [reflexivity|].
  intros Hf. unfold is_inf.
  assert (Qle_bool float_inf (Qabs q) = false) as ->; [|reflexivity].
  apply not_true_iff_false. intros H. apply Qle_bool_iff in H. lra.
Qed.

Lemma num_ext_cases (n : num) :
  (num_ext n = (0, num_val n))
  \/ (num_ext n = (1, 0%Q) /\ (float_inf <= num_val n)%Q)
  \/ (num_ext n = (-1, 0%Q) /\ (num_val n <= - float_inf)%Q).
Proof.
  destruct n as [z|q]; simpl; [left; reflexivity|].
  destruct (is_inf q) eqn:Hi; [|left; reflexivity].
  apply is_inf_iff in Hi. pose proof float_inf_pos as Hp.
  destruct (Qle_bool 0 q) eqn:H0.
  - apply Qle_bool_iff in H0. right; left. split; [reflexivity|].
    rewrite Qabs_pos in Hi by exact H0. exact Hi.
  - right; right. split; [reflexivity|].
    assert (q < 0)%Q as Hneg.
    { apply Qnot_le_lt. intros H. apply Qle_bool_iff in H. congruence. }
    rewrite Qabs_neg in Hi by lra. lra.
Qed.

Lemma finite_bounds (n : num) : finite n <-> (- float_inf < num_val n < float_inf)%Q.
Proof.
  unfold finite. split.
  - intros H. apply Qabs_Qlt_condition in H. exact H.
  - intros H. apply Qabs_Qlt_condition. exact H.
Qed.

Lemma num_cmp_val (a b : num) :
  finite a \/ finite b -> num_cmp a b = (num_val a ?= num_val b)%Q.
Proof.
  intros Hf. unfold num_cmp.
  pose proof float_inf_pos as Hp.
  destruct Hf as [Hf|Hf]; pose proof (proj1 (finite_bounds _) Hf) as Hb;
    rewrite (num_ext_finite _ Hf); cbn [fst snd].
  - destruct (num_ext_cases b) as [->|[[-> Hv]|[-> Hv]]]; cbn [fst snd].
    + reflexivity.
    + simpl. symmetry. rewrite <- Qlt_alt. lra.
    + simpl. symmetry. rewrite <- Qgt_alt. lra.
  - destruct (num_ext_cases a) as [->|[[-> Hv]|[-> Hv]]]; cbn [fst snd].
    + reflexivity.
    + simpl. symmetry. rewrite <- Qgt_alt. lra.
    + simpl. symmetry. rewrite <- Qlt_alt. lra.
Qed.

Lemma num_gt_iff (a b : num) :
  finite a \/ finite b -> (num_gt a b = true <-> (num_val b < num_val a)%Q).
Proof.
  intros Hf. unfold num_gt. rewrite (num_cmp_val a b Hf).
  destruct (num_val a ?= num_val b)%Q eqn:Hc.
  - rewrite <- Qeq_alt in Hc. split; [discriminate|lra].
  - rewrite <- Qlt_alt in Hc. split; [discriminate|lra].
  - rewrite <- Qgt_alt in Hc. tauto.
Qed.

Lemma num_lt_iff (a b : num) :
  finite a \/ finite b -> (num_lt a b = true <-> (num_val a < num_val b)%Q).
Proof. intros Hf. rewrite num_lt_gt. apply num_gt_iff. tauto. Qed.

Lemma num_eq_iff (a b : num) :
  finite a \/ finite b -> (num_eq a b = true <-> (num_val a == num_val b)%Q).
Proof.
  intros Hf. unfold num_eq. rewrite (num_cmp_val a b Hf).
  destruct (num_val a ?= num_val b)%Q eqn:Hc.
  - rewrite <- Qeq_alt in Hc. tauto.
  - rewrite <- Qlt_alt in Hc. split; [discriminate|lra].
  - rewrite <- Qgt_alt in Hc. split; [discriminate|lra].
Qed.

Lemma num_le_iff (a b : num) :
  finite a \/ finite b -> (num_le a b <-> (num_val a <= num_val b)%Q).
Proof.
  intros Hf. unfold num_le. rewrite <- not_true_iff_false, (num_gt_iff a b Hf).
  split; [apply Qnot_lt_le|apply Qle_not_lt].
Qed.

Lemma finite_int (z : Z) : Z.abs z < 2 ^ 1024 -> finite (NInt z).
Proof.
  intros Hz. unfold finite, float_inf. simpl.
  assert (Qabs (inject_Z z) == inject_Z (Z.abs z))%Q as -> by reflexivity.
  rewrite <- Zlt_Qlt. exact Hz.
Qed.

(** [max(a, b)] is one of the two and not below either. *)
Lemma num_max_cases (a b : num) :
  (num_max a b = a \/ num_max a b = b)
  /\ num_le a (num_max a b) /\ num_le b (num_max a b).
Proof.
  unfold num_max. destruct (num_gt b a) eqn:Hgt.
  - split; [right; reflexivity|]. split; [apply num_gt_le, Hgt|apply num_le_refl].
  - split; [left; reflexivity|]. split; [apply num_le_refl|exact Hgt].
Qed.

Lemma num_gt_between (a b : num) (c : Z) :
  Z.abs c < 2 ^ 1024 ->
  (num_val b <= inject_Z c)%Q -> (inject_Z c < num_val a)%Q -> num_gt a b = true.
Proof.
  intros Hc Hb Ha. pose proof (finite_int c Hc) as Hf.
  assert (num_le b (NInt c)) as H1 by (apply num_le_iff; [right; exact Hf|exact Hb]).
  assert (num_gt a (NInt c) = true) as H2 by (apply num_gt_iff; [right; exact Hf|exact Ha]).
  destruct (num_gt a b) eqn:Hgt; [reflexivity|].
  pose proof (num_le_trans a b (NInt c) Hgt H1) as H3. unfold num_le in H3. congruence.
Qed.

(** ** Arithmetic of numbers *)

Lemma float_val_nonneg (q : Q) : (0 <= q)%Q -> (0 <= float_val q)%Q.
Proof.
  intros Hq. unfold float_val. destruct (is_inf q); [|exact Hq].
  assert (Qle_bool 0 q = true) as -> by (apply Qle_bool_iff, Hq). discriminate.
Qed.

Lemma float_val_le (q : Q) (c : Q) :
  (q <= c)%Q -> (- float_inf <= c < float_inf)%Q -> (float_val q <= c)%Q.
Proof.
  intros Hq [Hc' Hc]. unfold float_val. destruct (is_inf q) eqn:Hi; [|exact Hq].
  apply is_inf_iff in Hi. pose proof float_inf_pos.
  destruct (Qle_bool 0 q) eqn:H0.
  - apply Qle_bool_iff in H0. rewrite Qabs_pos in Hi by exact H0. lra.
  - assert (q < 0)%Q as Hneg.
    { apply Qnot_le_lt. intros H'. apply Qle_bool_iff in H'. congruence. }
    rewrite Qabs_neg in Hi by lra. lra.
Qed.

Lemma inf_below (q c : Q) :
  is_inf q = true -> (q <= c)%Q -> (c < float_inf)%Q -> (q <= - float_inf)%Q.
Proof.
  intros Hi Hq Hc. apply is_inf_iff in Hi.
  destruct (Qlt_le_dec q 0) as [Hneg|Hpos].
  - rewrite Qabs_neg in Hi by lra. lra.
  - rewrite Qabs_pos in Hi by exact Hpos. lra.
Qed.

Lemma as_float_nonneg (n : num) (p : Q) :
  as_float n = Ok p -> (0 <= num_val n)%Q -> (0 <= p)%Q.
Proof.
  destruct n as [z|q]; simpl.
  - unfold float_of_int. destruct (is_inf _); [discriminate|].
    intros [= <-] Hz. apply float_round_nonneg, Hz.
  - intros [= <-] Hq. apply float_val_nonneg, Hq.
Qed.

Lemma float_add_nonneg (p q : Q) : (0 <= p)%Q -> (0 <= q)%Q -> (0 <= float_add p q)%Q.
Proof.
  intros Hp Hq. unfold float_add.
  destruct (is_inf p); [exact Hp|]. destruct (is_inf q); [exact Hq|].
  apply float_round_nonneg. lra.
Qed.

Lemma num_add_nonneg (a b c : num) :
  num_add a b = Ok c -> (0 <= num_val a)%Q -> (0 <= num_val b)%Q -> (0 <= num_val c)%Q.
Proof.
  intros Hadd Ha Hb.
  assert (forall p q, as_float a = Ok p -> as_float b = Ok q ->
                      (0 <= float_add p q)%Q) as Hf.
  { intros p q Hp Hq. apply float_add_nonneg; eapply as_float_nonneg; eassumption. }
  destruct a as [x|p], b as [y|q]; cbn [num_add] in Hadd.
  - injection Hadd as <-. simpl in *. rewrite inject_Z_plus. lra.
  - destruct (as_float (NInt x)) as [p'|] eqn:E1; [|discriminate].
    cbn [rbind as_float] in Hadd. injection Hadd as <-. apply (Hf _ _ eq_refl eq_refl).
  - cbn [rbind as_float] in Hadd.
    destruct (float_of_int y) as [q'|] eqn:E2; [|discriminate].
    cbn [rbind] in Hadd. injection Hadd as <-. apply (Hf _ _ eq_refl). exact E2.
  - cbn [rbind as_float] in Hadd. injection Hadd as <-. apply (Hf _ _ eq_refl eq_refl).
Qed.

Lemma as_float_bounded (B : Z) (n : num) :
  bounded B n -> B <= 2 ^ 1024 - 2 ^ 970 -> exists p, as_float n = Ok p.
Proof.
  destruct n as [z|q]; simpl; intros Hb HB; [|eexists; reflexivity].
  destruct (float_of_int_cases z) as [[_ H]|[-> _]]; [lia|eexists; reflexivity].
Qed.

Lemma num_add_bounded (B1 B2 : Z) (a b : num) :
  bounded B1 a -> bounded B2 b -> 0 <= B1 -> 0 <= B2 ->
  B1 + B2 <= 2 ^ 1024 - 2 ^ 970 ->
  exists c, num_add a b = Ok c /\ bounded (B1 + B2) c.
Proof.
  intros Ha Hb H1 H2 HB.
  destruct (as_float_bounded B1 a Ha ltac:(lia)) as [p Hp].
  destruct (as_float_bounded B2 b Hb ltac:(lia)) as [q Hq].
  destruct a as [x|p'], b as [y|q']; cbn [num_add].
  - eexists. split; [reflexivity|]. simpl in *. lia.
  - rewrite Hp. cbn [rbind as_float]. eexists. split; [reflexivity|exact I].
  - cbn [as_float] in *. rewrite Hq. cbn [rbind]. eexists. split; [reflexivity|exact I].
  - cbn [as_float rbind]. eexists. split; [reflexivity|exact I].
Qed.

Lemma num_add_raises (a b : num) (e : exn) :
  num_add a b = Raise e ->
  e = OverflowError
  /\ exists z, (a = NInt z \/ b = NInt z) /\ 2 ^ 1024 - 2 ^ 970 <= Z.abs z.
Proof.
  destruct a as [x|p], b as [y|q]; cbn [num_add as_float rbind]; try discriminate.
  - destruct (float_of_int_cases x) as [[-> H]|[-> _]]; cbn [rbind]; [|discriminate].
    intros [= <-]. split; [reflexivity|]. exists x. tauto.
  - destruct (float_of_int_cases y) as [[-> H]|[-> _]]; cbn [rbind]; [|discriminate].
    intros [= <-]. split; [reflexivity|]. exists y. tauto.
Qed.

(** [a * 50] never raises. *)
Lemma float_50 : float_of_int 50 = Ok 50%Q.
Proof. vm_compute. reflexivity. Qed.

Lemma float_100 : float_of_int 100 = Ok 100%Q.
Proof. vm_compute. reflexivity. Qed.

Lemma num_mul_50 (a : num) :
  exists c, num_mul a (NInt 50) = Ok c
            /\ (forall B, bounded B a -> bounded (B * 50) c)
            /\ ((0 <= num_val a)%Q -> (0 <= num_val c)%Q).
Proof.
  destruct a as [x|p]; cbn [num_mul as_float rbind].
  - eexists. split; [reflexivity|]. split.
    + intros B HB. simpl in *. lia.
    + simpl. intros Hx. rewrite inject_Z_mult.
      change (inject_Z 50) with 50%Q. nra.
  - rewrite float_50. cbn [rbind]. eexists. split; [reflexivity|]. split; [intros; exact I|].
    simpl. intros Hp. pose proof (float_val_nonneg p Hp) as Hv.
    unfold float_mul. change (is_inf 50) with false. rewrite orb_false_r.
    destruct (is_inf (float_val p)).
    + destruct (float_val p * 50 ?= 0)%Q eqn:Hc; try discriminate.
      rewrite <- Qlt_alt in Hc. lra.
    + apply float_round_nonneg. lra.
Qed.

(** [a / 100] raises for an [int] beyond the floats only. *)
Lemma num_div_100 (a : num) :
  (exists z, a = NInt z /\ 100 * (2 ^ 1024 - 2 ^ 970) <= Z.abs z
             /\ num_div a (NInt 100) = Raise OverflowError)
  \/ (exists h, num_div a (NInt 100) = Ok h
                /\ (forall z, a = NInt z -> Z.abs z < 100 * (2 ^ 1024 - 2 ^ 970))
                /\ ((num_val a <= 1000)%Q -> (num_val h <= 10)%Q)).
Proof.
  destruct a as [x|p].
  - cbn [num_div]. change (100 =? 0) with false. cbv iota.
    rewrite float_round_overflow.
    assert (Qle_bool float_threshold (Qabs (inject_Z x / inject_Z 100))
            = Qle_bool float_threshold (inject_Z (Z.abs x) / 100)) as ->.
    { assert (Qabs (inject_Z x / inject_Z 100) == inject_Z (Z.abs x) / 100)%Q as Habs.
      { unfold Qdiv. rewrite Qabs_Qmult.
        assert (Qabs (inject_Z x) == inject_Z (Z.abs x))%Q as -> by reflexivity.
        reflexivity. }
      apply eq_true_iff_eq. rewrite !Qle_bool_iff, Habs. reflexivity. }
    assert (inject_Z (100 * (2 ^ 1024 - 2 ^ 970)) == 100 * float_threshold)%Q as Hth
      by (unfold float_threshold; rewrite inject_Z_mult; reflexivity).
    destruct (Qle_bool float_threshold (inject_Z (Z.abs x) / 100)) eqn:Hov.
    + left. exists x. split; [reflexivity|]. split; [|reflexivity].
      apply Qle_bool_iff in Hov. rewrite Zle_Qle, Hth.
      apply (Qmult_le_compat_r _ _ 100) in Hov; [|discriminate].
      assert (inject_Z (Z.abs x) / 100 * 100 == inject_Z (Z.abs x))%Q as Hx
        by (field). rewrite Hx in Hov. lra.
    + right. eexists. split; [reflexivity|]. split.
      * intros z [= <-]. apply Z.lt_nge. intros Hle.
        rewrite Zle_Qle, Hth in Hle.
        assert (Qle_bool float_threshold (inject_Z (Z.abs x) / 100) = true);
          [|congruence].
        apply Qle_bool_iff. apply Qle_shift_div_l; [reflexivity|]. lra.
      * simpl. intros Hx. change 10%Q with (inject_Z 10).
        apply float_round_le_int; [|lia]. change (inject_Z 100) with 100%Q.
        change (inject_Z 10) with 10%Q. apply Qle_shift_div_r; [reflexivity|]. lra.
  - right. cbn [num_div as_float rbind]. rewrite float_100. cbn [rbind].
    unfold float_div. change (Qeq_bool 100 0) with false. cbv iota.
    change (Qle_bool 0 100) with true. change (is_inf 100) with false. cbv iota.
    assert ((num_val (NFloat p) <= 1000)%Q -> (float_val p <= 1000)%Q) as Hle.
    { simpl. intros Hp. apply float_val_le; [exact Hp|split; [discriminate|reflexivity]]. }
    destruct (is_inf (float_val p)) eqn:Hi.
    + eexists. split; [reflexivity|]. split; [discriminate|].
      intros Hp. simpl. specialize (Hle Hp).
      pose proof (inf_below _ _ Hi Hle ltac:(reflexivity)) as Hb.
      pose proof float_inf_pos. lra.
    + eexists. split; [reflexivity|]. split; [discriminate|].
      intros Hp. simpl. specialize (Hle Hp). change 10%Q with (inject_Z 10).
      apply float_round_le_int; [|lia]. change (inject_Z 10) with 10%Q.
      apply Qle_shift_div_r; [reflexivity|]. lra.
Qed.

(** ** Strings *)

Section StringFacts.

Lemma filter_filter_weaker (p q : ascii -> bool) (s : string) :
  (forall c, p c = true -> q c = true) ->
  Str.filter p (Str.filter q s) = Str.filter p s.
Proof.
  intros Himp. induction s as [|c s IH]; simpl; [reflexivity|].
  destruct (q c) eqn:Hq; simpl.
  - destruct (p c); [f_equal|]; exact IH.
  - destruct (p c) eqn:Hp; [|exact IH].
    apply Himp in Hp. congruence.
Qed.

Lemma filter_lstrip (p : ascii -> bool) (s : string) :
  (forall c, p c = true -> Str.is_space c = false) ->
  Str.filter p (Str.lstrip s) = Str.filter p s.
Proof.
  intros Hsp. induction s as [|c s IH]; simpl; [reflexivity|].
  destruct (Str.is_space c) eqn:Hc; [|reflexivity].
  destruct (p c) eqn:Hp; [|exact IH].
  apply Hsp in Hp. congruence.
Qed.

Lemma filter_rstrip (p : ascii -> bool) (s : string) :
  (forall c, p c = true -> Str.is_space c = false) ->
  Str.filter p (Str.rstrip s) = Str.filter p s.
Proof.
  intros Hsp. induction s as [|c s IH]; simpl; [reflexivity|].
  destruct (Str.rstrip s) as [|d r] eqn:Hr.
  - simpl in IH. rewrite <- IH.
    destruct (Str.is_space c) eqn:Hc; simpl.
    + destruct (p c) eqn:Hp; [|reflexivity].
      apply Hsp in Hp. congruence.
    + reflexivity.
  - rewrite <- IH. reflexivity.
Qed.

Lemma filter_strip (p : ascii -> bool) (s : string) :
  (forall c, p c = true -> Str.is_space c = false) ->
  Str.filter p (Str.strip s) = Str.filter p s.
Proof.
  intros Hsp. unfold Str.strip.
  rewrite filter_rstrip, filter_lstrip; auto.
Qed.

Lemma filter_forallb (p : ascii -> bool) (s : string) :
  Str.forallb p (Str.filter p s) = true.
Proof.
  induction s as [|c s IH]; simpl; [reflexivity|].
  destruct (p c) eqn:Hp; simpl; [rewrite Hp|]; exact IH.
Qed.

Lemma forallb_weaken (p q : ascii -> bool) (s : string) :
  (forall c, p c = true -> q c = true) ->
  Str.forallb p s = true -> Str.forallb q s = true.
Proof.
  intros Himp. induction s as [|c s IH]; simpl; [reflexivity|].
  intros [Hc Hs]%andb_prop. rewrite (Himp _ Hc). simpl. auto.
Qed.

Lemma forallb_app (p : ascii -> bool) (s t : string) :
  Str.forallb p (s ++ t) = Str.forallb p s && Str.forallb p t.
Proof.
  induction s as [|c s IH]; simpl; [reflexivity|].
  rewrite IH. apply andb_assoc.
Qed.

End StringFacts.

(** ** Digits, [int()] and [float()] *)

Lemma digit_or_dot_not_space (c : ascii) :
  digit_or_dot c = true -> Str.is_space c = false.
Proof.
  destruct c as [[] [] [] [] [] [] [] []]; vm_compute; congruence.
Qed.

Lemma digit_or_dot_not_star (c : ascii) :
  digit_or_dot c = true -> negb (Ascii.eqb c "*") = true.
Proof.
  destruct c as [[] [] [] [] [] [] [] []]; vm_compute; congruence.
Qed.

Lemma digit_or_dot_not_comma (c : ascii) :
  digit_or_dot c = true -> negb (Ascii.eqb c ",") = true.
Proof.
  destruct c as [[] [] [] [] [] [] [] []]; vm_compute; congruence.
Qed.

Lemma digit_val_nonneg (c : ascii) : Str.is_digit c = true -> 0 <= digit_val c <= 9.
Proof.
  unfold Str.is_digit, digit_val. intros [H1 H2]%andb_prop.
  apply N.leb_le in H1, H2. lia.
Qed.

Lemma digits_val_acc_nonneg (s : string) (acc : Z) :
  Str.forallb Str.is_digit s = true -> 0 <= acc -> 0 <= digits_val_acc acc s.
Proof.
  revert acc. induction s as [|c s IH]; simpl; intros acc Hs Hacc; [exact Hacc|].
  apply andb_prop in Hs as [Hc Hs]. apply IH; [exact Hs|].
  pose proof (digit_val_nonneg c Hc). lia.
Qed.

Lemma py_int_nonneg (s : string) (z : Z) : py_int s = Ok z -> 0 <= z.
Proof.
  unfold py_int.
  destruct (Str.is_empty s); simpl; [discriminate|].
  destruct (Str.forallb Str.is_digit s) eqn:Hd; simpl; [|discriminate].
  destruct (int_max_str_digits <? String.length s)%nat; [discriminate|].
  intros [= <-]. apply digits_val_acc_nonneg; [exact Hd|lia].
Qed.

Lemma py_float_nonneg (s : string) (q : Q) : py_float s = Ok q -> (0 <= q)%Q.
Proof.
  unfold py_float.
  destruct (Str.split "." s) as [|ip [|fp [|x l]]]; try discriminate.
  destruct (Str.forallb Str.is_digit ip) eqn:Hip; simpl; [|discriminate].
  destruct (Str.forallb Str.is_digit fp) eqn:Hfp; simpl; [|discriminate].
  destruct (negb _); [|discriminate].
  intros [= <-]. apply float_round_nonneg.
  assert (0 <= digits_val (ip ++ fp)) as Hn.
  { apply digits_val_acc_nonneg; [|lia]. rewrite forallb_app, Hip, Hfp. reflexivity. }
  unfold Qle. simpl. lia.
Qed.

(** [int()] and [float()] raise nothing but [ValueError]. *)
Lemma py_int_raises (s : string) (e : exn) : py_int s = Raise e -> e = ValueError.
Proof.
  unfold py_int. destruct (_ || _); [congruence|discriminate].
Qed.

Lemma py_float_raises (s : string) (e : exn) : py_float s = Raise e -> e = ValueError.
Proof.
  unfold py_float.
  destruct (Str.split "." s) as [|ip [|fp [|x l]]]; try congruence.
  destruct (_ && _); [discriminate|congruence].
Qed.

(** ** [clean_numeric_value] *)

Lemma clean_chars_filter (v : cell) :
  clean_chars v = Str.filter digit_or_dot (py_str v).
Proof.
  unfold clean_chars, Str.remove_char.
  rewrite filter_strip by exact digit_or_dot_not_space.
  rewrite filter_filter_weaker by exact digit_or_dot_not_comma.
  apply filter_filter_weaker. exact digit_or_dot_not_star.
Qed.

Lemma clean_numeric_value_ok (v : cell) :
  clean_numeric_value v = Ok (clean_spec v).
Proof.
  unfold clean_numeric_value, clean_spec, is_placeholder.
  destruct (pd_isna v || cell_eq_str v "-" || cell_eq_str v ""); [reflexivity|].
  rewrite clean_chars_filter. unfold parse_or_zero.
  set (s := Str.filter digit_or_dot (py_str v)).
  destruct (Str.contains_char "." s).
  - destruct (py_float s) as [q|e] eqn:Hf; simpl; [reflexivity|].
    apply py_float_raises in Hf. subst e. reflexivity.
  - destruct (Str.is_empty s); simpl; [reflexivity|].
    destruct (py_int s) as [z|e] eqn:Hi; simpl; [reflexivity|].
    apply py_int_raises in Hi. subst e. reflexivity.
Qed.

Lemma parse_or_zero_nonneg (s : string) : (0 <= num_val (parse_or_zero s))%Q.
Proof.
  unfold parse_or_zero.
  destruct (Str.contains_char "." s).
  - destruct (py_float s) as [q|e] eqn:Hf; simpl; [|apply Qle_refl].
    eapply py_float_nonneg, Hf.
  - destruct (Str.is_empty s); simpl; [apply Qle_refl|].
    destruct (py_int s) as [z|e] eqn:Hi; simpl; [|apply Qle_refl].
    apply py_int_nonneg in Hi. unfold Qle. simpl. lia.
Qed.

Lemma clean_spec_nonneg (v : cell) : (0 <= num_val (clean_spec v))%Q.
Proof.
  unfold clean_spec. destruct (is_placeholder v); [apply Qle_refl|].
  apply parse_or_zero_nonneg.
Qed.

(** C6: [clean_numeric_value] never raises.  For an absent, empty or "-"
    value it returns 0; for any other value it returns what the digits and
    dots of its text parse to -- a float when a dot is among them, an
    integer otherwise, 0 when nothing is left or the conversion fails.  So
    "1,234" gives 1234, "50.25*" gives 50.25, "abc" and [None] give 0. *)
Theorem clean_numeric_value_total :
  (forall v, exists n, clean_numeric_value v = Ok n)
  /\ (forall v, clean_numeric_value v = Ok (clean_spec v))
  /\ clean_numeric_value CNone = Ok (NInt 0)
  /\ clean_numeric_value (CFloat "nan") = Ok (NInt 0)
  /\ clean_numeric_value (CStr "") = Ok (NInt 0)
  /\ clean_numeric_value (CStr "-") = Ok (NInt 0)
  /\ clean_numeric_value (CStr "1,234") = Ok (NInt 1234)
  /\ clean_numeric_value (CStr "50.25*") = Ok (NFloat (Qred 50.25))
  /\ clean_numeric_value (CStr "abc") = Ok (NInt 0).
Proof.
  split; [|split].
  - intros v. exists (clean_spec v). apply clean_numeric_value_ok.
  - exact clean_numeric_value_ok.
  - repeat split; vm_compute; reflexivity.
Qed.

Lemma clean_spec_str (s : string) :
  clean_spec (CStr s) = parse_or_zero (Str.filter digit_or_dot s).
Proof.
  unfold clean_spec, is_placeholder. simpl.
  destruct (String.eqb_spec s "-") as [->|_]; [reflexivity|].
  destruct (String.eqb_spec s "") as [->|_]; reflexivity.
Qed.

(** C9: whatever the value, [clean_numeric_value] returns a number that is
    not negative.  A minus sign goes the way of every character that is
    neither a digit nor a dot: a text with a minus sign in front cleans to
    what the text without it cleans to, so "-5" gives 5. *)
Theorem clean_numeric_value_nonneg :
  (forall v, exists n, clean_numeric_value v = Ok n /\ (0 <= num_val n)%Q)
  /\ (forall s, clean_numeric_value (CStr (String "-" s)) = clean_numeric_value (CStr s))
  /\ clean_numeric_value (CStr "-5") = Ok (NInt 5)
  /\ clean_numeric_value (CInt (-5)) = Ok (NInt 5)
  /\ clean_numeric_value (CFloat "-2.5") = Ok (NFloat (Qred 2.5)).
Proof.
  split; [|split].
  - intros v. exists (clean_spec v). split.
    + apply clean_numeric_value_ok.
    + apply clean_spec_nonneg.
  - intros s. rewrite !clean_numeric_value_ok, !clean_spec_str. reflexivity.
  - repeat split; vm_compute; reflexivity.
Qed.

(** ** [determine_role] *)

(** Comparisons with the constants of the program. *)
Lemma num_gt_int (a : num) (c : Z) :
  (Z.abs c <? 2 ^ 1024) = true ->
  (num_gt a (NInt c) = true <-> (inject_Z c < num_val a)%Q).
Proof.
  intros Hc. apply num_gt_iff. right. apply finite_int, Z.ltb_lt, Hc.
Qed.

Lemma num_lt_int (a : num) (c : Z) :
  (Z.abs c <? 2 ^ 1024) = true ->
  (num_lt a (NInt c) = true <-> (num_val a < inject_Z c)%Q).
Proof.
  intros Hc. apply num_lt_iff. right. apply finite_int, Z.ltb_lt, Hc.
Qed.

Lemma num_eq_int (a : num) (c : Z) :
  (Z.abs c <? 2 ^ 1024) = true ->
  (num_eq a (NInt c) = true <-> (num_val a == inject_Z c)%Q).
Proof.
  intros Hc. apply num_eq_iff. right. apply finite_int, Z.ltb_lt, Hc.
Qed.

Section RoleBounds.

Variables runs batting_avg wickets bowling_avg : Q.

(** Once the all-rounder rule has failed, more than 50 wickets come with at
    most 1000 runs, and are more than a hundredth of them. *)
Lemma few_runs :
  ~ all_rounder_rule runs batting_avg wickets bowling_avg ->
  (50 < wickets -> runs <= 1000)%Q.
Proof.
  unfold all_rounder_rule. intros HnA H50.
  apply Qnot_lt_le. intros Hr. apply HnA. left. split; [exact Hr|lra].
Qed.

Lemma wickets_beat_runs :
  ~ all_rounder_rule runs batting_avg wickets bowling_avg ->
  (50 < wickets -> runs / 100 < wickets)%Q.
Proof.
  intros HnA H50. pose proof (few_runs HnA H50) as Hr.
  apply Qlt_shift_div_r; lra.
Qed.

Lemma bowler_rule_wickets :
  ~ all_rounder_rule runs batting_avg wickets bowling_avg ->
  (bowler_rule runs wickets <-> 50 < wickets)%Q.
Proof.
  intros HnA. unfold bowler_rule. split.
  - intros [[_ H]|H]; lra.
  - intros H50. left. split; [|exact H50]. apply wickets_beat_runs; assumption.
Qed.

End RoleBounds.

Section Role.

Variables batting_stats bowling_stats fielding_stats : gmap string num.

Let K : Prop := keeper_rule (stat fielding_stats "Dis") (stat fielding_stats "St").
Let A : Prop := all_rounder_rule (stat batting_stats "Runs") (stat batting_stats "Ave")
                                 (stat bowling_stats "Wkts") (stat bowling_stats "Ave").
Let B : Prop := bowler_rule (stat batting_stats "Runs") (stat bowling_stats "Wkts").
Let V : Prop := division_overflows (get0 batting_stats "Runs").

Lemma keeper_test :
  num_gt (get0 fielding_stats "St") (NInt 5)
  || (num_gt (get0 fielding_stats "Dis") (NInt 20)
      && num_gt (get0 fielding_stats "St") (NInt 0)) = true <-> K.
Proof.
  unfold K, keeper_rule, stat.
  rewrite orb_true_iff, andb_true_iff, !num_gt_int by reflexivity. reflexivity.
Qed.

Lemma all_rounder_test :
  (num_gt (get0 batting_stats "Runs") (NInt 1000)
   && num_gt (get0 bowling_stats "Wkts") (NInt 20))
  || (num_gt (get0 batting_stats "Ave") (NInt 25)
      && num_gt (get0 bowling_stats "Ave") (NInt 0)
      && num_lt (get0 bowling_stats "Ave") (NInt 35)
      && num_gt (get0 bowling_stats "Wkts") (NInt 10)) = true <-> A.
Proof.
  unfold A, all_rounder_rule, stat.
  rewrite orb_true_iff, !andb_true_iff, !num_gt_int, num_lt_int by reflexivity.
  change (inject_Z 1000) with 1000%Q. change (inject_Z 20) with 20%Q.
  change (inject_Z 25) with 25%Q. change (inject_Z 0) with 0%Q.
  change (inject_Z 35) with 35%Q. change (inject_Z 10) with 10%Q. tauto.
Qed.

(** Behind the all-rounder test the two tests for "Bowler" say that there
    are more than 50 wickets; the first one alone does. *)
Lemma bowler_test (hundredth : num) :
  ~ A ->
  ((num_val (get0 batting_stats "Runs") <= 1000)%Q -> (num_val hundredth <= 10)%Q) ->
  (num_gt (get0 bowling_stats "Wkts") hundredth
   && num_gt (get0 bowling_stats "Wkts") (NInt 50) = true
   <-> (50 < stat bowling_stats "Wkts")%Q)
  /\ (num_gt (get0 bowling_stats "Wkts") (NInt 100) = true ->
      (50 < stat bowling_stats "Wkts")%Q).
Proof.
  intros HnA Hh. unfold stat in *.
  rewrite andb_true_iff, !num_gt_int by reflexivity.
  change (inject_Z 50) with 50%Q. change (inject_Z 100) with 100%Q.
  split; [|lra]. split; [tauto|]. intros H50. split; [|exact H50].
  apply (num_gt_between _ _ 10); [reflexivity| |change (inject_Z 10) with 10%Q; lra].
  change (inject_Z 10) with 10%Q. apply Hh. exact (few_runs _ _ _ _ HnA H50).
Qed.

Lemma determine_role_cases :
  (K /\ determine_role batting_stats bowling_stats fielding_stats = Ok "Wicket-keeper")
  \/ (~ K /\ A
      /\ determine_role batting_stats bowling_stats fielding_stats = Ok "All-rounder")
  \/ (~ K /\ ~ A /\ V
      /\ determine_role batting_stats bowling_stats fielding_stats
         = Raise OverflowError)
  \/ (~ K /\ ~ A /\ ~ V /\ B
      /\ determine_role batting_stats bowling_stats fielding_stats = Ok "Bowler")
  \/ (~ K /\ ~ A /\ ~ V /\ ~ B
      /\ determine_role batting_stats bowling_stats fielding_stats = Ok "Batsman").
Proof.
  pose proof keeper_test as HK. pose proof all_rounder_test as HA.
  unfold determine_role.
  destruct (num_gt (get0 fielding_stats "St") (NInt 5) || _) eqn:Ek.
  { left. split; [apply HK|]; reflexivity. }
  assert (~ K) as HnK by (rewrite <- HK; discriminate).
  destruct (_ && _ || _) eqn:Ea in |- *.
  { right; left. rewrite Ea in HA. repeat split; [exact HnK|apply HA; reflexivity]. }
  rewrite Ea in HA.
  assert (~ A) as HnA by (rewrite <- HA; discriminate).
  right; right.
  destruct (num_div_100 (get0 batting_stats "Runs"))
    as [(z & Hz & Hbig & ->)|(h & -> & Hsmall & Hten)]; cbn [rbind].
  { left. repeat split; [exact HnK|exact HnA|]. exists z. tauto. }
  assert (~ V) as HnV.
  { intros (z & Hz & Hbig). specialize (Hsmall z Hz). lia. }
  right.
  destruct (bowler_test h HnA Hten) as [H1 H2].
  pose proof (bowler_rule_wickets _ _ _ _ HnA) as HB. fold B in HB.
  destruct (num_gt (get0 bowling_stats "Wkts") h && _) eqn:Eb1.
  { left. repeat split; [exact HnK|exact HnA|exact HnV|]. apply HB, H1. reflexivity. }
  destruct (num_gt (get0 bowling_stats "Wkts") (NInt 100)) eqn:Eb2.
  { left. repeat split; [exact HnK|exact HnA|exact HnV|]. apply HB, H2. reflexivity. }
  right. repeat split; [exact HnK|exact HnA|exact HnV|].
  intros HBt. apply HB, H1 in HBt. discriminate.
Qed.

End Role.

(** C1, as the code has it: [determine_role] returns one of the four
    labels by the first rule that holds, or raises [OverflowError].
    "Wicket-keeper" exactly when the keeper rule holds; "All-rounder"
    exactly when it does not and the all-rounder rule holds.  When neither
    holds the hundredth of the runs is computed: for runs that are an [int]
    of 100 * (2^1024 - 2^970) or more in absolute value this raises
    [OverflowError]; otherwise the role is "Bowler" exactly when the bowler
    rule holds and "Batsman" exactly when it does not.  More than 5
    stumpings always give "Wicket-keeper", whatever the other statistics. *)
Theorem determine_role_precedence (bat bowl fld : gmap string num) :
  (determine_role bat bowl fld = Ok "Wicket-keeper"
   \/ determine_role bat bowl fld = Ok "All-rounder"
   \/ determine_role bat bowl fld = Ok "Bowler"
   \/ determine_role bat bowl fld = Ok "Batsman"
   \/ determine_role bat bowl fld = Raise OverflowError)
  /\ (determine_role bat bowl fld = Ok "Wicket-keeper"
      <-> keeper_rule (stat fld "Dis") (stat fld "St"))
  /\ (determine_role bat bowl fld = Ok "All-rounder"
      <-> ~ keeper_rule (stat fld "Dis") (stat fld "St")
          /\ all_rounder_rule (stat bat "Runs") (stat bat "Ave")
                              (stat bowl "Wkts") (stat bowl "Ave"))
  /\ (determine_role bat bowl fld = Ok "Bowler"
      <-> ~ keeper_rule (stat fld "Dis") (stat fld "St")
          /\ ~ all_rounder_rule (stat bat "Runs") (stat bat "Ave")
                                (stat bowl "Wkts") (stat bowl "Ave")
          /\ bowler_rule (stat bat "Runs") (stat bowl "Wkts")
          /\ ~ division_overflows (get0 bat "Runs"))
  /\ (determine_role bat bowl fld = Ok "Batsman"
      <-> ~ keeper_rule (stat fld "Dis") (stat fld "St")
          /\ ~ all_rounder_rule (stat bat "Runs") (stat bat "Ave")
                                (stat bowl "Wkts") (stat bowl "Ave")
          /\ ~ bowler_rule (stat bat "Runs") (stat bowl "Wkts")
          /\ ~ division_overflows (get0 bat "Runs"))
  /\ (determine_role bat bowl fld = Raise OverflowError
      <-> ~ keeper_rule (stat fld "Dis") (stat fld "St")
          /\ ~ all_rounder_rule (stat bat "Runs") (stat bat "Ave")
                                (stat bowl "Wkts") (stat bowl "Ave")
          /\ division_overflows (get0 bat "Runs"))
  /\ ((5 < stat fld "St")%Q -> determine_role bat bowl fld = Ok "Wicket-keeper").
Proof.
  destruct (determine_role_cases bat bowl fld)
    as [(HK & ->)|[(HK & HA & ->)|[(HK & HA & HV & ->)
       |[(HK & HA & HV & HB & ->)|(HK & HA & HV & HB & ->)]]]].
  all: repeat split; try discriminate; try tauto; auto 6.
  all: try (intros H5; exfalso; apply HK; left; exact H5).
Qed.

(** More than 5 stumpings beat the all-rounder rule. *)
Lemma determine_role_precedence_witness :
  (5 < stat {[ "St" := NInt 10 ]} "St")%Q
  /\ all_rounder_rule (stat {[ "Runs" := NInt 1500 ]} "Runs")
                      (stat {[ "Runs" := NInt 1500 ]} "Ave")
                      (stat {[ "Wkts" := NInt 30 ]} "Wkts")
                      (stat {[ "Wkts" := NInt 30 ]} "Ave")
  /\ determine_role {[ "Runs" := NInt 1500 ]} {[ "Wkts" := NInt 30 ]}
                    {[ "St" := NInt 10 ]} = Ok "Wicket-keeper".
Proof.
  assert (5 < stat {[ "St" := NInt 10 ]} "St")%Q as H5 by reflexivity.
  split; [exact H5|]. split.
  - left. split; reflexivity.
  - apply (determine_role_precedence {[ "Runs" := NInt 1500 ]}
             {[ "Wkts" := NInt 30 ]} {[ "St" := NInt 10 ]}).
    exact H5.
Defined.

(** The claim as it was written fails where the runs are an [int] beyond
    the floats: with 10^400 runs and nothing else no rule holds, and the
    result is not "Batsman" but an exception. *)
Lemma determine_role_overflow :
  ~ keeper_rule (stat ∅ "Dis") (stat ∅ "St")
  /\ ~ all_rounder_rule (stat {[ "Runs" := NInt (10 ^ 400) ]} "Runs")
                        (stat {[ "Runs" := NInt (10 ^ 400) ]} "Ave")
                        (stat ∅ "Wkts") (stat ∅ "Ave")
  /\ ~ bowler_rule (stat {[ "Runs" := NInt (10 ^ 400) ]} "Runs") (stat ∅ "Wkts")
  /\ determine_role {[ "Runs" := NInt (10 ^ 400) ]} ∅ ∅ <> Ok "Batsman"
  /\ determine_role {[ "Runs" := NInt (10 ^ 400) ]} ∅ ∅ = Raise OverflowError.
Proof.
  assert (determine_role {[ "Runs" := NInt (10 ^ 400) ]} ∅ ∅ = Raise OverflowError)
    as Hr by (vm_compute; reflexivity).
  split; [|split; [|split; [|split]]].
  - intros [H|[H _]]; vm_compute in H; discriminate.
  - intros [[_ H]|[H _]]; vm_compute in H; discriminate.
  - intros [[_ H]|H]; vm_compute in H; discriminate.
  - rewrite Hr. discriminate.
  - exact Hr.
Qed.

(** ** [determine_era] *)

Lemma length_app (s t : string) :
  String.length (s ++ t) = (String.length s + String.length t)%nat.
Proof. induction s as [|c s IH]; simpl; [reflexivity|]. rewrite IH. reflexivity. Qed.

Lemma findall_short (s : string) :
  (String.length s < 4)%nat -> findall_4digits s = [].
Proof.
  destruct s as [|c1 [|c2 [|c3 [|c4 rest]]]]; simpl; try reflexivity. lia.
Qed.

Lemma findall_step (c1 c2 c3 c4 : ascii) (rest : string) :
  findall_4digits (String c1 (String c2 (String c3 (String c4 rest)))) =
  if Str.is_digit c1 && Str.is_digit c2 && Str.is_digit c3 && Str.is_digit c4
  then String c1 (String c2 (String c3 (String c4 EmptyString)))
       :: findall_4digits rest
  else findall_4digits (String c2 (String c3 (String c4 rest))).
Proof. reflexivity. Qed.

(** Induction along the search of [findall_4digits]. *)
Lemma findall_4digits_ind (P : string -> list string -> Prop) :
  (forall s, (String.length s < 4)%nat -> P s []) ->
  (forall c1 c2 c3 c4 rest,
     Str.is_digit c1 && Str.is_digit c2 && Str.is_digit c3 && Str.is_digit c4 = true ->
     P rest (findall_4digits rest) ->
     P (String c1 (String c2 (String c3 (String c4 rest))))
       (String c1 (String c2 (String c3 (String c4 EmptyString)))
        :: findall_4digits rest)) ->
  (forall c1 c2 c3 c4 rest,
     Str.is_digit c1 && Str.is_digit c2 && Str.is_digit c3 && Str.is_digit c4 = false ->
     P (String c2 (String c3 (String c4 rest)))
       (findall_4digits (String c2 (String c3 (String c4 rest)))) ->
     P (String c1 (String c2 (String c3 (String c4 rest))))
       (findall_4digits (String c2 (String c3 (String c4 rest))))) ->
  forall s, P s (findall_4digits s).
Proof.
  intros Hshort Hhit Hmiss s.
  remember (String.length s) as n eqn:Hn.
  revert s Hn. induction n as [n IH] using lt_wf_ind. intros s Hn.
  destruct s as [|c1 [|c2 [|c3 [|c4 rest]]]];
    try (apply Hshort; simpl; lia).
  rewrite findall_step.
  destruct (Str.is_digit c1 && Str.is_digit c2 && Str.is_digit c3 && Str.is_digit c4)
    eqn:Hd.
  - apply Hhit; [exact Hd|]. eapply IH; [|reflexivity]. subst n. simpl. lia.
  - apply Hmiss; [exact Hd|]. eapply IH; [|reflexivity]. subst n. simpl. lia.
Qed.

Lemma four_digits_chars (c1 c2 c3 c4 : ascii) :
  four_digits (String c1 (String c2 (String c3 (String c4 EmptyString)))) <->
  Str.is_digit c1 && Str.is_digit c2 && Str.is_digit c3 && Str.is_digit c4 = true.
Proof.
  unfold four_digits. simpl. rewrite andb_true_r, !andb_assoc. tauto.
Qed.

Lemma has_4digits_short (s : string) :
  (String.length s < 4)%nat -> ~ has_4digits s.
Proof.
  intros Hlen (pre & d & post & -> & Hd & _).
  rewrite !length_app in Hlen. lia.
Qed.

Lemma has_4digits_cons (c : ascii) (s : string) :
  has_4digits s -> has_4digits (String c s).
Proof.
  intros (pre & d & post & -> & Hd). exists (String c pre), d, post. split; [reflexivity|exact Hd].
Qed.

Lemma has_4digits_miss (c1 c2 c3 c4 : ascii) (rest : string) :
  Str.is_digit c1 && Str.is_digit c2 && Str.is_digit c3 && Str.is_digit c4 = false ->
  has_4digits (String c1 (String c2 (String c3 (String c4 rest)))) ->
  has_4digits (String c2 (String c3 (String c4 rest))).
Proof.
  intros Hmiss (pre & d & post & Heq & Hd).
  destruct pre as [|c pre].
  - exfalso. destruct Hd as [Hlen Hdig].
    destruct d as [|d1 [|d2 [|d3 [|d4 [|d5 d]]]]]; simpl in Hlen; try lia.
    simpl in Heq. injection Heq as -> -> -> -> _.
    simpl in Hdig. rewrite andb_true_r, !andb_assoc in Hdig. congruence.
  - simpl in Heq. injection Heq as _ Heq.
    exists pre, d, post. split; [exact Heq|exact Hd].
Qed.

(** The search finds nothing exactly when there are no four digits in a row. *)
Lemma findall_nil_iff (s : string) :
  findall_4digits s = [] <-> ~ has_4digits s.
Proof.
  apply (findall_4digits_ind (fun s l => l = [] <-> ~ has_4digits s)).
  - intros s' Hlen. split; [intros _; apply has_4digits_short, Hlen|reflexivity].
  - intros c1 c2 c3 c4 rest Hd _. split; [discriminate|].
    intros Hno. exfalso. apply Hno.
    exists "", (String c1 (String c2 (String c3 (String c4 ""))))%string, rest.
    split; [reflexivity|]. apply four_digits_chars, Hd.
  - intros c1 c2 c3 c4 rest Hd IH. rewrite IH. split.
    + intros Hno Hhas. apply Hno. eapply has_4digits_miss; eassumption.
    + intros Hno Hhas. apply Hno, has_4digits_cons, Hhas.
Qed.

(** The last match is made of four digits, and no four digits in a row
    come after it. *)
Lemma findall_last (s y : string) :
  last (findall_4digits s) = Some y ->
  four_digits y /\ exists pre post, s = pre ++ y ++ post /\ ~ has_4digits post.
Proof.
  revert y.
  apply (findall_4digits_ind (fun s l => forall y, last l = Some y ->
    four_digits y /\ exists pre post, s = pre ++ y ++ post /\ ~ has_4digits post)).
  - intros s' _ y [=].
  - intros c1 c2 c3 c4 rest Hd IH y Hlast.
    destruct (findall_4digits rest) as [|z l] eqn:Hrest.
    + simpl in Hlast. injection Hlast as <-. split; [apply four_digits_chars, Hd|].
      exists "", rest. split; [reflexivity|]. apply findall_nil_iff, Hrest.
    + destruct (IH y) as (Hy & pre & post & -> & Hpost).
      { rewrite <- Hlast. reflexivity. }
      split; [exact Hy|].
      exists (String c1 (String c2 (String c3 (String c4 pre)))), post.
      split; [reflexivity|exact Hpost].
  - intros c1 c2 c3 c4 rest _ IH y Hlast.
    destruct (IH y Hlast) as (Hy & pre & post & Heq & Hpost).
    split; [exact Hy|]. exists (String c1 pre), post.
    split; [rewrite Heq; reflexivity|exact Hpost].
Qed.

(** Where no match starts, the search moves on by one character. *)
Lemma findall_skip (c : ascii) (s : string) :
  starts_4digits (String c s) = false ->
  findall_4digits (String c s) = findall_4digits s.
Proof.
  destruct s as [|c2 [|c3 [|c4 rest]]]; try reflexivity.
  rewrite findall_step. unfold starts_4digits. intros ->. reflexivity.
Qed.

Lemma starts_4digits_1 (c1 : ascii) (s : string) :
  Str.is_digit c1 = false -> starts_4digits (String c1 s) = false.
Proof.
  intros H. destruct s as [|c2 [|c3 [|c4 rest]]]; try reflexivity.
  unfold starts_4digits. rewrite H. reflexivity.
Qed.

Lemma starts_4digits_2 (c1 c2 : ascii) (s : string) :
  Str.is_digit c2 = false -> starts_4digits (String c1 (String c2 s)) = false.
Proof.
  intros H. destruct s as [|c3 [|c4 rest]]; try reflexivity.
  unfold starts_4digits. rewrite H, andb_false_r. reflexivity.
Qed.

Lemma starts_4digits_3 (c1 c2 c3 : ascii) (s : string) :
  Str.is_digit c3 = false ->
  starts_4digits (String c1 (String c2 (String c3 s))) = false.
Proof.
  intros H. destruct s as [|c4 rest]; try reflexivity.
  unfold starts_4digits. rewrite H, andb_false_r. reflexivity.
Qed.

(** Behind a character that is not a digit the search starts afresh. *)
Lemma findall_app (pre t : string) :
  ends_digit pre = false ->
  findall_4digits (pre ++ t) = (findall_4digits pre ++ findall_4digits t)%list.
Proof.
  revert t.
  apply (findall_4digits_ind (fun pre l => forall t, ends_digit pre = false ->
           findall_4digits (pre ++ t) = (l ++ findall_4digits t)%list)).
  - intros s Hlen t Hend.
    destruct s as [|c1 [|c2 [|c3 [|c4 rest]]]]; simpl in Hlen; try lia.
    + reflexivity.
    + simpl in Hend. change (String c1 "" ++ t) with (String c1 t).
      apply findall_skip, starts_4digits_1, Hend.
    + simpl in Hend.
      change (String c1 (String c2 "") ++ t) with (String c1 (String c2 t)).
      rewrite findall_skip by (apply starts_4digits_2, Hend).
      apply findall_skip, starts_4digits_1, Hend.
    + simpl in Hend.
      change (String c1 (String c2 (String c3 "")) ++ t)
        with (String c1 (String c2 (String c3 t))).
      rewrite findall_skip by (apply starts_4digits_3, Hend).
      rewrite findall_skip by (apply starts_4digits_2, Hend).
      apply findall_skip, starts_4digits_1, Hend.
  - intros c1 c2 c3 c4 rest Hd IH t Hend.
    change (String c1 (String c2 (String c3 (String c4 rest))) ++ t)
      with (String c1 (String c2 (String c3 (String c4 (rest ++ t))))).
    rewrite findall_step, Hd.
    destruct rest as [|r rest].
    + exfalso. simpl in Hend. apply andb_prop in Hd as [_ Hd]. congruence.
    + rewrite (IH t Hend). reflexivity.
  - intros c1 c2 c3 c4 rest Hd IH t Hend.
    change (String c1 (String c2 (String c3 (String c4 rest))) ++ t)
      with (String c1 (String c2 (String c3 (String c4 (rest ++ t))))).
    rewrite findall_step, Hd.
    apply (IH t). exact Hend.
Qed.

(** Four digits that start a run of digits and have no four digits in a row
    behind them are the last match. *)
Lemma findall_last_run (pre y post : string) :
  ends_digit pre = false -> four_digits y -> ~ has_4digits post ->
  last (findall_4digits (pre ++ y ++ post)) = Some y.
Proof.
  intros Hpre Hy Hpost. rewrite (findall_app pre _ Hpre).
  pose proof Hy as [Hlen Hdig].
  destruct y as [|c1 [|c2 [|c3 [|c4 [|c5 y]]]]]; simpl in Hlen; try lia.
  change (String c1 (String c2 (String c3 (String c4 ""))) ++ post)
    with (String c1 (String c2 (String c3 (String c4 post)))).
  rewrite findall_step.
  rewrite (proj1 (four_digits_chars c1 c2 c3 c4) Hy).
  apply findall_nil_iff in Hpost. rewrite Hpost.
  apply last_snoc.
Qed.

Lemma py_int_four_digits (y : string) : four_digits y -> py_int y = Ok (digits_val y).
Proof.
  intros [Hlen Hdig]. unfold py_int. rewrite Hdig, Hlen.
  destruct y; [discriminate|reflexivity].
Qed.

Lemma determine_era_ok (span : cell) :
  determine_era span =
  Ok (if pd_isna span || cell_eq_str span "-" then "Unknown"
      else match end_year span with
           | None => "Unknown"
           | Some y => era_of_year y
           end).
Proof.
  unfold determine_era, end_year, era_of_year.
  destruct (pd_isna span || cell_eq_str span "-"); [reflexivity|].
  destruct (last (findall_4digits (py_str span))) as [y|] eqn:Hlast; [|reflexivity].
  simpl. apply findall_last in Hlast as [Hy _].
  rewrite (py_int_four_digits y Hy). simpl.
  destruct (digits_val y >=? 2010); [reflexivity|].
  destruct (digits_val y >=? 1990); reflexivity.
Qed.

Lemma era_of_year_cases (y : Z) :
  (era_of_year y = "Modern" <-> 2010 <= y)
  /\ (era_of_year y = "Classic" <-> 1990 <= y < 2010)
  /\ (era_of_year y = "Vintage" <-> y < 1990).
Proof.
  unfold era_of_year.
  destruct (Z.geb_spec y 2010); [|destruct (Z.geb_spec y 1990)].
  all: repeat split; intros; try discriminate; try lia; reflexivity.
Qed.

Lemma determine_era_last_run (pre y post : string) :
  ends_digit pre = false -> four_digits y -> ~ has_4digits post ->
  determine_era (CStr (pre ++ y ++ post)) = Ok (era_of_year (digits_val y)).
Proof.
  intros Hpre Hy Hpost. rewrite determine_era_ok. unfold end_year. simpl.
  rewrite (findall_last_run pre y post Hpre Hy Hpost). simpl.
  destruct (String.eqb_spec (pre ++ y ++ post) "-") as [Heq|_]; [|reflexivity].
  exfalso. apply (f_equal String.length) in Heq.
  rewrite !length_app, (proj1 Hy) in Heq. simpl in Heq. lia.
Qed.

(** C5: [determine_era] gives "Unknown" for an absent span, for "-" and
    for a text without four digits in a row.  Otherwise the search has a
    last match: four digits of the text with no four digits in a row behind
    them; read as the year the career ended, it gives "Modern" exactly from
    2010 on, "Classic" exactly from 1990 to 2009 and "Vintage" exactly
    before 1990.  In a text [pre ++ y ++ post] where the four digits [y]
    start a run of digits and no four digits in a row follow, that year is
    [y].  So "X-2010" is "Modern" and "X-1990" is "Classic". *)
Theorem determine_era_classes :
  (forall span,
     pd_isna span = true \/ span = CStr "-" \/ ~ has_4digits (py_str span) ->
     determine_era span = Ok "Unknown")
  /\ (forall span,
        pd_isna span = false -> span <> CStr "-" -> has_4digits (py_str span) ->
        exists y pre post e,
          last (findall_4digits (py_str span)) = Some y
          /\ py_str span = pre ++ y ++ post /\ four_digits y /\ ~ has_4digits post
          /\ determine_era span = Ok e
          /\ (e = "Modern" <-> 2010 <= digits_val y)
          /\ (e = "Classic" <-> 1990 <= digits_val y < 2010)
          /\ (e = "Vintage" <-> digits_val y < 1990))
  /\ (forall pre y post,
        ends_digit pre = false -> four_digits y -> ~ has_4digits post ->
        determine_era (CStr (pre ++ y ++ post))
        = Ok (if 2010 <=? digits_val y then "Modern"
              else if 1990 <=? digits_val y then "Classic" else "Vintage"))
  /\ determine_era (CStr "2008-2023") = Ok "Modern"
  /\ determine_era (CStr "1985-1999") = Ok "Classic"
  /\ determine_era (CStr "1970-1989") = Ok "Vintage"
  /\ determine_era (CStr "X-2010") = Ok "Modern"
  /\ determine_era (CStr "X-2009") = Ok "Classic"
  /\ determine_era (CStr "X-1990") = Ok "Classic"
  /\ determine_era (CStr "X-1989") = Ok "Vintage".
Proof.
  split; [|split; [|split]].
  - intros span Hcase. rewrite determine_era_ok.
    destruct Hcase as [Hna|[->|Hno]].
    + rewrite Hna. reflexivity.
    + reflexivity.
    + destruct (pd_isna span || cell_eq_str span "-"); [reflexivity|].
      unfold end_year. apply findall_nil_iff in Hno. rewrite Hno. reflexivity.
  - intros span Hna Hdash Hhas.
    destruct (last (findall_4digits (py_str span))) as [y|] eqn:Hlast.
    2:{ exfalso. apply last_None in Hlast. apply findall_nil_iff in Hlast.
        exact (Hlast Hhas). }
    destruct (findall_last _ _ Hlast) as (Hy & pre & post & Heq & Hpost).
    exists y, pre, post, (era_of_year (digits_val y)).
    split; [reflexivity|]. split; [exact Heq|]. split; [exact Hy|].
    split; [exact Hpost|]. split; [|apply era_of_year_cases].
    rewrite determine_era_ok, Hna. unfold end_year. rewrite Hlast.
    destruct span as [|s| | |]; try reflexivity.
    simpl. destruct (String.eqb_spec s "-") as [->|_]; [congruence|reflexivity].
  - intros pre y post Hpre Hy Hpost.
    rewrite (determine_era_last_run pre y post Hpre Hy Hpost).
    unfold era_of_year. rewrite !Z.geb_leb. reflexivity.
  - repeat split; vm_compute; reflexivity.
Qed.

Lemma determine_era_classes_witness :
  (pd_isna (CFloat "nan") = true /\ determine_era (CFloat "nan") = Ok "Unknown")
  /\ (pd_isna (CStr "2008-2023") = false /\ CStr "2008-2023" <> CStr "-"
      /\ has_4digits (py_str (CStr "2008-2023"))
      /\ exists y pre post e,
          last (findall_4digits (py_str (CStr "2008-2023"))) = Some y
          /\ py_str (CStr "2008-2023") = pre ++ y ++ post
          /\ four_digits y /\ ~ has_4digits post
          /\ determine_era (CStr "2008-2023") = Ok e
          /\ (e = "Modern" <-> 2010 <= digits_val y)
          /\ (e = "Classic" <-> 1990 <= digits_val y < 2010)
          /\ (e = "Vintage" <-> digits_val y < 1990))
  /\ (ends_digit "2008-" = false /\ four_digits "2023" /\ ~ has_4digits ""
      /\ determine_era (CStr ("2008-" ++ "2023" ++ ""))
         = Ok (if 2010 <=? digits_val "2023" then "Modern"
               else if 1990 <=? digits_val "2023" then "Classic" else "Vintage")).
Proof.
  assert (has_4digits (py_str (CStr "2008-2023"))) as Hhas.
  { exists "", "2008", "-2023". repeat split; reflexivity. }
  assert (four_digits "2023") as Hy by (split; reflexivity).
  assert (~ has_4digits "") as Hpost by (apply has_4digits_short; simpl; lia).
  split; [|split].
  3:{ split; [reflexivity|]. split; [exact Hy|]. split; [exact Hpost|].
      exact (proj1 (proj2 (proj2 determine_era_classes)) "2008-" "2023" ""
               eq_refl Hy Hpost). }
  - split; [reflexivity|].
    apply (proj1 determine_era_classes (CFloat "nan")). left. reflexivity.
  - split; [reflexivity|]. split; [discriminate|]. split; [exact Hhas|].
    apply (proj1 (proj2 determine_era_classes) (CStr "2008-2023"));
      [reflexivity|discriminate|exact Hhas].
Defined.

(** ** [get_country_from_name] *)

Section SplitFacts.

Variable sep : ascii.

Lemma split_not_nil (s : string) : Str.split sep s <> [].
Proof.
  induction s as [|x s IH]; simpl; [discriminate|].
  destruct (Ascii.eqb x sep); [discriminate|].
  destruct (Str.split sep s); discriminate.
Qed.

Lemma split_cons_other (x : ascii) (s : string) :
  Ascii.eqb x sep = false ->
  exists p ps, Str.split sep s = p :: ps
               /\ Str.split sep (String x s) = String x p :: ps.
Proof.
  intros Hx. simpl. rewrite Hx.
  destruct (Str.split sep s) as [|p ps] eqn:Hs.
  - exfalso. exact (split_not_nil s Hs).
  - exists p, ps. split; reflexivity.
Qed.

(** Without the separator there is one piece, the string itself. *)
Lemma split_none (s : string) :
  Str.contains_char sep s = false -> Str.split sep s = [s].
Proof.
  induction s as [|x s IH]; simpl; [reflexivity|].
  intros [Hx Hs]%orb_false_elim.
  rewrite Ascii.eqb_sym, Hx. rewrite (IH Hs). reflexivity.
Qed.

(** The pieces of [a ++ sep ++ b] when [sep] is not in [a]: [a], then the
    pieces of [b]. *)
Lemma split_app (a b : string) :
  Str.contains_char sep a = false ->
  Str.split sep (a ++ String sep b) = a :: Str.split sep b.
Proof.
  induction a as [|x a IH]; simpl.
  - intros _. rewrite Ascii.eqb_refl. reflexivity.
  - intros [Hx Ha]%orb_false_elim.
    rewrite Ascii.eqb_sym, Hx. rewrite (IH Ha). reflexivity.
Qed.

(** The first piece of [a ++ b] when [sep] is not in [a]. *)
Lemma first_piece_app (a b : string) :
  Str.contains_char sep a = false ->
  nth_piece 0 (Str.split sep (a ++ b)) = a ++ nth_piece 0 (Str.split sep b).
Proof.
  induction a as [|x a IH]; simpl; [reflexivity|].
  intros [Hx Ha]%orb_false_elim.
  rewrite Ascii.eqb_sym, Hx. specialize (IH Ha).
  destruct (Str.split sep (a ++ b)) as [|p ps] eqn:Hs.
  - exfalso. exact (split_not_nil _ Hs).
  - unfold nth_piece in *. simpl in *. rewrite IH. reflexivity.
Qed.

(** [s.split(sep)[1]] exists whenever [sep in s]. *)
Lemma split_second (s : string) :
  Str.contains_char sep s = true -> is_Some (Str.split sep s !! 1%nat).
Proof.
  induction s as [|x s IH]; simpl; [discriminate|].
  destruct (Ascii.eqb x sep) eqn:Hx.
  - intros _. destruct (Str.split sep s) as [|p ps] eqn:Hs.
    + exfalso. exact (split_not_nil _ Hs).
    + simpl. eauto.
  - unfold Str.contains_char in *. simpl.
    rewrite Ascii.eqb_sym, Hx. simpl. intros Hs. specialize (IH Hs).
    destruct (Str.split sep s) as [|p ps]; [destruct IH; discriminate|].
    exact IH.
Qed.

End SplitFacts.

Lemma append_empty_r (s : string) : s ++ "" = s.
Proof.
  induction s as [|c s IH]; [reflexivity|].
  change (String c (s ++ "") = String c s). f_equal. exact IH.
Qed.

(** For a name [pre(seg)post] whose first parenthesis opens [seg], the
    segment is [seg]. *)
Lemma segment_of_parenthesized (pre seg post : string) :
  Str.contains_char "(" pre = false ->
  Str.contains_char "(" seg = false ->
  Str.contains_char ")" seg = false ->
  segment_of (pre ++ "(" ++ seg ++ ")" ++ post) = seg.
Proof.
  intros Hpre Hseg1 Hseg2. unfold segment_of.
  change (pre ++ "(" ++ seg ++ ")" ++ post)
    with (pre ++ String "(" (seg ++ String ")" post)).
  rewrite (split_app "(" pre _ Hpre).
  change (nth_piece 1 (pre :: ?l)) with (nth_piece 0 l).
  rewrite (first_piece_app "(" seg _ Hseg1).
  destruct (split_cons_other "(" ")" post eq_refl) as (p & ps & _ & ->).
  change (nth_piece 0 (String ")" p :: ps)) with (String ")" p).
  rewrite (first_piece_app ")" seg _ Hseg2).
  simpl. apply append_empty_r.
Qed.

Lemma country_step_fold (countries valid_countries : list string) :
  fold_left country_step countries valid_countries =
  (valid_countries
   ++ (full_name <$> filter (fun t => t ∉ exclude_teams) countries))%list.
Proof.
  revert valid_countries.
  induction countries as [|t ts IH]; intros acc; simpl.
  - rewrite app_nil_r. reflexivity.
  - rewrite IH, filter_cons. unfold country_step, full_name.
    destruct (decide (t ∉ exclude_teams)) as [Hin|Hout].
    + rewrite bool_decide_true by exact Hin.
      rewrite fmap_cons.
      destruct (country_mapping !! t); rewrite <- app_assoc; reflexivity.
    + rewrite bool_decide_false by exact Hout. reflexivity.
Qed.

Lemma pattern_loop_first (names : list string) (player_name : string) :
  pattern_loop ((fun c => (c, c)) <$> names) player_name =
  default "Unknown"
    (head (filter (fun c => Str.is_substring (Str.lower c) (Str.lower player_name) = true)
                  names)).
Proof.
  induction names as [|c names IH]; simpl; [reflexivity|].
  rewrite filter_cons.
  destruct (Str.is_substring (Str.lower c) (Str.lower player_name)) eqn:Hc.
  - rewrite decide_True by reflexivity. reflexivity.
  - rewrite decide_False by discriminate. exact IH.
Qed.

Lemma get_country_from_name_eq (player_name : string) :
  get_country_from_name player_name =
  match (if Str.contains_char "(" player_name && Str.contains_char ")" player_name
         then head (surviving_tokens (segment_of player_name)) else None) with
  | Some token => token
  | None => default "Unknown" (first_known player_name)
  end.
Proof.
  unfold get_country_from_name, first_known.
  rewrite <- pattern_loop_first.
  change ((fun c => (c, c)) <$> known_countries) with common_patterns.
  destruct (Str.contains_char "(" player_name && Str.contains_char ")" player_name);
    [|reflexivity].
  rewrite country_step_fold. simpl.
  fold (segment_of player_name). fold (surviving_tokens (segment_of player_name)).
  destruct (surviving_tokens (segment_of player_name)); reflexivity.
Qed.

Lemma contains_char_app (c : ascii) (s t : string) :
  Str.contains_char c (s ++ t) = Str.contains_char c s || Str.contains_char c t.
Proof.
  unfold Str.contains_char.
  induction s as [|x s IH]; simpl; [reflexivity|].
  rewrite IH. apply orb_assoc.
Qed.

Lemma contains_char_cons (c x : ascii) (s : string) :
  Str.contains_char c (String x s) = Ascii.eqb c x || Str.contains_char c s.
Proof. reflexivity. Qed.

Lemma contains_both (pre seg post : string) :
  Str.contains_char "(" (pre ++ "(" ++ seg ++ ")" ++ post)
  && Str.contains_char ")" (pre ++ "(" ++ seg ++ ")" ++ post) = true.
Proof.
  change (pre ++ "(" ++ seg ++ ")" ++ post)
    with (pre ++ String "(" (seg ++ String ")" post)).
  rewrite !contains_char_app, !contains_char_cons, !contains_char_app,
    !contains_char_cons.
  rewrite !Ascii.eqb_refl. simpl. rewrite !orb_true_r. reflexivity.
Qed.

Lemma prefix_iff (p s : string) :
  Str.is_prefix p s = true <-> exists b, s = p ++ b.
Proof.
  revert s. induction p as [|c p IH]; intros s.
  - split; [intros _; exists s; reflexivity|reflexivity].
  - destruct s as [|x s]; [split; [discriminate|intros [b [=]]]|].
    cbn [Str.is_prefix]. rewrite andb_true_iff, Ascii.eqb_eq, IH. split.
    + intros [-> [b ->]]. exists b. reflexivity.
    + intros [b Hb]. change (String x s = String c (p ++ b)) in Hb.
      injection Hb as -> ->. split; [reflexivity|]. exists b. reflexivity.
Qed.

(** [Str.is_substring p s] holds exactly when [p] occurs in [s]. *)
Lemma is_substring_iff (p s : string) :
  Str.is_substring p s = true <-> exists a b, s = a ++ p ++ b.
Proof.
  split.
  - induction s as [|x s IH]; cbn [Str.is_substring].
    + rewrite orb_false_r. intros [b Hb]%prefix_iff. exists "", b. exact Hb.
    + intros [[b Hb]%prefix_iff | Hs]%orb_true_iff.
      * exists "", b. exact Hb.
      * destruct (IH Hs) as (a & b & ->). exists (String x a), b. reflexivity.
  - intros (a & b & ->). induction a as [|x a IH].
    + assert (Str.is_prefix p (p ++ b) = true) as Hp
        by (apply prefix_iff; exists b; reflexivity).
      change ("" ++ p ++ b) with (p ++ b).
      destruct (p ++ b); cbn [Str.is_substring]; rewrite Hp; reflexivity.
    + change (String x a ++ p ++ b) with (String x (a ++ p ++ b)).
      cbn [Str.is_substring]. rewrite IH. apply orb_true_r.
Qed.

(** The table gives each of its codes the name written beside it. *)
Lemma full_name_codes :
  (fun kv => full_name kv.1) <$> country_codes = country_codes.*2.
Proof. vm_compute. reflexivity. Qed.

(** *** Stripping *)

Lemma lstrip_head_kept (s : string) : head_kept (Str.lstrip s) = true.
Proof.
  induction s as [|c s IH]; simpl; [reflexivity|].
  destruct (Str.is_space c) eqn:Hc; [exact IH|]. simpl. rewrite Hc. reflexivity.
Qed.

Lemma head_kept_lstrip (s : string) : head_kept s = true -> Str.lstrip s = s.
Proof.
  destruct s as [|c s]; simpl; [reflexivity|].
  intros Hc%negb_true_iff. rewrite Hc. reflexivity.
Qed.

Lemma rstrip_head_kept (s : string) :
  head_kept s = true -> head_kept (Str.rstrip s) = true.
Proof.
  destruct s as [|c s]; simpl; [reflexivity|]. intros Hc.
  destruct (Str.rstrip s); simpl; [|exact Hc].
  apply negb_true_iff in Hc. rewrite Hc. simpl. rewrite Hc. reflexivity.
Qed.

Lemma lstrip_spec (s : string) :
  exists a, s = a ++ Str.lstrip s /\ Str.forallb Str.is_space a = true.
Proof.
  induction s as [|c s (a & Hs & Ha)]; [exists ""; split; reflexivity|].
  simpl. destruct (Str.is_space c) eqn:Hc.
  - exists (String c a). split; [|simpl; rewrite Hc; exact Ha].
    change (String c s = String c (a ++ Str.lstrip s)). f_equal. exact Hs.
  - exists "". split; reflexivity.
Qed.

Lemma rstrip_spec (s : string) :
  exists b, s = Str.rstrip s ++ b /\ Str.forallb Str.is_space b = true
            /\ last_kept (Str.rstrip s) = true.
Proof.
  induction s as [|c s (b & Hs & Hb & Hl)];
    [exists ""; repeat split; reflexivity|].
  cbn [Str.rstrip]. destruct (Str.rstrip s) as [|d r] eqn:Hr.
  - destruct (Str.is_space c) eqn:Hc.
    + exists (String c b). split; [|split; [simpl; rewrite Hc; exact Hb|reflexivity]].
      change (String c s = String c b). f_equal. exact Hs.
    + exists b. split; [|split; [exact Hb|simpl; rewrite Hc; reflexivity]].
      change (String c s = String c ("" ++ b)). f_equal. exact Hs.
  - exists b. split; [|split; [exact Hb|exact Hl]].
    change (String c s = String c (String d r ++ b)). f_equal. exact Hs.
Qed.

Lemma append_assoc (a b c : string) : (a ++ b) ++ c = a ++ b ++ c.
Proof.
  induction a as [|x a IH]; [reflexivity|].
  change (String x ((a ++ b) ++ c) = String x (a ++ b ++ c)). f_equal. exact IH.
Qed.

(** What stripping does: white space is taken from both ends, up to the
    first and the last character that is none. *)
Lemma strip_spec (s : string) :
  exists a b,
    s = a ++ Str.strip s ++ b
    /\ Str.forallb Str.is_space a = true /\ Str.forallb Str.is_space b = true
    /\ head_kept (Str.strip s) = true /\ last_kept (Str.strip s) = true.
Proof.
  destruct (lstrip_spec s) as (a & Hs & Ha).
  destruct (rstrip_spec (Str.lstrip s)) as (b & Hl & Hb & Hlast).
  exists a, b. unfold Str.strip. split; [|split; [exact Ha|split; [exact Hb|]]].
  - rewrite <- Hl. exact Hs.
  - split; [apply rstrip_head_kept, lstrip_head_kept|exact Hlast].
Qed.

(** *** The segment *)

Lemma first_piece_stop (sep : ascii) (r : string) :
  nth_piece 0 (Str.split sep (String sep r)) = "".
Proof. simpl. rewrite Ascii.eqb_refl. reflexivity. Qed.

(** The segment is what stands behind the first opening parenthesis, up to
    the next parenthesis or the end of the name. *)
Lemma segment_of_first (pre seg rest : string) :
  Str.contains_char "(" pre = false ->
  Str.contains_char "(" seg = false ->
  Str.contains_char ")" seg = false ->
  ends_segment rest ->
  segment_of (pre ++ "(" ++ seg ++ rest) = seg.
Proof.
  intros Hpre Hseg1 Hseg2 Hrest. unfold segment_of.
  change (pre ++ "(" ++ seg ++ rest) with (pre ++ String "(" (seg ++ rest)).
  rewrite (split_app "(" pre _ Hpre).
  change (nth_piece 1 (pre :: ?l)) with (nth_piece 0 l).
  rewrite (first_piece_app "(" seg _ Hseg1).
  destruct rest as [|c r].
  - change (nth_piece 0 (Str.split "(" "")) with "".
    rewrite append_empty_r, (split_none ")" seg Hseg2). reflexivity.
  - destruct Hrest as [-> | ->].
    + rewrite first_piece_stop, append_empty_r, (split_none ")" seg Hseg2).
      reflexivity.
    + destruct (split_cons_other "(" ")" r eq_refl) as (p & ps & _ & ->).
      change (nth_piece 0 (String ")" p :: ps)) with (String ")" p).
      rewrite (first_piece_app ")" seg _ Hseg2), first_piece_stop.
      apply append_empty_r.
Qed.

Lemma contains_char_split (c : ascii) (s : string) :
  Str.contains_char c s = true ->
  exists a b, s = a ++ String c b /\ Str.contains_char c a = false.
Proof.
  induction s as [|x s IH]; [discriminate|].
  rewrite contains_char_cons. destruct (Ascii.eqb c x) eqn:Hx.
  - intros _. apply Ascii.eqb_eq in Hx as <-. exists "", s. split; reflexivity.
  - intros Hs. destruct (IH Hs) as (a & b & -> & Ha).
    exists (String x a), b. split; [reflexivity|].
    rewrite contains_char_cons, Hx. exact Ha.
Qed.

(** The longest start of a string without a parenthesis. *)
Lemma plain_start (s : string) :
  exists seg rest,
    s = seg ++ rest
    /\ Str.contains_char "(" seg = false /\ Str.contains_char ")" seg = false
    /\ ends_segment rest.
Proof.
  induction s as [|x s (seg & rest & -> & H1 & H2 & Hrest)].
  - exists "", "". repeat split.
  - destruct (Ascii.eqb "(" x) eqn:Ho.
    { apply Ascii.eqb_eq in Ho as <-. exists "", (String "(" (seg ++ rest)).
      repeat split. left. reflexivity. }
    destruct (Ascii.eqb ")" x) eqn:Hc.
    { apply Ascii.eqb_eq in Hc as <-. exists "", (String ")" (seg ++ rest)).
      repeat split. right. reflexivity. }
    exists (String x seg), rest. split; [reflexivity|].
    rewrite !contains_char_cons, Ho, Hc. repeat split; assumption.
Qed.

(** Every name with an opening parenthesis has a segment. *)
Lemma name_shape (player_name : string) :
  Str.contains_char "(" player_name = true ->
  exists pre seg rest,
    player_name = pre ++ "(" ++ seg ++ rest
    /\ Str.contains_char "(" pre = false
    /\ Str.contains_char "(" seg = false /\ Str.contains_char ")" seg = false
    /\ ends_segment rest.
Proof.
  intros Hopen. destruct (contains_char_split _ _ Hopen) as (pre & tail & -> & Hpre).
  destruct (plain_start tail) as (seg & rest & -> & H1 & H2 & Hrest).
  exists pre, seg, rest. repeat split; assumption.
Qed.

Lemma closes_after_open_iff (s : string) :
  closes_after_open s = true
  <-> exists pre seg post, s = pre ++ "(" ++ seg ++ ")" ++ post.
Proof.
  split.
  - induction s as [|c s IH]; [discriminate|].
    cbn [closes_after_open]. intros [[Hc Hs]%andb_true_iff | Hs]%orb_true_iff.
    + apply Ascii.eqb_eq in Hc as ->.
      destruct (contains_char_split _ _ Hs) as (seg & post & -> & _).
      exists "", seg, post. reflexivity.
    + destruct (IH Hs) as (pre & seg & post & ->).
      exists (String c pre), seg, post. reflexivity.
  - intros (pre & seg & post & ->). induction pre as [|c pre IH].
    + change ("" ++ "(" ++ seg ++ ")" ++ post) with (String "(" (seg ++ String ")" post)).
      cbn [closes_after_open].
      rewrite contains_char_app, contains_char_cons, Ascii.eqb_refl.
      simpl. rewrite orb_true_r. reflexivity.
    + change (String c pre ++ "(" ++ seg ++ ")" ++ post)
        with (String c (pre ++ "(" ++ seg ++ ")" ++ post)).
      cbn [closes_after_open]. rewrite IH. apply orb_true_r.
Qed.

Lemma lower_char_ascii (c : ascii) :
  (Str.code c < 128)%N ->
  Str.lower_char c
  = if ((65 <=? Str.code c) && (Str.code c <=? 90))%N
    then ascii_of_N (Str.code c + 32) else c.
Proof.
  destruct c as [[] [] [] [] [] [] [] []]; vm_compute; congruence.
Qed.

Lemma full_name_other (t : string) : t ∉ codes -> full_name t = t.
Proof.
  intros Ht. unfold full_name.
  destruct (country_mapping !! t) as [v|] eqn:Hv; [|reflexivity].
  exfalso. apply Ht. unfold country_mapping in Hv.
  apply elem_of_list_to_map_2 in Hv. unfold codes.
  apply list_elem_of_fmap. exists (t, v). split; [reflexivity|exact Hv].
Qed.

(** C4, as the code has it.  A name with an opening parenthesis is
    [pre(seg rest] where [seg] runs up to the next parenthesis or the end of
    the name; when the name also holds a closing parenthesis, wherever it
    is, [seg] is split on "/", the tokens are trimmed, those in the
    exclusion set are dropped, the others are replaced by their entry in the
    code table when they have one and kept as they are otherwise, and the
    first one left is returned.  When no token is left, and when the name
    lacks an opening or a closing parenthesis, the result is the first of
    the ten known country names that occurs in the name, letter case apart,
    and "Unknown" when none does.  "Player (Asia/SL)" gives "Sri Lanka",
    "Someone (XI)" gives "Unknown"; "X) Y (AUS" gives "Australia" and
    "A ((AUS))" the empty token. *)
Theorem get_country_from_name_resolution :
  (forall pre seg rest,
     Str.contains_char "(" pre = false ->
     Str.contains_char "(" seg = false ->
     Str.contains_char ")" seg = false ->
     ends_segment rest ->
     Str.contains_char ")" (pre ++ "(" ++ seg ++ rest) = true ->
     get_country_from_name (pre ++ "(" ++ seg ++ rest) =
     match head (surviving_tokens seg) with
     | Some token => token
     | None => default "Unknown" (first_known (pre ++ "(" ++ seg ++ rest))
     end)
  /\ (forall player_name,
        Str.contains_char "(" player_name = true ->
        exists pre seg rest,
          player_name = pre ++ "(" ++ seg ++ rest
          /\ Str.contains_char "(" pre = false
          /\ Str.contains_char "(" seg = false
          /\ Str.contains_char ")" seg = false
          /\ ends_segment rest)
  /\ (forall player_name,
        Str.contains_char "(" player_name = false
        \/ Str.contains_char ")" player_name = false ->
        get_country_from_name player_name
        = default "Unknown" (first_known player_name))
  /\ (forall a b,
        Str.contains_char "/" a = false ->
        Str.split "/" (a ++ String "/" b) = a :: Str.split "/" b)
  /\ (forall a, Str.contains_char "/" a = false -> Str.split "/" a = [a])
  /\ (forall s, exists a b,
        s = a ++ Str.strip s ++ b
        /\ Str.forallb Str.is_space a = true /\ Str.forallb Str.is_space b = true
        /\ head_kept (Str.strip s) = true /\ last_kept (Str.strip s) = true)
  /\ (forall t, t ∈ exclude_teams <-> t ∈ excluded_names)
  /\ (fun kv => full_name kv.1) <$> country_codes = country_codes.*2
  /\ (forall t, t ∉ codes -> full_name t = t)
  /\ (forall p s, Str.is_substring p s = true <-> exists a b, s = a ++ p ++ b)
  /\ (forall c s, Str.lower (String c s) = String (Str.lower_char c) (Str.lower s))
  /\ (forall c, (Str.code c < 128)%N ->
        Str.lower_char c
        = if ((65 <=? Str.code c) && (Str.code c <=? 90))%N
          then ascii_of_N (Str.code c + 32) else c)
  /\ Str.lower "ABCDEFGHIJKLMNOPQRSTUVWXYZ" = "abcdefghijklmnopqrstuvwxyz"
  /\ get_country_from_name "Player (Asia/SL)" = "Sri Lanka"
  /\ get_country_from_name "Someone (XI)" = "Unknown"
  /\ get_country_from_name "Sachin Tendulkar (INDIA)" = "India"
  /\ get_country_from_name "No Parens Australia Batsman" = "Australia"
  /\ get_country_from_name "A ( AUS )" = "Australia"
  /\ get_country_from_name "A (Asia / SL)" = "Sri Lanka"
  /\ get_country_from_name "A (Aus)" = "Aus"
  /\ get_country_from_name "AUSTRALIA A" = "Australia"
  /\ get_country_from_name "new zealand B" = "New Zealand"
  /\ get_country_from_name "A (XI) of India" = "India"
  /\ get_country_from_name "A (AUS" = "Unknown"
  /\ get_country_from_name "X) Y (AUS" = "Australia"
  /\ get_country_from_name "A ((AUS))" = "".
Proof.
  split.
  { intros pre seg rest Hpre Hseg1 Hseg2 Hrest Hclose.
    rewrite get_country_from_name_eq.
    rewrite (segment_of_first pre seg rest Hpre Hseg1 Hseg2 Hrest), Hclose.
    change (pre ++ "(" ++ seg ++ rest) with (pre ++ String "(" (seg ++ rest)).
    rewrite contains_char_app, contains_char_cons, Ascii.eqb_refl, orb_true_r.
    reflexivity. }
  split; [exact name_shape|].
  split.
  { intros player_name Hno. rewrite get_country_from_name_eq.
    destruct Hno as [-> | ->]; [|rewrite andb_false_r]; reflexivity. }
  split; [exact (split_app "/")|].
  split; [exact (split_none "/")|].
  split; [exact strip_spec|].
  split; [intros t; unfold exclude_teams; apply elem_of_list_to_set|].
  split; [exact full_name_codes|].
  split; [exact full_name_other|].
  split; [exact is_substring_iff|].
  split; [reflexivity|].
  split; [exact lower_char_ascii|].
  repeat split; vm_compute; reflexivity.
Qed.

Lemma get_country_from_name_resolution_witness :
  (Str.contains_char "(" "Player " = false
   /\ Str.contains_char "(" "Asia/SL" = false
   /\ Str.contains_char ")" "Asia/SL" = false
   /\ ends_segment ")"
   /\ Str.contains_char ")" ("Player " ++ "(" ++ "Asia/SL" ++ ")") = true
   /\ get_country_from_name ("Player " ++ "(" ++ "Asia/SL" ++ ")") =
      match head (surviving_tokens "Asia/SL") with
      | Some token => token
      | None => default "Unknown"
                  (first_known ("Player " ++ "(" ++ "Asia/SL" ++ ")"))
      end)
  /\ (Str.contains_char "(" "X) Y " = false
      /\ Str.contains_char "(" "AUS" = false
      /\ Str.contains_char ")" "AUS" = false
      /\ ends_segment ""
      /\ Str.contains_char ")" ("X) Y " ++ "(" ++ "AUS" ++ "") = true
      /\ get_country_from_name ("X) Y " ++ "(" ++ "AUS" ++ "") =
         match head (surviving_tokens "AUS") with
         | Some token => token
         | None => default "Unknown" (first_known ("X) Y " ++ "(" ++ "AUS" ++ ""))
         end)
  /\ (Str.contains_char "(" "A ((AUS))" = true
      /\ exists pre seg rest,
           "A ((AUS))" = pre ++ "(" ++ seg ++ rest
           /\ Str.contains_char "(" pre = false
           /\ Str.contains_char "(" seg = false
           /\ Str.contains_char ")" seg = false
           /\ ends_segment rest)
  /\ (Str.contains_char "(" "No Parens Australia Batsman" = false
      /\ get_country_from_name "No Parens Australia Batsman"
         = default "Unknown" (first_known "No Parens Australia Batsman"))
  /\ (Str.contains_char ")" "A (AUS" = false
      /\ get_country_from_name "A (AUS" = default "Unknown" (first_known "A (AUS")).
Proof.
  destruct get_country_from_name_resolution as (H1 & H2 & H3 & _).
  split; [|split; [|split; [|split]]].
  - assert (ends_segment ")") as He by (right; reflexivity).
    split; [reflexivity|]. split; [reflexivity|]. split; [reflexivity|].
    split; [exact He|]. split; [reflexivity|].
    exact (H1 "Player " "Asia/SL" ")" eq_refl eq_refl eq_refl He eq_refl).
  - split; [reflexivity|]. split; [reflexivity|]. split; [reflexivity|].
    split; [exact I|]. split; [reflexivity|].
    exact (H1 "X) Y " "AUS" "" eq_refl eq_refl eq_refl I eq_refl).
  - split; [reflexivity|]. exact (H2 "A ((AUS))" eq_refl).
  - split; [reflexivity|].
    exact (H3 "No Parens Australia Batsman" (or_introl eq_refl)).
  - split; [reflexivity|]. exact (H3 "A (AUS" (or_intror eq_refl)).
Defined.

(** A name without a parenthesized segment need not go to the fallback:
    in "X) Y (AUS" no opening parenthesis has a closing one behind it and
    none of the ten country names occurs, so the fallback gives "Unknown";
    the code returns "Australia", because it looks for the two parentheses
    separately and then cuts behind the first "(". *)
Lemma get_country_from_name_unclosed :
  ~ (exists pre seg post, "X) Y (AUS" = pre ++ "(" ++ seg ++ ")" ++ post)
  /\ default "Unknown" (first_known "X) Y (AUS") = "Unknown"
  /\ get_country_from_name "X) Y (AUS" = "Australia".
Proof.
  split; [|split; vm_compute; reflexivity].
  intros H. apply closes_after_open_iff in H. vm_compute in H. discriminate.
Qed.

(** *** Letter case *)

Lemma lower_char_small (c : ascii) :
  is_small_letter (Str.lower_char c) = true -> is_letter c = true.
Proof.
  destruct c as [[] [] [] [] [] [] [] []]; vm_compute; congruence.
Qed.

Lemma is_letter_plain (c : ascii) :
  is_letter c = true ->
  Str.is_space c = false /\ Ascii.eqb "(" c = false
  /\ Ascii.eqb ")" c = false /\ Ascii.eqb "/" c = false.
Proof.
  destruct c as [[] [] [] [] [] [] [] []]; vm_compute; intros; try discriminate;
    repeat split.
Qed.

Lemma lower_char_paren (c : ascii) :
  Ascii.eqb "(" (Str.lower_char c) = Ascii.eqb "(" c.
Proof.
  destruct c as [[] [] [] [] [] [] [] []]; vm_compute; reflexivity.
Qed.

Lemma map_forallb (f : ascii -> ascii) (p : ascii -> bool) (s : string) :
  Str.forallb p (Str.map f s) = Str.forallb (fun c => p (f c)) s.
Proof.
  induction s as [|c s IH]; simpl; [reflexivity|]. rewrite IH. reflexivity.
Qed.

Lemma forallb_contains_char (c : ascii) (s : string) :
  Str.forallb (fun x => negb (Ascii.eqb c x)) s = true ->
  Str.contains_char c s = false.
Proof.
  unfold Str.contains_char.
  induction s as [|x s IH]; simpl; [reflexivity|].
  intros [Hx Hs]%andb_prop. apply negb_true_iff in Hx.
  rewrite Hx, (IH Hs). reflexivity.
Qed.

Lemma lstrip_no_space (s : string) :
  Str.forallb (fun c => negb (Str.is_space c)) s = true -> Str.lstrip s = s.
Proof.
  destruct s as [|c s]; simpl; [reflexivity|].
  intros [Hc _]%andb_prop. apply negb_true_iff in Hc. rewrite Hc. reflexivity.
Qed.

Lemma rstrip_no_space (s : string) :
  Str.forallb (fun c => negb (Str.is_space c)) s = true -> Str.rstrip s = s.
Proof.
  induction s as [|c s IH]; simpl; [reflexivity|].
  intros [Hc Hs]%andb_prop. apply negb_true_iff in Hc.
  rewrite (IH Hs), Hc. destruct s; reflexivity.
Qed.

Lemma strip_no_space (s : string) :
  Str.forallb (fun c => negb (Str.is_space c)) s = true -> Str.strip s = s.
Proof.
  intros Hs. unfold Str.strip. rewrite (lstrip_no_space s Hs).
  apply rstrip_no_space, Hs.
Qed.

(** *** Tokens that differ from a code by letter case only *)

Lemma codes_small_letters :
  forallb (fun k => Str.forallb is_small_letter (Str.lower k)) codes = true.
Proof. vm_compute. reflexivity. Qed.

Lemma codes_distinct_lower :
  forallb (fun k => forallb (fun k' =>
     implb (String.eqb (Str.lower k') (Str.lower k)) (String.eqb k' k)) codes)
    codes = true.
Proof. vm_compute. reflexivity. Qed.

Lemma excluded_not_codes :
  forallb (fun e => forallb (fun k =>
     negb (String.eqb (Str.lower e) (Str.lower k))) codes) excluded_names = true.
Proof. vm_compute. reflexivity. Qed.

Section CaseVariant.

Variables token code : string.
Hypothesis code_in_table : code ∈ codes.
Hypothesis same_lower : Str.lower token = Str.lower code.
Hypothesis not_same : token <> code.

Lemma variant_letters : Str.forallb is_letter token = true.
Proof.
  pose proof codes_small_letters as Hall.
  rewrite forallb_forall in Hall.
  specialize (Hall code (proj1 (list_elem_of_In _ _) code_in_table)).
  rewrite <- same_lower in Hall. unfold Str.lower in Hall.
  rewrite map_forallb in Hall.
  eapply forallb_weaken; [|exact Hall]. exact lower_char_small.
Qed.

Lemma variant_not_code : country_mapping !! token = None.
Proof.
  apply not_elem_of_list_to_map_1. fold codes. intros Hin.
  pose proof codes_distinct_lower as Hall.
  rewrite forallb_forall in Hall.
  specialize (Hall code (proj1 (list_elem_of_In _ _) code_in_table)).
  rewrite forallb_forall in Hall.
  specialize (Hall token (proj1 (list_elem_of_In _ _) Hin)).
  rewrite same_lower, String.eqb_refl in Hall. simpl in Hall.
  apply String.eqb_eq in Hall. exact (not_same Hall).
Qed.

Lemma variant_not_excluded : token ∉ exclude_teams.
Proof.
  unfold exclude_teams. rewrite elem_of_list_to_set. intros Hin.
  pose proof excluded_not_codes as Hall.
  rewrite forallb_forall in Hall.
  specialize (Hall token (proj1 (list_elem_of_In _ _) Hin)).
  rewrite forallb_forall in Hall.
  specialize (Hall code (proj1 (list_elem_of_In _ _) code_in_table)).
  rewrite same_lower, String.eqb_refl in Hall. discriminate.
Qed.

Lemma variant_step (valid_countries : list string) :
  country_step valid_countries token = (valid_countries ++ [token])%list.
Proof.
  unfold country_step.
  rewrite bool_decide_true by exact variant_not_excluded.
  rewrite variant_not_code. reflexivity.
Qed.

Lemma variant_survives : surviving_tokens token = [token].
Proof.
  pose proof variant_letters as Hl.
  unfold surviving_tokens.
  rewrite (split_none "/" token).
  2:{ apply forallb_contains_char. eapply forallb_weaken; [|exact Hl].
      intros c Hc. apply is_letter_plain in Hc as (_ & _ & _ & ->). reflexivity. }
  simpl. rewrite strip_no_space.
  2:{ eapply forallb_weaken; [|exact Hl].
      intros c Hc. apply is_letter_plain in Hc as (-> & _). reflexivity. }
  rewrite filter_cons, decide_True by exact variant_not_excluded.
  simpl. unfold full_name. rewrite variant_not_code. reflexivity.
Qed.

Lemma variant_returned (pre post : string) :
  Str.contains_char "(" pre = false ->
  get_country_from_name (pre ++ "(" ++ token ++ ")" ++ post) = token.
Proof.
  intros Hpre. pose proof variant_letters as Hl.
  rewrite get_country_from_name_eq, contains_both.
  rewrite segment_of_parenthesized; [|exact Hpre| |].
  - rewrite variant_survives. reflexivity.
  - apply forallb_contains_char. eapply forallb_weaken; [|exact Hl].
    intros c Hc. apply is_letter_plain in Hc as (_ & -> & _). reflexivity.
  - apply forallb_contains_char. eapply forallb_weaken; [|exact Hl].
    intros c Hc. apply is_letter_plain in Hc as (_ & _ & -> & _). reflexivity.
Qed.

End CaseVariant.

Lemma contains_paren_lower (s : string) :
  Str.contains_char "(" (Str.lower s) = Str.contains_char "(" s.
Proof.
  unfold Str.contains_char, Str.lower.
  induction s as [|c s IH]; [reflexivity|].
  cbn [Str.existsb Str.map]. rewrite IH, lower_char_paren. reflexivity.
Qed.

(** Without an opening parenthesis the result depends on the name only up
    to letter case. *)
Lemma fallback_case_insensitive (name1 name2 : string) :
  Str.lower name1 = Str.lower name2 ->
  Str.contains_char "(" name1 = false ->
  get_country_from_name name1 = get_country_from_name name2.
Proof.
  intros Hlow Hno.
  assert (Str.contains_char "(" name2 = false) as Hno2.
  { rewrite <- contains_paren_lower, <- Hlow, contains_paren_lower. exact Hno. }
  rewrite !get_country_from_name_eq, Hno, Hno2. simpl.
  unfold first_known. rewrite Hlow. reflexivity.
Qed.

(** C10: a token in parentheses that equals a code of the table up to
    letter case, without being that code, is not looked up under the code:
    the loop appends the token itself, and a name [pre(token)post] gives
    the token as it is written ("Aus" and "aus" stay, "AUS" becomes
    "Australia").  The matching of the known country names in a name
    without parentheses does not see letter case. *)
Theorem country_lookup_case_sensitive :
  (forall token code valid_countries,
     code ∈ codes -> Str.lower token = Str.lower code -> token <> code ->
     country_step valid_countries token = (valid_countries ++ [token])%list)
  /\ (forall token code pre post,
        code ∈ codes -> Str.lower token = Str.lower code -> token <> code ->
        Str.contains_char "(" pre = false ->
        get_country_from_name (pre ++ "(" ++ token ++ ")" ++ post) = token)
  /\ (forall name1 name2,
        Str.lower name1 = Str.lower name2 ->
        Str.contains_char "(" name1 = false ->
        get_country_from_name name1 = get_country_from_name name2)
  /\ get_country_from_name "A (AUS)" = "Australia"
  /\ get_country_from_name "A (Aus)" = "Aus"
  /\ get_country_from_name "A (aus)" = "aus"
  /\ get_country_from_name "Australia A" = "Australia"
  /\ get_country_from_name "AUSTRALIA A" = "Australia"
  /\ get_country_from_name "australia a" = "Australia".
Proof.
  split; [|split; [|split]].
  - intros token code valid_countries Hin Hlow Hne.
    exact (variant_step token code Hin Hlow Hne valid_countries).
  - intros token code pre post Hin Hlow Hne Hpre.
    exact (variant_returned token code Hin Hlow Hne pre post Hpre).
  - exact fallback_case_insensitive.
  - repeat split; vm_compute; reflexivity.
Qed.

Lemma country_lookup_case_sensitive_witness :
  ("AUS" ∈ codes /\ Str.lower "Aus" = Str.lower "AUS" /\ "Aus" <> "AUS"
   /\ country_step [] "Aus" = ([] ++ ["Aus"])%list)
  /\ (Str.contains_char "(" "A " = false
      /\ get_country_from_name ("A " ++ "(" ++ "Aus" ++ ")" ++ "") = "Aus")
  /\ (Str.lower "AUSTRALIA A" = Str.lower "Australia A"
      /\ Str.contains_char "(" "AUSTRALIA A" = false
      /\ get_country_from_name "AUSTRALIA A" = get_country_from_name "Australia A").
Proof.
  assert ("AUS" ∈ codes) as Hin.
  { apply list_elem_of_In. vm_compute. tauto. }
  assert (Str.lower "Aus" = Str.lower "AUS") as Hlow by reflexivity.
  assert ("Aus" <> "AUS") as Hne by discriminate.
  destruct country_lookup_case_sensitive as (Hstep & Hname & Hfall & _).
  split; [|split].
  - split; [exact Hin|]. split; [exact Hlow|]. split; [exact Hne|].
    exact (Hstep "Aus" "AUS" [] Hin Hlow Hne).
  - split; [reflexivity|].
    exact (Hname "Aus" "AUS" "A " "" Hin Hlow Hne eq_refl).
  - split; [reflexivity|]. split; [reflexivity|].
    exact (Hfall "AUSTRALIA A" "Australia A" eq_refl eq_refl).
Defined.

(** ** Merging the rows of a player *)

Lemma for_loop_raises {S X} (P : exn -> Prop) (body : S -> X -> result S)
    (xs : list X) (st : S) (e : exn) :
  (forall st x e, body st x = Raise e -> P e) ->
  for_loop body xs st = Raise e -> P e.
Proof.
  intros Hbody. revert st.
  induction xs as [|x xs IH]; intros st; simpl; [discriminate|].
  destruct (body st x) as [st'|e'] eqn:Hb; simpl.
  - apply IH.
  - intros [= <-]. eapply Hbody, Hb.
Qed.

(** The bodies of the three loops, with the cleaning done. *)
Lemma batting_body_eq (data : player_data) (st : batting_vars) (fmt : format) :
  batting_body data st fmt =
  let r := at_format (batting data) fmt in
  if row_truthy r then
    let* tr := num_add (total_runs st) (cleaned r "Runs") in
    let* tm := num_add (total_matches_batting st) (cleaned r "Mat") in
    Ok {| total_runs := tr; total_matches_batting := tm;
          batting_avg :=
            if negb (num_truthy (batting_avg st))
               && cell_truthy (row_get r "Ave" CNone)
            then cleaned r "Ave" else batting_avg st;
          span :=
            if negb (cell_truthy (span st)) && cell_truthy (row_get r "Span" CNone)
            then row_get r "Span" (CStr "") else span st |}
  else Ok st.
Proof.
  unfold batting_body, cleaned. cbv zeta.
  destruct (row_truthy (at_format (batting data) fmt)); [|reflexivity].
  rewrite !clean_numeric_value_ok. cbn [rbind].
  destruct (num_add (total_runs st) _); cbn [rbind]; [|reflexivity].
  destruct (num_add (total_matches_batting st) _); cbn [rbind]; [|reflexivity].
  destruct (negb (num_truthy (batting_avg st)) && _); reflexivity.
Qed.

Lemma bowling_body_eq (data : player_data) (st : bowling_vars) (fmt : format) :
  bowling_body data st fmt =
  let r := at_format (bowling data) fmt in
  if row_truthy r then
    let* tw := num_add (total_wickets st) (cleaned r "Wkts") in
    let* tm := num_add (total_matches_bowling st) (cleaned r "Mat") in
    Ok {| total_wickets := tw; total_matches_bowling := tm;
          bowling_avg :=
            if negb (num_truthy (bowling_avg st))
               && cell_truthy (row_get r "Ave" CNone)
            then cleaned r "Ave" else bowling_avg st |}
  else Ok st.
Proof.
  unfold bowling_body, cleaned. cbv zeta.
  destruct (row_truthy (at_format (bowling data) fmt)); [|reflexivity].
  rewrite !clean_numeric_value_ok. cbn [rbind].
  destruct (num_add (total_wickets st) _); cbn [rbind]; [|reflexivity].
  destruct (num_add (total_matches_bowling st) _); cbn [rbind]; [|reflexivity].
  destruct (negb (num_truthy (bowling_avg st)) && _); reflexivity.
Qed.

Lemma fielding_body_eq (data : player_data) (st : fielding_vars) (fmt : format) :
  fielding_body data st fmt =
  let r := at_format (fielding data) fmt in
  if row_truthy r then
    let* td := num_add (total_dismissals st) (cleaned r "Dis") in
    let* ts := num_add (total_stumpings st) (cleaned r "St") in
    Ok {| total_dismissals := td; total_stumpings := ts |}
  else Ok st.
Proof.
  unfold fielding_body, cleaned. cbv zeta.
  destruct (row_truthy (at_format (fielding data) fmt)); [|reflexivity].
  rewrite !clean_numeric_value_ok. cbn [rbind].
  destruct (num_add (total_dismissals st) _); cbn [rbind]; [|reflexivity].
  destruct (num_add (total_stumpings st) _); reflexivity.
Qed.

(** The loops raise nothing but [OverflowError]. *)
Lemma num_add_error (a b : num) (e : exn) : num_add a b = Raise e -> e = OverflowError.
Proof. intros H. apply num_add_raises in H. tauto. Qed.

Lemma batting_loop_raises (data : player_data) (fmts : list format)
    (st : batting_vars) (e : exn) :
  for_loop (batting_body data) fmts st = Raise e -> e = OverflowError.
Proof.
  apply (for_loop_raises (fun e => e = OverflowError)). clear. intros st fmt e. rewrite batting_body_eq. cbv zeta.
  destruct (row_truthy _); [|discriminate].
  destruct (num_add (total_runs st) _) eqn:H1; cbn [rbind];
    [|intros [= <-]; eapply num_add_error, H1].
  destruct (num_add (total_matches_batting st) _) eqn:H2; cbn [rbind];
    [discriminate|intros [= <-]; eapply num_add_error, H2].
Qed.

Lemma bowling_loop_raises (data : player_data) (fmts : list format)
    (st : bowling_vars) (e : exn) :
  for_loop (bowling_body data) fmts st = Raise e -> e = OverflowError.
Proof.
  apply (for_loop_raises (fun e => e = OverflowError)). clear. intros st fmt e. rewrite bowling_body_eq. cbv zeta.
  destruct (row_truthy _); [|discriminate].
  destruct (num_add (total_wickets st) _) eqn:H1; cbn [rbind];
    [|intros [= <-]; eapply num_add_error, H1].
  destruct (num_add (total_matches_bowling st) _) eqn:H2; cbn [rbind];
    [discriminate|intros [= <-]; eapply num_add_error, H2].
Qed.

Lemma fielding_loop_raises (data : player_data) (fmts : list format)
    (st : fielding_vars) (e : exn) :
  for_loop (fielding_body data) fmts st = Raise e -> e = OverflowError.
Proof.
  apply (for_loop_raises (fun e => e = OverflowError)). clear. intros st fmt e. rewrite fielding_body_eq. cbv zeta.
  destruct (row_truthy _); [|discriminate].
  destruct (num_add (total_dismissals st) _) eqn:H1; cbn [rbind];
    [|intros [= <-]; eapply num_add_error, H1].
  destruct (num_add (total_stumpings st) _) eqn:H2; cbn [rbind];
    [discriminate|intros [= <-]; eapply num_add_error, H2].
Qed.

(** *** What the loops compute *)

Lemma falsy_cleans_to_zero (v : cell) :
  cell_truthy v = false -> num_truthy (clean_spec v) = false.
Proof.
  destruct v as [|s|z|r|[]]; simpl; intros Hf; try discriminate; try reflexivity.
  - destruct s; [reflexivity|discriminate].
  - apply negb_false_iff, Z.eqb_eq in Hf. subst z. reflexivity.
  - apply negb_false_iff, orb_true_iff in Hf.
    destruct Hf as [Hf|Hf]; apply String.eqb_eq in Hf; subst r; reflexivity.
Qed.

(** The test on the raw average lets through every average that cleans to
    a number other than zero. *)
Lemma average_test (r : gmap string cell) :
  cell_truthy (row_get r "Ave" CNone) = false ->
  num_truthy (cleaned r "Ave") = false.
Proof.
  unfold cleaned, row_get.
  destruct (r !! "Ave") as [v|]; simpl; [apply falsy_cleans_to_zero|reflexivity].
Qed.

Lemma cleaned_nonneg (r : gmap string cell) (key : string) :
  (0 <= num_val (cleaned r key))%Q.
Proof. apply clean_spec_nonneg. Qed.

Lemma cleaned_absent (r : gmap string cell) (key : string) :
  r !! key = None -> cleaned r key = NInt 0.
Proof. unfold cleaned, row_get. intros ->. reflexivity. Qed.

Section LoopFacts.

(** A loop over the formats of one category [d], seen through one of its
    variables. *)
Context {S : Type} (body : S -> format -> result S) (d : formats).

Hypothesis body_absent : forall st fmt,
  row_truthy (at_format d fmt) = false -> body st fmt = Ok st.

Section Average.

Variable avg : S -> num.

Hypothesis avg_present : forall st st' fmt,
  row_truthy (at_format d fmt) = true -> body st fmt = Ok st' ->
  avg st' =
  if negb (num_truthy (avg st)) && cell_truthy (row_get (at_format d fmt) "Ave" CNone)
  then cleaned (at_format d fmt) "Ave" else avg st.

Lemma average_fold (fmts : list format) (st st' : S) :
  for_loop body fmts st = Ok st' ->
  match kept_average (avg st)
          ((fun r => cleaned r "Ave") <$> rows_present d fmts) with
  | Some n => avg st' = n
  | None => num_truthy (avg st') = false
  end.
Proof.
  revert st. unfold kept_average, rows_present.
  induction fmts as [|fmt fmts IH]; intros st.
  - simpl. intros [= <-]. destruct (num_truthy (avg st)) eqn:Ha; reflexivity.
  - cbn [for_loop]. destruct (body st fmt) as [st1|e] eqn:Hb; cbn [rbind]; [|discriminate].
    intros Hloop. specialize (IH st1 Hloop).
    rewrite fmap_cons, filter_cons.
    destruct (row_truthy (at_format d fmt)) eqn:Hrow.
    2:{ rewrite decide_False by discriminate.
        rewrite (body_absent st fmt Hrow) in Hb. injection Hb as <-. exact IH. }
    rewrite decide_True by reflexivity. rewrite fmap_cons.
    rewrite (avg_present st st1 fmt Hrow Hb) in IH.
    destruct (num_truthy (avg st)) eqn:Ha.
    { simpl in IH. rewrite Ha in IH. exact IH. }
    simpl in IH. unfold first_nonzero. rewrite filter_cons.
    destruct (cell_truthy (row_get (at_format d fmt) "Ave" CNone)) eqn:Hc.
    + destruct (num_truthy (cleaned (at_format d fmt) "Ave")) eqn:Hn.
      * rewrite decide_True by reflexivity. exact IH.
      * rewrite decide_False by discriminate. exact IH.
    + rewrite (average_test _ Hc), decide_False by discriminate.
      rewrite Ha in IH. exact IH.
Qed.

End Average.

Section Total.

Variables (total : S -> num) (key : string).

Hypothesis total_present : forall st st' fmt,
  row_truthy (at_format d fmt) = true -> body st fmt = Ok st' ->
  num_add (total st) (cleaned (at_format d fmt) key) = Ok (total st').

Lemma total_fold (fmts : list format) (st st' : S) :
  for_loop body fmts st = Ok st' ->
  num_sum_from (total st) ((fun r => cleaned r key) <$> rows_present d fmts)
  = Ok (total st').
Proof.
  revert st. unfold rows_present, num_sum_from.
  induction fmts as [|fmt fmts IH]; intros st.
  - simpl. intros [= <-]. reflexivity.
  - cbn [for_loop]. destruct (body st fmt) as [st1|e] eqn:Hb; cbn [rbind]; [|discriminate].
    intros Hloop. specialize (IH st1 Hloop).
    rewrite fmap_cons, filter_cons.
    destruct (row_truthy (at_format d fmt)) eqn:Hrow.
    + rewrite decide_True by reflexivity. rewrite fmap_cons. cbn [for_loop].
      rewrite (total_present st st1 fmt Hrow Hb). exact IH.
    + rewrite decide_False by discriminate.
      rewrite (body_absent st fmt Hrow) in Hb. injection Hb as <-. exact IH.
Qed.

End Total.

End LoopFacts.

(** A sum of numbers that are not negative is not negative. *)
Lemma num_sum_nonneg (l : list num) (start t : num) :
  num_sum_from start l = Ok t ->
  (0 <= num_val start)%Q -> Forall (fun n => (0 <= num_val n)%Q) l ->
  (0 <= num_val t)%Q.
Proof.
  unfold num_sum_from. revert start.
  induction l as [|n l IH]; intros start; simpl.
  - intros [= <-] H _. exact H.
  - destruct (num_add start n) as [c|e] eqn:Hadd; cbn [rbind]; [|discriminate].
    intros Hl Hs Hall. apply Forall_cons in Hall as [Hn Hall].
    apply (IH c Hl); [|exact Hall]. eapply num_add_nonneg; eassumption.
Qed.

Lemma column_nonneg (d : formats) (key : string) :
  Forall (fun n => (0 <= num_val n)%Q) (column d key).
Proof.
  unfold column. apply Forall_fmap, Forall_forall. intros r _. apply cleaned_nonneg.
Qed.

(** A sum of zeros is the zero it starts from. *)
Lemma num_sum_zeros (l : list num) :
  Forall (fun n => n = NInt 0) l -> num_sum l = Ok (NInt 0).
Proof.
  unfold num_sum, num_sum_from.
  induction l as [|n l IH]; intros Hall; [reflexivity|].
  apply Forall_cons in Hall as [-> Hall]. simpl. apply IH, Hall.
Qed.

(** Up to three numbers whose [int]s have at most 300 digits are summed
    without an exception. *)
Lemma num_sum_bounded (l : list num) (start : num) (k : Z) :
  0 <= k -> k + Z.of_nat (length l) <= 3 ->
  bounded (k * 10 ^ 300 + 1) start -> Forall (bounded (10 ^ 300)) l ->
  exists t, num_sum_from start l = Ok t
            /\ bounded ((k + Z.of_nat (length l)) * 10 ^ 300 + 1) t.
Proof.
  unfold num_sum_from. revert start k.
  induction l as [|n l IH]; intros start k Hk Hlen Hs Hall.
  - exists start. split; [reflexivity|].
    replace (k + Z.of_nat (length (@nil num))) with k by (simpl; lia). exact Hs.
  - apply Forall_cons in Hall as [Hn Hall]. cbn [length] in Hlen.
    destruct (num_add_bounded (k * 10 ^ 300 + 1) (10 ^ 300) start n Hs Hn)
      as (c & Hc & Hcb); [lia|lia| |].
    { assert (3 * 10 ^ 300 + 1 <= 2 ^ 1024 - 2 ^ 970) by (vm_compute; discriminate).
      nia. }
    cbn [for_loop]. rewrite Hc. cbn [rbind].
    destruct (IH c (k + 1)) as (t & Ht & Htb); [lia|lia| |exact Hall|].
    { replace ((k + 1) * 10 ^ 300 + 1) with (k * 10 ^ 300 + 1 + 10 ^ 300) by lia.
      exact Hcb. }
    exists t. split; [exact Ht|].
    replace (k + Z.of_nat (length (n :: l))) with (k + 1 + Z.of_nat (length l))
      by (cbn [length]; lia).
    exact Htb.
Qed.

Lemma bounded_weaken (B B' : Z) (n : num) : B <= B' -> bounded B n -> bounded B' n.
Proof. destruct n; simpl; [lia|tauto]. Qed.

Section MergeFacts.

Variable data : player_data.

Lemma batting_absent (st : batting_vars) (fmt : format) :
  row_truthy (at_format (batting data) fmt) = false ->
  batting_body data st fmt = Ok st.
Proof. rewrite batting_body_eq. cbv zeta. intros ->. reflexivity. Qed.

Lemma bowling_absent (st : bowling_vars) (fmt : format) :
  row_truthy (at_format (bowling data) fmt) = false ->
  bowling_body data st fmt = Ok st.
Proof. rewrite bowling_body_eq. cbv zeta. intros ->. reflexivity. Qed.

Lemma fielding_absent (st : fielding_vars) (fmt : format) :
  row_truthy (at_format (fielding data) fmt) = false ->
  fielding_body data st fmt = Ok st.
Proof. rewrite fielding_body_eq. cbv zeta. intros ->. reflexivity. Qed.

Lemma batting_present (st st' : batting_vars) (fmt : format) :
  row_truthy (at_format (batting data) fmt) = true ->
  batting_body data st fmt = Ok st' ->
  num_add (total_runs st) (cleaned (at_format (batting data) fmt) "Runs")
  = Ok (total_runs st')
  /\ num_add (total_matches_batting st) (cleaned (at_format (batting data) fmt) "Mat")
     = Ok (total_matches_batting st')
  /\ batting_avg st'
     = (if negb (num_truthy (batting_avg st))
           && cell_truthy (row_get (at_format (batting data) fmt) "Ave" CNone)
        then cleaned (at_format (batting data) fmt) "Ave" else batting_avg st)
  /\ span st'
     = (if negb (cell_truthy (span st))
           && cell_truthy (row_get (at_format (batting data) fmt) "Span" CNone)
        then row_get (at_format (batting data) fmt) "Span" (CStr "") else span st).
Proof.
  rewrite batting_body_eq. cbv zeta. intros ->.
  destruct (num_add (total_runs st) _); cbn [rbind]; [|discriminate].
  destruct (num_add (total_matches_batting st) _); cbn [rbind]; [|discriminate].
  intros [= <-]. repeat split.
Qed.

Lemma bowling_present (st st' : bowling_vars) (fmt : format) :
  row_truthy (at_format (bowling data) fmt) = true ->
  bowling_body data st fmt = Ok st' ->
  num_add (total_wickets st) (cleaned (at_format (bowling data) fmt) "Wkts")
  = Ok (total_wickets st')
  /\ num_add (total_matches_bowling st) (cleaned (at_format (bowling data) fmt) "Mat")
     = Ok (total_matches_bowling st')
  /\ bowling_avg st'
     = (if negb (num_truthy (bowling_avg st))
           && cell_truthy (row_get (at_format (bowling data) fmt) "Ave" CNone)
        then cleaned (at_format (bowling data) fmt) "Ave" else bowling_avg st).
Proof.
  rewrite bowling_body_eq. cbv zeta. intros ->.
  destruct (num_add (total_wickets st) _); cbn [rbind]; [|discriminate].
  destruct (num_add (total_matches_bowling st) _); cbn [rbind]; [|discriminate].
  intros [= <-]. repeat split.
Qed.

Lemma fielding_present (st st' : fielding_vars) (fmt : format) :
  row_truthy (at_format (fielding data) fmt) = true ->
  fielding_body data st fmt = Ok st' ->
  num_add (total_dismissals st) (cleaned (at_format (fielding data) fmt) "Dis")
  = Ok (total_dismissals st')
  /\ num_add (total_stumpings st) (cleaned (at_format (fielding data) fmt) "St")
     = Ok (total_stumpings st').
Proof.
  rewrite fielding_body_eq. cbv zeta. intros ->.
  destruct (num_add (total_dismissals st) _); cbn [rbind]; [|discriminate].
  destruct (num_add (total_stumpings st) _); cbn [rbind]; [|discriminate].
  intros [= <-]. repeat split.
Qed.

Section Batting.

Variable b : batting_vars.
Hypothesis Hb : for_loop (batting_body data) priority batting_init = Ok b.

(** The merged batting average: the first cleaned average, in the order
    Test, ODI, T20 of the rows that are there, that is not zero; zero when
    there is none. *)
Lemma merged_batting_average :
  match first_nonzero (column (batting data) "Ave") with
  | Some n => batting_avg b = n
  | None => num_truthy (batting_avg b) = false
  end.
Proof.
  refine (average_fold (batting_body data) (batting data) batting_absent
            batting_avg _ priority batting_init b Hb).
  intros st st' fmt Hrow Hbody.
  apply (batting_present st st' fmt Hrow Hbody).
Qed.

(** The totals: the sums of the cleaned values over the rows that are
    there. *)
Lemma merged_runs : num_sum (column (batting data) "Runs") = Ok (total_runs b).
Proof.
  refine (total_fold (batting_body data) (batting data) batting_absent
            total_runs "Runs" _ priority batting_init b Hb).
  intros st st' fmt Hrow Hbody.
  apply (batting_present st st' fmt Hrow Hbody).
Qed.

Lemma merged_batting_matches :
  num_sum (column (batting data) "Mat") = Ok (total_matches_batting b).
Proof.
  refine (total_fold (batting_body data) (batting data) batting_absent
            total_matches_batting "Mat" _ priority batting_init b Hb).
  intros st st' fmt Hrow Hbody.
  apply (batting_present st st' fmt Hrow Hbody).
Qed.

Lemma merged_batting_nonneg :
  (0 <= num_val (total_runs b) /\ 0 <= num_val (total_matches_batting b)
   /\ 0 <= num_val (batting_avg b))%Q.
Proof.
  split; [|split].
  - eapply num_sum_nonneg; [exact merged_runs|apply Qle_refl|apply column_nonneg].
  - eapply num_sum_nonneg; [exact merged_batting_matches|apply Qle_refl
                           |apply column_nonneg].
  - pose proof merged_batting_average as Ha.
    destruct (first_nonzero (column (batting data) "Ave")) as [n|] eqn:Hf.
    + rewrite Ha. unfold first_nonzero in Hf. apply head_Some_elem_of in Hf.
      apply list_elem_of_filter in Hf as [_ Hn].
      pose proof (column_nonneg (batting data) "Ave") as Hall.
      rewrite Forall_forall in Hall. apply Hall, Hn.
    + apply negb_false_iff, num_eq_int in Ha; [|reflexivity]. rewrite Ha. discriminate.
Qed.

End Batting.

Section Bowling.

Variable w : bowling_vars.
Hypothesis Hw : for_loop (bowling_body data) priority bowling_init = Ok w.

Lemma merged_bowling_average :
  match first_nonzero (column (bowling data) "Ave") with
  | Some n => bowling_avg w = n
  | None => num_truthy (bowling_avg w) = false
  end.
Proof.
  refine (average_fold (bowling_body data) (bowling data) bowling_absent
            bowling_avg _ priority bowling_init w Hw).
  intros st st' fmt Hrow Hbody.
  apply (bowling_present st st' fmt Hrow Hbody).
Qed.

Lemma merged_wickets : num_sum (column (bowling data) "Wkts") = Ok (total_wickets w).
Proof.
  refine (total_fold (bowling_body data) (bowling data) bowling_absent
            total_wickets "Wkts" _ priority bowling_init w Hw).
  intros st st' fmt Hrow Hbody.
  apply (bowling_present st st' fmt Hrow Hbody).
Qed.

Lemma merged_bowling_matches :
  num_sum (column (bowling data) "Mat") = Ok (total_matches_bowling w).
Proof.
  refine (total_fold (bowling_body data) (bowling data) bowling_absent
            total_matches_bowling "Mat" _ priority bowling_init w Hw).
  intros st st' fmt Hrow Hbody.
  apply (bowling_present st st' fmt Hrow Hbody).
Qed.

Lemma merged_bowling_nonneg :
  (0 <= num_val (total_wickets w) /\ 0 <= num_val (total_matches_bowling w)
   /\ 0 <= num_val (bowling_avg w))%Q.
Proof.
  split; [|split].
  - eapply num_sum_nonneg; [exact merged_wickets|apply Qle_refl|apply column_nonneg].
  - eapply num_sum_nonneg; [exact merged_bowling_matches|apply Qle_refl
                           |apply column_nonneg].
  - pose proof merged_bowling_average as Ha.
    destruct (first_nonzero (column (bowling data) "Ave")) as [n|] eqn:Hf.
    + rewrite Ha. unfold first_nonzero in Hf. apply head_Some_elem_of in Hf.
      apply list_elem_of_filter in Hf as [_ Hn].
      pose proof (column_nonneg (bowling data) "Ave") as Hall.
      rewrite Forall_forall in Hall. apply Hall, Hn.
    + apply negb_false_iff, num_eq_int in Ha; [|reflexivity]. rewrite Ha. discriminate.
Qed.

End Bowling.

Section Fielding.

Variable f : fielding_vars.
Hypothesis Hf : for_loop (fielding_body data) priority fielding_init = Ok f.

Lemma merged_dismissals :
  num_sum (column (fielding data) "Dis") = Ok (total_dismissals f).
Proof.
  refine (total_fold (fielding_body data) (fielding data) fielding_absent
            total_dismissals "Dis" _ priority fielding_init f Hf).
  intros st st' fmt Hrow Hbody.
  apply (fielding_present st st' fmt Hrow Hbody).
Qed.

Lemma merged_stumpings :
  num_sum (column (fielding data) "St") = Ok (total_stumpings f).
Proof.
  refine (total_fold (fielding_body data) (fielding data) fielding_absent
            total_stumpings "St" _ priority fielding_init f Hf).
  intros st st' fmt Hrow Hbody.
  apply (fielding_present st st' fmt Hrow Hbody).
Qed.

End Fielding.

(** The merged span: the first value of the column "Span", in the order
    Test, ODI, T20 of the rows that are there, that Python takes for true;
    the empty text when there is none. *)
Lemma span_fold (fmts : list format) (st st' : batting_vars) :
  for_loop (batting_body data) fmts st = Ok st' ->
  span st' =
  if cell_truthy (span st) then span st
  else default (span st)
         (head (filter (fun v => cell_truthy v = true)
                  ((fun r => row_get r "Span" CNone)
                     <$> rows_present (batting data) fmts))).
Proof.
  revert st. unfold rows_present.
  induction fmts as [|fmt fmts IH]; intros st.
  - simpl. intros [= <-]. destruct (cell_truthy (span st)); reflexivity.
  - cbn [for_loop].
    destruct (batting_body data st fmt) as [st1|e] eqn:Hbody; cbn [rbind]; [|discriminate].
    intros Hloop. rewrite (IH st1 Hloop), fmap_cons, filter_cons.
    destruct (row_truthy (at_format (batting data) fmt)) eqn:Hrow.
    2:{ rewrite decide_False by discriminate.
        rewrite (batting_absent st fmt Hrow) in Hbody. injection Hbody as <-.
        reflexivity. }
    rewrite decide_True by reflexivity. rewrite fmap_cons, filter_cons.
    destruct (batting_present st st1 fmt Hrow Hbody) as (_ & _ & _ & ->).
    destruct (cell_truthy (span st)) eqn:Hs; simpl.
    { rewrite Hs. reflexivity. }
    destruct (cell_truthy (row_get (at_format (batting data) fmt) "Span" CNone))
      eqn:Hc.
    + rewrite decide_True by reflexivity.
      unfold row_get in *.
      destruct (at_format (batting data) fmt !! "Span") as [v|]; simpl in *;
        [rewrite Hc; reflexivity|discriminate].
    + rewrite decide_False by discriminate. rewrite Hs. reflexivity.
Qed.

Lemma merged_span (b : batting_vars) :
  for_loop (batting_body data) priority batting_init = Ok b ->
  span b =
  default (CStr "")
    (head (filter (fun v => cell_truthy v = true)
             ((fun r => row_get r "Span" CNone)
                <$> rows_present (batting data) priority))).
Proof. intros Hb. rewrite (span_fold priority batting_init b Hb). reflexivity. Qed.

(** *** When the loops end without an exception *)

Lemma batting_steps (fmts : list format) (st : batting_vars) (k : Z) :
  0 <= k -> k + Z.of_nat (length fmts) <= 3 ->
  bounded (k * 10 ^ 300 + 1) (total_runs st) ->
  bounded (k * 10 ^ 300 + 1) (total_matches_batting st) ->
  modest (batting data) "Runs" -> modest (batting data) "Mat" ->
  exists b, for_loop (batting_body data) fmts st = Ok b.
Proof.
  intros Hk Hlen H1 H2 Hr Hm.
  assert (3 * 10 ^ 300 + 1 <= 2 ^ 1024 - 2 ^ 970) as Hthr by (vm_compute; discriminate).
  revert st k Hk Hlen H1 H2.
  induction fmts as [|fmt fmts IH]; intros st k Hk Hlen H1 H2.
  - exists st. reflexivity.
  - cbn [length] in Hlen. cbn [for_loop]. rewrite batting_body_eq. cbv zeta.
    destruct (row_truthy (at_format (batting data) fmt)).
    + destruct (num_add_bounded _ _ _ _ H1 (Hr fmt)) as (tr & -> & Htr); [lia|lia|nia|].
      destruct (num_add_bounded _ _ _ _ H2 (Hm fmt)) as (tm & -> & Htm); [lia|lia|nia|].
      cbn [rbind]. apply (IH _ (k + 1)); [lia|lia| |]; cbn [total_runs total_matches_batting];
        (eapply bounded_weaken; [|eassumption]); lia.
    + cbn [rbind]. apply (IH st (k + 1)); [lia|lia| |];
        (eapply bounded_weaken; [|eassumption]); lia.
Qed.

Lemma bowling_steps (fmts : list format) (st : bowling_vars) (k : Z) :
  0 <= k -> k + Z.of_nat (length fmts) <= 3 ->
  bounded (k * 10 ^ 300 + 1) (total_wickets st) ->
  bounded (k * 10 ^ 300 + 1) (total_matches_bowling st) ->
  modest (bowling data) "Wkts" -> modest (bowling data) "Mat" ->
  exists w, for_loop (bowling_body data) fmts st = Ok w.
Proof.
  intros Hk Hlen H1 H2 Hr Hm.
  assert (3 * 10 ^ 300 + 1 <= 2 ^ 1024 - 2 ^ 970) as Hthr by (vm_compute; discriminate).
  revert st k Hk Hlen H1 H2.
  induction fmts as [|fmt fmts IH]; intros st k Hk Hlen H1 H2.
  - exists st. reflexivity.
  - cbn [length] in Hlen. cbn [for_loop]. rewrite bowling_body_eq. cbv zeta.
    destruct (row_truthy (at_format (bowling data) fmt)).
    + destruct (num_add_bounded _ _ _ _ H1 (Hr fmt)) as (tr & -> & Htr); [lia|lia|nia|].
      destruct (num_add_bounded _ _ _ _ H2 (Hm fmt)) as (tm & -> & Htm); [lia|lia|nia|].
      cbn [rbind]. apply (IH _ (k + 1)); [lia|lia| |];
        cbn [total_wickets total_matches_bowling];
        (eapply bounded_weaken; [|eassumption]); lia.
    + cbn [rbind]. apply (IH st (k + 1)); [lia|lia| |];
        (eapply bounded_weaken; [|eassumption]); lia.
Qed.

Lemma fielding_steps (fmts : list format) (st : fielding_vars) (k : Z) :
  0 <= k -> k + Z.of_nat (length fmts) <= 3 ->
  bounded (k * 10 ^ 300 + 1) (total_dismissals st) ->
  bounded (k * 10 ^ 300 + 1) (total_stumpings st) ->
  modest (fielding data) "Dis" -> modest (fielding data) "St" ->
  exists f, for_loop (fielding_body data) fmts st = Ok f.
Proof.
  intros Hk Hlen H1 H2 Hr Hm.
  assert (3 * 10 ^ 300 + 1 <= 2 ^ 1024 - 2 ^ 970) as Hthr by (vm_compute; discriminate).
  revert st k Hk Hlen H1 H2.
  induction fmts as [|fmt fmts IH]; intros st k Hk Hlen H1 H2.
  - exists st. reflexivity.
  - cbn [length] in Hlen. cbn [for_loop]. rewrite fielding_body_eq. cbv zeta.
    destruct (row_truthy (at_format (fielding data) fmt)).
    + destruct (num_add_bounded _ _ _ _ H1 (Hr fmt)) as (tr & -> & Htr); [lia|lia|nia|].
      destruct (num_add_bounded _ _ _ _ H2 (Hm fmt)) as (tm & -> & Htm); [lia|lia|nia|].
      cbn [rbind]. apply (IH _ (k + 1)); [lia|lia| |];
        cbn [total_dismissals total_stumpings];
        (eapply bounded_weaken; [|eassumption]); lia.
    + cbn [rbind]. apply (IH st (k + 1)); [lia|lia| |];
        (eapply bounded_weaken; [|eassumption]); lia.
Qed.

Lemma batting_loop_ok :
  modest (batting data) "Runs" -> modest (batting data) "Mat" ->
  exists b, for_loop (batting_body data) priority batting_init = Ok b.
Proof. apply (batting_steps priority batting_init 0); simpl; lia. Qed.

Lemma bowling_loop_ok :
  modest (bowling data) "Wkts" -> modest (bowling data) "Mat" ->
  exists w, for_loop (bowling_body data) priority bowling_init = Ok w.
Proof. apply (bowling_steps priority bowling_init 0); simpl; lia. Qed.

Lemma fielding_loop_ok :
  modest (fielding data) "Dis" -> modest (fielding data) "St" ->
  exists f, for_loop (fielding_body data) priority fielding_init = Ok f.
Proof. apply (fielding_steps priority fielding_init 0); simpl; lia. Qed.

End MergeFacts.

(** *** The record of a player *)

Lemma determine_role_raises (bat bowl fld : gmap string num) (e : exn) :
  determine_role bat bowl fld = Raise e -> e = OverflowError.
Proof.
  destruct (determine_role_cases bat bowl fld)
    as [(_ & ->)|[(_ & _ & ->)|[(_ & _ & _ & ->)
       |[(_ & _ & _ & _ & ->)|(_ & _ & _ & _ & ->)]]]]; congruence.
Qed.

Lemma player_body_eq (player_name : string) (data : player_data) :
  player_body player_name data =
  let* b := for_loop (batting_body data) priority batting_init in
  let* w := for_loop (bowling_body data) priority bowling_init in
  let* f := for_loop (fielding_body data) priority fielding_init in
  if skipped b w then Ok None
  else
    let* role := determine_role (combined_batting b) (combined_bowling w)
                                (combined_fielding f) in
    Ok (Some (record_of player_name b w role)).
Proof.
  unfold player_body.
  destruct (for_loop (batting_body data) _ _) as [b|]; cbn [rbind]; [|reflexivity].
  destruct (for_loop (bowling_body data) _ _) as [w|]; cbn [rbind]; [|reflexivity].
  destruct (for_loop (fielding_body data) _ _) as [f|]; cbn [rbind]; [|reflexivity].
  destruct (skipped b w); [reflexivity|].
  destruct (determine_role _ _ _) as [role|]; cbn [rbind]; [|reflexivity].
  rewrite determine_era_ok. reflexivity.
Qed.

Lemma player_body_some (player_name : string) (data : player_data)
    (player : player_obj) :
  player_body player_name data = Ok (Some player) <->
  exists b w f role,
    for_loop (batting_body data) priority batting_init = Ok b
    /\ for_loop (bowling_body data) priority bowling_init = Ok w
    /\ for_loop (fielding_body data) priority fielding_init = Ok f
    /\ skipped b w = false
    /\ determine_role (combined_batting b) (combined_bowling w) (combined_fielding f)
       = Ok role
    /\ player = record_of player_name b w role.
Proof.
  rewrite player_body_eq. split.
  - destruct (for_loop (batting_body data) _ _) as [b|]; cbn [rbind]; [|discriminate].
    destruct (for_loop (bowling_body data) _ _) as [w|]; cbn [rbind]; [|discriminate].
    destruct (for_loop (fielding_body data) _ _) as [f|]; cbn [rbind]; [|discriminate].
    destruct (skipped b w) eqn:Hs; [discriminate|].
    destruct (determine_role _ _ _) as [role|] eqn:Hr; cbn [rbind]; [|discriminate].
    intros [= <-]. exists b, w, f, role. tauto.
  - intros (b & w & f & role & -> & -> & -> & Hs & Hr & ->). cbn [rbind].
    rewrite Hs, Hr. reflexivity.
Qed.

Lemma player_body_none (player_name : string) (data : player_data) :
  player_body player_name data = Ok None <->
  exists b w f,
    for_loop (batting_body data) priority batting_init = Ok b
    /\ for_loop (bowling_body data) priority bowling_init = Ok w
    /\ for_loop (fielding_body data) priority fielding_init = Ok f
    /\ skipped b w = true.
Proof.
  rewrite player_body_eq. split.
  - destruct (for_loop (batting_body data) _ _) as [b|]; cbn [rbind]; [|discriminate].
    destruct (for_loop (bowling_body data) _ _) as [w|]; cbn [rbind]; [|discriminate].
    destruct (for_loop (fielding_body data) _ _) as [f|]; cbn [rbind]; [|discriminate].
    destruct (skipped b w) eqn:Hs.
    + intros _. exists b, w, f. tauto.
    + destruct (determine_role _ _ _); discriminate.
  - intros (b & w & f & -> & -> & -> & Hs). cbn [rbind]. rewrite Hs. reflexivity.
Qed.

Lemma player_body_raises (player_name : string) (data : player_data) (e : exn) :
  player_body player_name data = Raise e -> e = OverflowError.
Proof.
  rewrite player_body_eq.
  destruct (for_loop (batting_body data) _ _) as [b|] eqn:Hb; cbn [rbind];
    [|intros [= <-]; eapply batting_loop_raises, Hb].
  destruct (for_loop (bowling_body data) _ _) as [w|] eqn:Hw; cbn [rbind];
    [|intros [= <-]; eapply bowling_loop_raises, Hw].
  destruct (for_loop (fielding_body data) _ _) as [f|] eqn:Hf; cbn [rbind];
    [|intros [= <-]; eapply fielding_loop_raises, Hf].
  destruct (skipped b w); [discriminate|].
  destruct (determine_role _ _ _) as [role|] eqn:Hr; cbn [rbind]; [discriminate|].
  intros [= <-]. eapply determine_role_raises, Hr.
Qed.

Lemma player_step_eq (final_players : list player_obj) (item : string * player_data) :
  player_step final_players item
  = (final_players ++ option_list (record_if_kept item))%list.
Proof.
  unfold player_step, record_if_kept.
  destruct (player_body item.1 item.2) as [[player|]|]; simpl;
    rewrite ?app_nil_r; reflexivity.
Qed.

Lemma collect_players_fold (players_data : list (string * player_data))
    (final_players : list player_obj) :
  fold_left player_step players_data final_players =
  (final_players ++ omap record_if_kept players_data)%list.
Proof.
  revert final_players.
  induction players_data as [|item ps IH]; intros acc; cbn [fold_left].
  - rewrite app_nil_r. reflexivity.
  - rewrite IH, player_step_eq. cbn [omap list_omap].
    destruct (record_if_kept item); simpl.
    + rewrite <- app_assoc. reflexivity.
    + rewrite app_nil_r. reflexivity.
Qed.

Lemma collect_players_eq (players_data : list (string * player_data)) :
  collect_players players_data = omap record_if_kept players_data.
Proof. apply collect_players_fold. Qed.

Lemma collected_from_body (players_data : list (string * player_data))
    (player : player_obj) :
  player ∈ collect_players players_data <->
  exists player_name data,
    (player_name, data) ∈ players_data
    /\ player_body player_name data = Ok (Some player).
Proof.
  rewrite collect_players_eq, list_elem_of_omap. unfold record_if_kept. split.
  - intros ([n d] & Hnd & Hrec). exists n, d. split; [exact Hnd|].
    simpl in Hrec. destruct (player_body n d) as [r|]; [|discriminate].
    rewrite Hrec. reflexivity.
  - intros (n & d & Hnd & Hbody). exists (n, d). split; [exact Hnd|].
    simpl. rewrite Hbody. reflexivity.
Qed.

Lemma combined_batting_mat (b : batting_vars) :
  get0 (combined_batting b) "Mat" = total_matches_batting b.
Proof. unfold get0, combined_batting. by simplify_map_eq. Qed.

Lemma combined_bowling_mat (w : bowling_vars) :
  get0 (combined_bowling w) "Mat" = total_matches_bowling w.
Proof. unfold get0, combined_bowling. by simplify_map_eq. Qed.

(** ** The inclusion filter *)

Lemma total_matches_max (b : batting_vars) (w : bowling_vars) :
  total_matches_of b w = num_max (total_matches_batting b) (total_matches_bowling w).
Proof.
  unfold total_matches_of. rewrite combined_batting_mat, combined_bowling_mat.
  reflexivity.
Qed.

Lemma skipped_iff (b : batting_vars) (w : bowling_vars) :
  skipped b w = true <->
  excluded_rule (num_val (total_matches_of b w)) (num_val (total_runs b))
                (num_val (total_wickets w)).
Proof.
  unfold skipped, excluded_rule.
  rewrite orb_true_iff, !andb_true_iff, num_lt_int, !num_eq_int by reflexivity.
  change (inject_Z 100) with 100%Q. change (inject_Z 0) with 0%Q. tauto.
Qed.

Lemma skipped_matches (b : batting_vars) (w : bowling_vars) :
  skipped b w = num_lt (total_matches_of b w) (NInt 100).
Proof.
  unfold skipped.
  destruct (num_lt (total_matches_of b w) (NInt 100)) eqn:Hlt; [reflexivity|].
  destruct (num_eq (total_matches_of b w) (NInt 0)) eqn:Heq; [|reflexivity].
  exfalso. apply num_eq_int in Heq; [|reflexivity].
  assert (num_lt (total_matches_of b w) (NInt 100) = true) as Hlt'.
  { apply num_lt_int; [reflexivity|]. rewrite Heq. reflexivity. }
  congruence.
Qed.

(** ** Sorting into decreasing order *)

Section SortFacts.

Context {A : Type} (key : A -> num).

Lemma insert_desc_perm (x : A) (l : list A) :
  Permutation (x :: l) (insert_desc key x l).
Proof.
  induction l as [|y l IH]; simpl; [reflexivity|].
  destruct (num_gt (key y) (key x)); [|reflexivity].
  rewrite perm_swap. apply perm_skip, IH.
Qed.

Lemma sort_reverse_perm (l : list A) : Permutation l (sort_reverse key l).
Proof.
  induction l as [|x l IH]; simpl; [reflexivity|].
  rewrite <- insert_desc_perm. apply perm_skip, IH.
Qed.

Lemma insert_desc_sorted (x : A) (l : list A) :
  StronglySorted (key_ge key) l -> StronglySorted (key_ge key) (insert_desc key x l).
Proof.
  induction l as [|y l IH]; simpl; intros Hs.
  - constructor; constructor.
  - apply StronglySorted_inv in Hs as [Hl Hy].
    destruct (num_gt (key y) (key x)) eqn:Hgt.
    + constructor; [apply IH, Hl|].
      rewrite <- insert_desc_perm. constructor; [|exact Hy].
      apply num_gt_le, Hgt.
    + constructor; [constructor; assumption|].
      constructor; [exact Hgt|].
      eapply Forall_impl; [exact Hy|].
      intros z Hz. unfold key_ge in *. eapply num_le_trans; [exact Hz|exact Hgt].
Qed.

Lemma sort_reverse_sorted (l : list A) : StronglySorted (key_ge key) (sort_reverse key l).
Proof.
  induction l as [|x l IH]; simpl; [constructor|].
  apply insert_desc_sorted, IH.
Qed.

Lemma insert_desc_with_key (k : num) (x : A) (l : list A) :
  with_key key k (insert_desc key x l) = with_key key k (x :: l).
Proof.
  unfold with_key.
  induction l as [|y l IH]; simpl; [reflexivity|].
  destruct (num_gt (key y) (key x)) eqn:Hgt; [|reflexivity].
  rewrite filter_cons, IH, !filter_cons.
  destruct (decide (num_eq (key y) k = true)) as [Hy|Hy];
    destruct (decide (num_eq (key x) k = true)) as [Hx|Hx];
    try reflexivity.
  exfalso. rewrite num_eq_sym in Hx.
  pose proof (num_eq_trans _ _ _ Hy Hx) as Hyx.
  apply num_eq_le in Hyx as [Hle _]. unfold num_le in Hle. congruence.
Qed.

Lemma sort_reverse_with_key (k : num) (l : list A) :
  with_key key k (sort_reverse key l) = with_key key k l.
Proof.
  induction l as [|x l IH]; simpl; [reflexivity|].
  rewrite insert_desc_with_key. unfold with_key in *.
  rewrite !filter_cons, IH. reflexivity.
Qed.

(** A list in decreasing order of the keys is determined by its elements
    of each key, taken in their order: whatever way the sorting goes, a
    stable sort into decreasing order returns [sort_reverse key l]. *)
Lemma sorted_stable_unique (l1 l2 : list A) :
  StronglySorted (key_ge key) l1 -> StronglySorted (key_ge key) l2 ->
  (forall k, with_key key k l1 = with_key key k l2) ->
  l1 = l2.
Proof.
  assert (Hhead : forall (x : A) (l : list A),
            with_key key (key x) (x :: l) = x :: with_key key (key x) l).
  { intros x l. unfold with_key. rewrite filter_cons.
    rewrite decide_True by apply num_eq_refl. reflexivity. }
  assert (Hin : forall (k : num) (y : A) (l l' : list A),
            with_key key k l = y :: l' ->
            exists z, z ∈ l /\ num_eq (key z) k = true).
  { intros k y l l' Heq. exists y.
    assert (y ∈ with_key key k l) as Hy by (rewrite Heq; apply list_elem_of_here).
    unfold with_key in Hy. apply list_elem_of_filter in Hy as [Hk Hy].
    split; [exact Hy|exact Hk]. }
  assert (Hle : forall (x y : A) (l1 l2 : list A),
            StronglySorted (key_ge key) (x :: l1) ->
            (forall k, with_key key k (x :: l1) = with_key key k (y :: l2)) ->
            key_ge key x y).
  { intros x y m1 m2 Hs Hk.
    apply StronglySorted_inv in Hs as [_ Hx].
    specialize (Hk (key y)). rewrite (Hhead y m2) in Hk.
    destruct (Hin _ _ _ _ Hk) as (z & Hz & Hkz).
    apply num_eq_le in Hkz as [_ Hyz].
    unfold key_ge. eapply num_le_trans; [exact Hyz|].
    apply elem_of_cons in Hz as [->|Hz]; [apply num_le_refl|].
    rewrite Forall_forall in Hx. apply Hx, Hz. }
  revert l2. induction l1 as [|x l1 IH]; intros l2 Hs1 Hs2 Hk.
  - destruct l2 as [|y l2]; [reflexivity|].
    specialize (Hk (key y)). rewrite Hhead in Hk. discriminate.
  - destruct l2 as [|y l2].
    { specialize (Hk (key x)). rewrite Hhead in Hk. discriminate. }
    assert (num_eq (key y) (key x) = true) as Hxy.
    { apply num_eq_le. split.
      - apply (Hle x y l1 l2 Hs1 Hk).
      - apply (Hle y x l2 l1 Hs2). intros k. symmetry. apply Hk. }
    assert (x = y) as ->.
    { pose proof (Hk (key x)) as Hkx. rewrite Hhead in Hkx.
      unfold with_key in Hkx. rewrite filter_cons in Hkx.
      rewrite decide_True in Hkx by exact Hxy.
      congruence. }
    f_equal. apply StronglySorted_inv in Hs1 as [Hs1 _].
    apply StronglySorted_inv in Hs2 as [Hs2 _].
    apply (IH l2 Hs1 Hs2). intros k. specialize (Hk k).
    unfold with_key in *. rewrite !filter_cons in Hk.
    destruct (decide (num_eq (key y) k = true)); congruence.
Qed.

Lemma sort_reverse_unique (l l' : list A) :
  StronglySorted (key_ge key) l' ->
  (forall k, with_key key k l' = with_key key k l) ->
  l' = sort_reverse key l.
Proof.
  intros Hs Hk. apply sorted_stable_unique; [exact Hs|apply sort_reverse_sorted|].
  intros k. rewrite sort_reverse_with_key. apply Hk.
Qed.

(** Sorting the elements with their keys beside them is sorting them by
    their keys. *)
Lemma insert_desc_keyed (x : A) (l : list A) :
  (insert_desc fst (key x, x) ((fun y => (key y, y)) <$> l)).*2
  = insert_desc key x l.
Proof.
  induction l as [|y l IH]; [reflexivity|].
  rewrite fmap_cons. cbn [insert_desc fst].
  destruct (num_gt (key y) (key x)).
  - rewrite fmap_cons. cbn [snd]. rewrite IH. reflexivity.
  - rewrite !fmap_cons. cbn [snd]. rewrite <- list_fmap_compose.
    f_equal. f_equal. apply list_fmap_id.
Qed.

Lemma insert_desc_keyed_fmap (x : A) (l : list A) :
  insert_desc fst (key x, x) ((fun y => (key y, y)) <$> l)
  = (fun y => (key y, y)) <$> insert_desc key x l.
Proof.
  induction l as [|y l IH]; [reflexivity|].
  rewrite fmap_cons. cbn [insert_desc fst].
  destruct (num_gt (key y) (key x)).
  - rewrite IH, fmap_cons. reflexivity.
  - rewrite !fmap_cons. reflexivity.
Qed.

Lemma sort_reverse_keyed (l : list A) :
  sort_reverse fst ((fun y => (key y, y)) <$> l)
  = (fun y => (key y, y)) <$> sort_reverse key l.
Proof.
  induction l as [|x l IH]; [reflexivity|].
  rewrite fmap_cons. cbn [sort_reverse foldr].
  change (foldr (insert_desc fst) [] ((fun y => (key y, y)) <$> l))
    with (sort_reverse fst ((fun y => (key y, y)) <$> l)).
  rewrite IH. apply insert_desc_keyed_fmap.
Qed.

End SortFacts.

(** The keys are computed for all records or for none. *)
Lemma key_of_ok (x : player_obj) (k : num) : sort_key x = Ok k -> key_of x = k.
Proof. unfold key_of. intros ->. reflexivity. Qed.

Lemma with_keys_ok (l : list player_obj) (keyed : list (num * player_obj)) :
  with_keys l = Ok keyed <->
  Forall (fun x => sort_key x = Ok (key_of x)) l
  /\ keyed = (fun x => (key_of x, x)) <$> l.
Proof.
  revert keyed. induction l as [|x l IH]; intros keyed; cbn [with_keys].
  - split; [intros [= <-]; split; [constructor|reflexivity]|intros [_ ->]; reflexivity].
  - rewrite Forall_cons, fmap_cons.
    destruct (sort_key x) as [k|e] eqn:Hk; cbn [rbind].
    + rewrite (key_of_ok x k Hk).
      destruct (with_keys l) as [ks|e] eqn:Hks; cbn [rbind].
      * destruct (proj1 (IH ks) eq_refl) as [Hall ->]. split.
        -- intros [= <-]. tauto.
        -- intros [_ ->]. reflexivity.
      * split; [discriminate|]. intros [[_ Hall] _].
        specialize (proj2 (IH _) (conj Hall eq_refl)). discriminate.
    + split; [discriminate|]. intros [[Hx _] _]. discriminate.
Qed.

Lemma with_keys_raises (l : list player_obj) (e : exn) :
  with_keys l = Raise e -> exists x, x ∈ l /\ sort_key x = Raise e.
Proof.
  induction l as [|x l IH]; cbn [with_keys]; [discriminate|].
  destruct (sort_key x) as [k|e'] eqn:Hk; cbn [rbind].
  - destruct (with_keys l) as [ks|e'] eqn:Hks; cbn [rbind]; [discriminate|].
    intros [= <-]. destruct (IH eq_refl) as (y & Hy & Hr).
    exists y. split; [apply list_elem_of_further, Hy|exact Hr].
  - intros [= <-]. exists x. split; [apply list_elem_of_here|exact Hk].
Qed.

Lemma sort_key_raises (x : player_obj) (e : exn) :
  sort_key x = Raise e -> e = OverflowError.
Proof.
  unfold sort_key. destruct (num_mul_50 (wickets x)) as (c & -> & _). cbn [rbind].
  apply num_add_error.
Qed.

(** What [process_cricket_data] returns. *)
Lemma process_cricket_data_ok (players_data : list (string * player_data))
    (out : list player_obj) :
  process_cricket_data players_data = Ok out <->
  Forall (fun x => sort_key x = Ok (key_of x)) (collect_players players_data)
  /\ out = sort_reverse key_of (collect_players players_data).
Proof.
  unfold process_cricket_data. cbv zeta. split.
  - destruct (with_keys _) as [keyed|e] eqn:Hk; cbn [rbind]; [|discriminate].
    apply with_keys_ok in Hk as [Hall ->]. intros [= <-]. split; [exact Hall|].
    rewrite sort_reverse_keyed, <- list_fmap_compose. apply list_fmap_id.
  - intros [Hall ->].
    rewrite (proj2 (with_keys_ok _ _) (conj Hall eq_refl)). cbn [rbind].
    rewrite sort_reverse_keyed, <- list_fmap_compose. f_equal. apply list_fmap_id.
Qed.

Lemma output_from_body (players_data : list (string * player_data))
    (out : list player_obj) (player : player_obj) :
  process_cricket_data players_data = Ok out -> player ∈ out ->
  exists player_name data,
    (player_name, data) ∈ players_data
    /\ player_body player_name data = Ok (Some player).
Proof.
  intros Hout Hin. apply process_cricket_data_ok in Hout as [_ ->].
  rewrite <- (sort_reverse_perm key_of) in Hin.
  apply collected_from_body, Hin.
Qed.

(** ** Players without huge numbers *)

Lemma column_modest (d : formats) (key : string) :
  modest d key ->
  Forall (bounded (10 ^ 300)) (column d key)
  /\ Z.of_nat (length (column d key)) <= 3.
Proof.
  intros Hm. unfold column, rows_present. split.
  - apply Forall_fmap, Forall_forall. intros r Hr.
    apply list_elem_of_filter in Hr as [_ Hr].
    apply list_elem_of_fmap in Hr as (fmt & -> & _). apply Hm.
  - rewrite length_fmap.
    pose proof (length_filter (fun r => row_truthy r = true) (at_format d <$> priority))
      as Hlen.
    rewrite length_fmap in Hlen. change (length priority) with 3%nat in Hlen. lia.
Qed.

Lemma sum_modest (d : formats) (key : string) (t : num) :
  modest d key -> num_sum (column d key) = Ok t -> bounded (3 * 10 ^ 300 + 1) t.
Proof.
  intros Hm Hsum. destruct (column_modest d key Hm) as [Hall Hlen].
  destruct (num_sum_bounded (column d key) (NInt 0) 0) as (t' & Ht' & Hb);
    [lia|lia|simpl; lia|exact Hall|].
  unfold num_sum in Hsum. rewrite Hsum in Ht'. injection Ht' as <-.
  eapply bounded_weaken; [|exact Hb]. lia.
Qed.

Lemma modest_merged (data : player_data) :
  modest_player data -> exists b w f, merged_as data b w f.
Proof.
  intros (H1 & H2 & H3 & H4 & H5 & H6).
  destruct (batting_loop_ok data H1 H2) as [b Hb].
  destruct (bowling_loop_ok data H3 H4) as [w Hw].
  destruct (fielding_loop_ok data H5 H6) as [f Hf].
  exists b, w, f. repeat split; assumption.
Qed.

Lemma merged_modest (data : player_data) (b : batting_vars) (w : bowling_vars)
    (f : fielding_vars) :
  modest_player data -> merged_as data b w f ->
  bounded (3 * 10 ^ 300 + 1) (total_runs b)
  /\ bounded (3 * 10 ^ 300 + 1) (total_wickets w).
Proof.
  intros (H1 & _ & H3 & _) (Hb & Hw & _). split.
  - apply (sum_modest (batting data) "Runs"); [exact H1|apply merged_runs, Hb].
  - apply (sum_modest (bowling data) "Wkts"); [exact H3|apply merged_wickets, Hw].
Qed.

Lemma division_bounded (runs : num) :
  bounded (3 * 10 ^ 300 + 1) runs -> ~ division_overflows runs.
Proof.
  intros Hb (z & -> & Hz). simpl in Hb.
  assert (3 * 10 ^ 300 + 1 < 100 * (2 ^ 1024 - 2 ^ 970)) by (vm_compute; reflexivity).
  lia.
Qed.

Lemma combined_batting_runs (b : batting_vars) :
  get0 (combined_batting b) "Runs" = total_runs b.
Proof. unfold get0, combined_batting. by simplify_map_eq. Qed.

Lemma determine_role_raise_cause (bat bowl fld : gmap string num) :
  determine_role bat bowl fld = Raise OverflowError ->
  division_overflows (get0 bat "Runs").
Proof.
  destruct (determine_role_cases bat bowl fld)
    as [(_ & ->)|[(_ & _ & ->)|[(_ & _ & HV & _)
       |[(_ & _ & _ & _ & ->)|(_ & _ & _ & _ & ->)]]]]; try discriminate.
  intros _. exact HV.
Qed.

Lemma determine_role_returns (bat bowl fld : gmap string num) :
  ~ division_overflows (get0 bat "Runs") ->
  exists role, determine_role bat bowl fld = Ok role.
Proof.
  intros Hn. destruct (determine_role bat bowl fld) as [role|e] eqn:Hr; [eauto|].
  pose proof (determine_role_raises _ _ _ _ Hr) as ->.
  apply determine_role_raise_cause in Hr. contradiction.
Qed.

Lemma sort_key_bounded (x : player_obj) :
  bounded (3 * 10 ^ 300 + 1) (runs x) -> bounded (3 * 10 ^ 300 + 1) (wickets x) ->
  exists k, sort_key x = Ok k.
Proof.
  intros H1 H2. unfold sort_key.
  destruct (num_mul_50 (wickets x)) as (c & -> & Hb & _). cbn [rbind].
  destruct (num_add_bounded _ _ _ _ H1 (Hb _ H2)) as (k & -> & _);
    [lia|lia|vm_compute; discriminate|].
  eauto.
Qed.

Lemma sort_key_int (x : player_obj) (r w : Z) :
  runs x = NInt r -> wickets x = NInt w -> sort_key x = Ok (NInt (r + w * 50)).
Proof. unfold sort_key. intros -> ->. reflexivity. Qed.

Lemma player_step_left_out (player_name : string) (data : player_data)
    (final_players : list player_obj) :
  player_step final_players (player_name, data) = final_players
  <-> record_if_kept (player_name, data) = None.
Proof.
  rewrite player_step_eq. destruct (record_if_kept _) as [player|]; simpl.
  - split; [|discriminate]. intros H. apply (f_equal length) in H.
    rewrite List.length_app in H. simpl in H. lia.
  - rewrite app_nil_r. tauto.
Qed.

Lemma player_step_excluded (player_name : string) (data : player_data)
    (final_players : list player_obj) :
  player_step final_players (player_name, data) = final_players
  <-> (exists b w f,
         merged_as data b w f
         /\ excluded_rule (num_val (total_matches_of b w)) (num_val (total_runs b))
              (num_val (total_wickets w)))
      \/ player_body player_name data = Raise OverflowError.
Proof.
  rewrite player_step_left_out. unfold record_if_kept. cbn [fst snd].
  destruct (player_body player_name data) as [[player|]|e] eqn:Hbody.
  - split; [discriminate|]. intros [(b & w & f & Hm & Hex)|]; [|discriminate].
    exfalso. apply player_body_some in Hbody
      as (b' & w' & f' & role & Hb & Hw & Hf & Hs & _).
    destruct Hm as (Hb' & Hw' & _).
    assert (b' = b) as -> by congruence. assert (w' = w) as -> by congruence.
    apply skipped_iff in Hex. congruence.
  - split; [|reflexivity]. intros _. left.
    apply player_body_none in Hbody as (b & w & f & Hb & Hw & Hf & Hs).
    exists b, w, f. split; [repeat split; assumption|]. apply skipped_iff, Hs.
  - split; [|reflexivity]. intros _. right.
    rewrite (player_body_raises _ _ _ Hbody). reflexivity.
Qed.

Lemma player_step_kept (player_name : string) (data : player_data)
    (b : batting_vars) (w : bowling_vars) (f : fielding_vars) (role : string)
    (final_players : list player_obj) :
  merged_as data b w f ->
  ~ excluded_rule (num_val (total_matches_of b w)) (num_val (total_runs b))
      (num_val (total_wickets w)) ->
  determine_role (combined_batting b) (combined_bowling w) (combined_fielding f)
  = Ok role ->
  player_step final_players (player_name, data)
  = (final_players ++ [record_of player_name b w role])%list.
Proof.
  intros (Hb & Hw & Hf) Hex Hrole. unfold player_step. cbn [fst snd].
  rewrite player_body_eq, Hb, Hw, Hf. cbn [rbind].
  destruct (skipped b w) eqn:Hs; [exfalso; apply Hex, skipped_iff, Hs|].
  rewrite Hrole. reflexivity.
Qed.

Lemma player_body_overflow (player_name : string) (data : player_data) :
  player_body player_name data = Raise OverflowError
  <-> (~ exists b w f, merged_as data b w f)
      \/ (exists b w f,
            merged_as data b w f
            /\ ~ excluded_rule (num_val (total_matches_of b w))
                   (num_val (total_runs b)) (num_val (total_wickets w))
            /\ division_overflows (total_runs b)
            /\ determine_role (combined_batting b) (combined_bowling w)
                              (combined_fielding f) = Raise OverflowError).
Proof.
  rewrite player_body_eq. unfold merged_as.
  destruct (for_loop (batting_body data) _ _) as [b|e] eqn:Hb; cbn [rbind].
  2:{ rewrite (batting_loop_raises _ _ _ _ Hb). split; [|reflexivity].
      intros _. left. intros (b & w & f & [=] & _). }
  destruct (for_loop (bowling_body data) _ _) as [w|e] eqn:Hw; cbn [rbind].
  2:{ rewrite (bowling_loop_raises _ _ _ _ Hw). split; [|reflexivity].
      intros _. left. intros (b' & w & f & _ & [=] & _). }
  destruct (for_loop (fielding_body data) _ _) as [f|e] eqn:Hf; cbn [rbind].
  2:{ rewrite (fielding_loop_raises _ _ _ _ Hf). split; [|reflexivity].
      intros _. left. intros (b' & w' & f & _ & _ & [=]). }
  pose proof (skipped_iff b w) as Hskip.
  destruct (skipped b w) eqn:Hs.
  - split; [discriminate|]. intros [Hn|(b' & w' & f' & (Hb' & Hw' & _) & Hex & _)].
    + exfalso. apply Hn. exists b, w, f. repeat split.
    + injection Hb' as <-. injection Hw' as <-. exfalso. apply Hex, Hskip. reflexivity.
  - destruct (determine_role _ _ _) as [role|e] eqn:Hr; cbn [rbind].
    + split; [discriminate|].
      intros [Hn|(b' & w' & f' & (Hb' & Hw' & Hf') & _ & _ & Hr')].
      * exfalso. apply Hn. exists b, w, f. repeat split.
      * injection Hb' as <-. injection Hw' as <-. injection Hf' as <-. congruence.
    + pose proof (determine_role_raises _ _ _ _ Hr) as ->. split; [|reflexivity].
      intros _. right. exists b, w, f. split; [repeat split|].
      split; [intros Hex; apply Hskip in Hex; discriminate|].
      split; [|exact Hr].
      rewrite <- combined_batting_runs. apply determine_role_raise_cause in Hr. exact Hr.
Qed.

Lemma player_body_modest (player_name : string) (data : player_data) :
  modest_player data ->
  exists b w f,
    merged_as data b w f
    /\ (player_body player_name data = Ok None
        \/ exists role,
             determine_role (combined_batting b) (combined_bowling w)
                            (combined_fielding f) = Ok role
             /\ player_body player_name data
                = Ok (Some (record_of player_name b w role))).
Proof.
  intros Hm. destruct (modest_merged data Hm) as (b & w & f & Hmerged).
  exists b, w, f. split; [exact Hmerged|].
  destruct (merged_modest data b w f Hm Hmerged) as [Hruns _].
  destruct Hmerged as (Hb & Hw & Hf).
  rewrite player_body_eq, Hb, Hw, Hf. cbn [rbind].
  destruct (skipped b w); [left; reflexivity|right].
  destruct (determine_role_returns (combined_batting b) (combined_bowling w)
              (combined_fielding f)) as [role Hrole].
  { rewrite combined_batting_runs. apply division_bounded, Hruns. }
  exists role. rewrite Hrole. split; reflexivity.
Qed.

Lemma record_modest (player_name : string) (data : player_data)
    (player : player_obj) :
  modest_player data -> player_body player_name data = Ok (Some player) ->
  bounded (3 * 10 ^ 300 + 1) (runs player)
  /\ bounded (3 * 10 ^ 300 + 1) (wickets player).
Proof.
  intros Hm Hbody.
  apply player_body_some in Hbody as (b & w & f & role & Hb & Hw & Hf & _ & _ & ->).
  apply (merged_modest data b w f Hm). repeat split; assumption.
Qed.

Lemma process_cricket_data_modest (players_data : list (string * player_data)) :
  Forall (fun item => modest_player item.2) players_data ->
  exists out, process_cricket_data players_data = Ok out.
Proof.
  intros Hall. exists (sort_reverse key_of (collect_players players_data)).
  apply process_cricket_data_ok. split; [|reflexivity].
  apply Forall_forall. intros x Hx.
  apply collected_from_body in Hx as (n & d & Hin & Hbody).
  rewrite Forall_forall in Hall. specialize (Hall _ Hin). cbn [snd] in Hall.
  destruct (record_modest n d x Hall Hbody) as [H1 H2].
  destruct (sort_key_bounded x H1 H2) as [k Hk].
  rewrite (key_of_ok x k Hk). exact Hk.
Qed.

Lemma process_cricket_data_raises (players_data : list (string * player_data))
    (e : exn) :
  process_cricket_data players_data = Raise e ->
  e = OverflowError
  /\ exists x, x ∈ collect_players players_data /\ sort_key x = Raise OverflowError.
Proof.
  unfold process_cricket_data. cbv zeta.
  destruct (with_keys _) as [keyed|e'] eqn:Hk; cbn [rbind]; [discriminate|].
  intros [= <-]. apply with_keys_raises in Hk as (x & Hx & Hr).
  pose proof (sort_key_raises x _ Hr) as ->. split; [reflexivity|].
  exists x. split; assumption.
Qed.

(** ** The players that are left out *)

(** C3, with the exceptions that the code catches.  The total of matches is
    [max] of the batting and the bowling matches, and the test of the filter
    is the rule of the claim on the totals.  A player adds nothing to the
    list of records exactly when the merging loops end and the rule holds,
    or when the body of the [try] raises [OverflowError]; that happens when
    a merging loop adds an [int] beyond the floats to a float, or when the
    rule does not hold and [runs / 100] in [determine_role] is beyond the
    floats.  Otherwise one record is appended; the records collected are
    those of the players for which the body returns one, and the list that
    is returned has the same records.  For a player whose summed columns
    hold no [int] of more than 300 digits the loops end and the player is
    left out exactly when the rule holds.  With 99 matches and 5000 runs the
    player is left out, with 100 matches the player is in the output; a
    player with 150 matches and runs 10^400 is left out. *)
Theorem inclusion_filter :
  (forall b w,
     total_matches_of b w
     = num_max (total_matches_batting b) (total_matches_bowling w)
     /\ (skipped b w = true
         <-> excluded_rule (num_val (total_matches_of b w))
               (num_val (total_runs b)) (num_val (total_wickets w))))
  /\ (forall player_name data final_players,
        player_step final_players (player_name, data) = final_players
        <-> (exists b w f,
               merged_as data b w f
               /\ excluded_rule (num_val (total_matches_of b w))
                    (num_val (total_runs b)) (num_val (total_wickets w)))
            \/ player_body player_name data = Raise OverflowError)
  /\ (forall player_name data,
        (forall e, player_body player_name data = Raise e -> e = OverflowError)
        /\ (player_body player_name data = Raise OverflowError
            <-> (~ exists b w f, merged_as data b w f)
                \/ (exists b w f,
                      merged_as data b w f
                      /\ ~ excluded_rule (num_val (total_matches_of b w))
                             (num_val (total_runs b)) (num_val (total_wickets w))
                      /\ division_overflows (total_runs b)
                      /\ determine_role (combined_batting b) (combined_bowling w)
                           (combined_fielding f) = Raise OverflowError)))
  /\ (forall player_name data b w f role final_players,
        merged_as data b w f ->
        ~ excluded_rule (num_val (total_matches_of b w))
            (num_val (total_runs b)) (num_val (total_wickets w)) ->
        determine_role (combined_batting b) (combined_bowling w)
                       (combined_fielding f) = Ok role ->
        player_step final_players (player_name, data)
        = (final_players ++ [record_of player_name b w role])%list
        /\ matches (record_of player_name b w role) = total_matches_of b w)
  /\ (forall players_data player,
        player ∈ collect_players players_data
        <-> exists player_name data,
              (player_name, data) ∈ players_data
              /\ player_body player_name data = Ok (Some player))
  /\ (forall players_data out,
        process_cricket_data players_data = Ok out ->
        Permutation (collect_players players_data) out)
  /\ (forall player_name data,
        modest_player data ->
        exists b w f,
          merged_as data b w f
          /\ (forall final_players,
                player_step final_players (player_name, data) = final_players
                <-> excluded_rule (num_val (total_matches_of b w))
                      (num_val (total_runs b)) (num_val (total_wickets w)))
          /\ (forall final_players,
                ~ excluded_rule (num_val (total_matches_of b w))
                    (num_val (total_runs b)) (num_val (total_wickets w)) ->
                exists role,
                  player_step final_players (player_name, data)
                  = (final_players ++ [record_of player_name b w role])%list))
  /\ player_body "A" (test_batsman 5000 99) = Ok None
  /\ process_cricket_data [("A", test_batsman 5000 99)] = Ok []
  /\ rmap (fmap matches) (process_cricket_data [("A", test_batsman 5000 100)])
     = Ok [NInt 100]
  /\ player_body "A" huge_runs = Raise OverflowError.
Proof.
  split; [|split; [|split; [|split; [|split; [|split; [|split]]]]]].
  - intros b w. split; [apply total_matches_max|apply skipped_iff].
  - apply player_step_excluded.
  - intros player_name data. split; [apply player_body_raises|apply player_body_overflow].
  - intros player_name data b w f role final_players Hm Hex Hrole.
    split; [apply (player_step_kept _ _ _ _ f); assumption|reflexivity].
  - apply collected_from_body.
  - intros players_data out Hout. apply process_cricket_data_ok in Hout as [_ ->].
    apply sort_reverse_perm.
  - intros player_name data Hm.
    destruct (player_body_modest player_name data Hm)
      as (b & w & f & Hmerged & Hbody).
    exists b, w, f. split; [exact Hmerged|].
    assert (forall final_players,
              player_step final_players (player_name, data) = final_players
              <-> excluded_rule (num_val (total_matches_of b w))
                    (num_val (total_runs b)) (num_val (total_wickets w))) as Hiff.
    { intros final_players. rewrite player_step_excluded. split.
      - intros [(b' & w' & f' & (Hb' & Hw' & _) & Hex)|Hraise].
        + destruct Hmerged as (Hb & Hw & _).
          assert (b' = b) as -> by congruence. assert (w' = w) as -> by congruence.
          exact Hex.
        + destruct Hbody as [Hnone|(role & _ & Hsome)]; congruence.
      - intros Hex. left. exists b, w, f. split; assumption. }
    split; [exact Hiff|].
    intros final_players Hex.
    destruct Hbody as [Hnone|(role & Hrole & _)].
    + exfalso. apply Hex, (Hiff []).
      unfold player_step. cbn [fst snd]. rewrite Hnone. reflexivity.
    + exists role. apply (player_step_kept _ _ _ _ f); assumption.
  - repeat split; vm_compute; reflexivity.
Qed.

Lemma inclusion_filter_witness :
  (merged_as (test_batsman 5000 100) (test_batsman_vars 5000 100)
             bowling_init fielding_init
   /\ ~ excluded_rule
          (num_val (total_matches_of (test_batsman_vars 5000 100) bowling_init))
          (num_val (total_runs (test_batsman_vars 5000 100)))
          (num_val (total_wickets bowling_init))
   /\ determine_role (combined_batting (test_batsman_vars 5000 100))
        (combined_bowling bowling_init) (combined_fielding fielding_init)
      = Ok "Batsman"
   /\ player_step [] ("A", test_batsman 5000 100)
      = ([] ++ [record_of "A" (test_batsman_vars 5000 100) bowling_init "Batsman"])%list)
  /\ (modest_player (test_batsman 5000 99)
      /\ exists b w f,
           merged_as (test_batsman 5000 99) b w f
           /\ (forall final_players,
                 player_step final_players ("A", test_batsman 5000 99) = final_players
                 <-> excluded_rule (num_val (total_matches_of b w))
                       (num_val (total_runs b)) (num_val (total_wickets w)))
           /\ (forall final_players,
                 ~ excluded_rule (num_val (total_matches_of b w))
                     (num_val (total_runs b)) (num_val (total_wickets w)) ->
                 exists role,
                   player_step final_players ("A", test_batsman 5000 99)
                   = (final_players ++ [record_of "A" b w role])%list))
  /\ (process_cricket_data [("A", test_batsman 5000 100)]
      = Ok [record_of "A" (test_batsman_vars 5000 100) bowling_init "Batsman"]
      /\ Permutation (collect_players [("A", test_batsman 5000 100)])
           [record_of "A" (test_batsman_vars 5000 100) bowling_init "Batsman"]).
Proof.
  split; [|split].
  - assert (merged_as (test_batsman 5000 100) (test_batsman_vars 5000 100)
                      bowling_init fielding_init) as Hm
      by (repeat split; vm_compute; reflexivity).
    assert (~ excluded_rule
              (num_val (total_matches_of (test_batsman_vars 5000 100) bowling_init))
              (num_val (total_runs (test_batsman_vars 5000 100)))
              (num_val (total_wickets bowling_init))) as Hin.
    { intros [Hlt|(Hz & _)]; [vm_compute in Hlt|vm_compute in Hz]; discriminate. }
    assert (determine_role (combined_batting (test_batsman_vars 5000 100))
              (combined_bowling bowling_init) (combined_fielding fielding_init)
            = Ok "Batsman") as Hrole by (vm_compute; reflexivity).
    split; [exact Hm|]. split; [exact Hin|]. split; [exact Hrole|].
    exact (proj1 (proj1 (proj2 (proj2 (proj2 inclusion_filter)))
                    "A" _ _ _ _ _ [] Hm Hin Hrole)).
  - assert (modest_player (test_batsman 5000 99)) as Hmod.
    { repeat split; intros []; vm_compute; reflexivity. }
    split; [exact Hmod|].
    exact (proj1 (proj2 (proj2 (proj2 (proj2 (proj2 (proj2 inclusion_filter))))))
             "A" _ Hmod).
  - assert (process_cricket_data [("A", test_batsman 5000 100)]
            = Ok [record_of "A" (test_batsman_vars 5000 100) bowling_init "Batsman"])
      as Hout by (vm_compute; reflexivity).
    split; [exact Hout|].
    exact (proj1 (proj2 (proj2 (proj2 (proj2 (proj2 inclusion_filter))))) _ _ Hout).
Defined.

(** Without the exceptions the rule of the filter does not decide: for a
    player with 150 Test matches whose runs are 10^400 the merging loops
    end and the rule does not hold (the total of matches is 150), and yet
    the player is left out, because [runs / 100] in [determine_role] raises
    [OverflowError] and the [except] goes on to the next player. *)
Lemma inclusion_filter_overflow :
  merged_as huge_runs huge_runs_vars bowling_init fielding_init
  /\ total_matches_of huge_runs_vars bowling_init = NInt 150
  /\ ~ excluded_rule (num_val (total_matches_of huge_runs_vars bowling_init))
         (num_val (total_runs huge_runs_vars)) (num_val (total_wickets bowling_init))
  /\ player_step [] ("A", huge_runs) = []
  /\ process_cricket_data [("A", huge_runs)] = Ok [].
Proof.
  split; [repeat split; vm_compute; reflexivity|].
  split; [vm_compute; reflexivity|].
  split; [|split; vm_compute; reflexivity].
  intros [Hlt|(Hz & _)]; [vm_compute in Hlt|vm_compute in Hz]; discriminate.
Qed.

(** ** The average of a record *)

(** C7: in the record of a player that is kept, the role is the one that
    [determine_role] returns and the average is the merged batting average
    when that is above 0; otherwise it is the merged bowling average when
    the role is "Bowler", and 0 when it is another role.  The records
    collected are such records, and so are those of the list returned. *)
Theorem average_field :
  (forall player_name data b w f player,
     for_loop (batting_body data) priority batting_init = Ok b ->
     for_loop (bowling_body data) priority bowling_init = Ok w ->
     for_loop (fielding_body data) priority fielding_init = Ok f ->
     player_body player_name data = Ok (Some player) ->
     determine_role (combined_batting b) (combined_bowling w) (combined_fielding f)
     = Ok (role player)
     /\ ((0 < num_val (batting_avg b))%Q -> average player = batting_avg b)
     /\ (~ (0 < num_val (batting_avg b))%Q -> role player = "Bowler" ->
         average player = bowling_avg w)
     /\ (~ (0 < num_val (batting_avg b))%Q -> role player <> "Bowler" ->
         average player = NInt 0))
  /\ (forall player_name data player,
        player_body player_name data = Ok (Some player) ->
        exists b w f,
          for_loop (batting_body data) priority batting_init = Ok b
          /\ for_loop (bowling_body data) priority bowling_init = Ok w
          /\ for_loop (fielding_body data) priority fielding_init = Ok f)
  /\ (forall players_data player,
        player ∈ collect_players players_data ->
        exists player_name data,
          (player_name, data) ∈ players_data
          /\ player_body player_name data = Ok (Some player))
  /\ (forall players_data out player,
        process_cricket_data players_data = Ok out ->
        player ∈ out ->
        exists player_name data,
          (player_name, data) ∈ players_data
          /\ player_body player_name data = Ok (Some player))
  /\ rmap (fmap (fun p => (role p, average p)))
       (process_cricket_data [("A", test_batsman 5000 150)])
     = Ok [("Batsman", NFloat (Qred 45.5))]
  /\ rmap (fmap (fun p => (role p, average p)))
       (process_cricket_data [("A", test_bowler)])
     = Ok [("Bowler", NFloat (Qred 25.5))]
  /\ rmap (fmap (fun p => (role p, average p)))
       (process_cricket_data [("A", test_no_average)])
     = Ok [("Batsman", NInt 0)].
Proof.
  split; [|split; [|split; [|split]]].
  - intros player_name data b w f player Hb Hw Hf Hbody.
    apply player_body_some in Hbody
      as (b' & w' & f' & r & Hb' & Hw' & Hf' & _ & Hrole & ->).
    assert (b' = b) as -> by congruence. assert (w' = w) as -> by congruence.
    assert (f' = f) as -> by congruence.
    unfold record_of. cbn [role average].
    split; [exact Hrole|].
    pose proof (num_gt_int (batting_avg b) 0 eq_refl) as Hgt0.
    change (inject_Z 0) with 0%Q in Hgt0.
    destruct (num_gt (batting_avg b) (NInt 0)) eqn:Hgt.
    + assert (0 < num_val (batting_avg b))%Q as Hpos by (apply Hgt0; reflexivity).
      split; [reflexivity|]. split; intros Hn; contradiction.
    + assert (~ (0 < num_val (batting_avg b))%Q) as Hn.
      { intros Hlt. apply Hgt0 in Hlt. discriminate. }
      split; [intros Hlt; contradiction|].
      split; intros _ Hr.
      * rewrite Hr. reflexivity.
      * apply String.eqb_neq in Hr. rewrite Hr. reflexivity.
  - intros player_name data player Hbody.
    apply player_body_some in Hbody as (b & w & f & r & Hb & Hw & Hf & _).
    exists b, w, f. tauto.
  - intros players_data player. apply collected_from_body.
  - exact output_from_body.
  - repeat split; vm_compute; reflexivity.
Qed.

Lemma average_field_witness :
  (for_loop (batting_body (test_batsman 5000 150)) priority batting_init
   = Ok (test_batsman_vars 5000 150)
   /\ for_loop (bowling_body (test_batsman 5000 150)) priority bowling_init
      = Ok bowling_init
   /\ for_loop (fielding_body (test_batsman 5000 150)) priority fielding_init
      = Ok fielding_init
   /\ player_body "A (AUS)" (test_batsman 5000 150) = Ok (Some test_batsman_record)
   /\ (0 < num_val (batting_avg (test_batsman_vars 5000 150)))%Q
   /\ average test_batsman_record = batting_avg (test_batsman_vars 5000 150))
  /\ (process_cricket_data [("A (AUS)", test_batsman 5000 150)]
      = Ok [test_batsman_record]
      /\ test_batsman_record ∈ [test_batsman_record]
      /\ exists player_name data,
           (player_name, data) ∈ [("A (AUS)", test_batsman 5000 150)]
           /\ player_body player_name data = Ok (Some test_batsman_record)).
Proof.
  assert (for_loop (batting_body (test_batsman 5000 150)) priority batting_init
          = Ok (test_batsman_vars 5000 150)) as Hb by (vm_compute; reflexivity).
  assert (for_loop (bowling_body (test_batsman 5000 150)) priority bowling_init
          = Ok bowling_init) as Hw by (vm_compute; reflexivity).
  assert (for_loop (fielding_body (test_batsman 5000 150)) priority fielding_init
          = Ok fielding_init) as Hf by (vm_compute; reflexivity).
  assert (player_body "A (AUS)" (test_batsman 5000 150)
          = Ok (Some test_batsman_record)) as Hbody by (vm_compute; reflexivity).
  assert (0 < num_val (batting_avg (test_batsman_vars 5000 150)))%Q as Hpos
    by (vm_compute; reflexivity).
  split.
  - split; [exact Hb|]. split; [exact Hw|]. split; [exact Hf|].
    split; [exact Hbody|]. split; [exact Hpos|].
    destruct (proj1 average_field "A (AUS)" _ _ _ _ _ Hb Hw Hf Hbody)
      as (_ & Havg & _).
    exact (Havg Hpos).
  - assert (process_cricket_data [("A (AUS)", test_batsman 5000 150)]
            = Ok [test_batsman_record]) as Hout by (vm_compute; reflexivity).
    assert (test_batsman_record ∈ [test_batsman_record]) as Hin
      by apply list_elem_of_here.
    split; [exact Hout|]. split; [exact Hin|].
    exact (proj1 (proj2 (proj2 (proj2 average_field))) _ _ _ Hout Hin).
Defined.

(** ** The order of the output *)

(** C8: the key of a record is [runs + wickets * 50] as Python computes it,
    exact on [int]s and rounded on floats.  Whenever a list is returned,
    every key was computed, the list is in decreasing order of the keys, it
    holds the collected records and no others, and the records whose keys
    are equal stand in the order in which they were collected; it is the
    only list in decreasing order of the keys that keeps the records of each
    key in that order.  A list is returned exactly when the key of every
    collected record is computed, which is so when no summed column holds an
    [int] of more than 300 digits; otherwise the sort raises
    [OverflowError] from the key of a record.  The keys 3.5 and 0.07 * 50
    differ, the second being rounded above 3.5; the keys 5000 and 5000.0
    are equal. *)
Theorem output_sorted_stable :
  (forall players_data out,
     process_cricket_data players_data = Ok out ->
     Forall (fun x => sort_key x = Ok (key_of x)) out
     /\ StronglySorted (fun x y => num_le (key_of y) (key_of x)) out
     /\ Permutation (collect_players players_data) out
     /\ (forall k : num,
           filter (fun x => num_eq (key_of x) k = true) out
           = filter (fun x => num_eq (key_of x) k = true)
                    (collect_players players_data))
     /\ (forall out',
           StronglySorted (fun x y => num_le (key_of y) (key_of x)) out' ->
           (forall k : num,
              filter (fun x => num_eq (key_of x) k = true) out'
              = filter (fun x => num_eq (key_of x) k = true)
                       (collect_players players_data)) ->
           out' = out))
  /\ (forall players_data,
        (exists out, process_cricket_data players_data = Ok out)
        <-> Forall (fun x => exists k, sort_key x = Ok k)
                   (collect_players players_data))
  /\ (forall players_data e,
        process_cricket_data players_data = Raise e ->
        e = OverflowError
        /\ exists x, x ∈ collect_players players_data
                     /\ sort_key x = Raise OverflowError)
  /\ (forall players_data,
        Forall (fun item => modest_player item.2) players_data ->
        exists out, process_cricket_data players_data = Ok out)
  /\ (forall x r w,
        runs x = NInt r -> wickets x = NInt w ->
        sort_key x = Ok (NInt (r + w * 50)))
  /\ name <$> collect_players five_players = ["A"; "B"; "C"; "D"; "E"]
  /\ rmap (fmap (fun x => (name x, key_of x))) (process_cricket_data five_players)
     = Ok [("D", NInt 7500); ("C", NInt 7000); ("A", NInt 5000); ("B", NInt 5000);
           ("E", NInt 5000)]
  /\ rmap (fmap (fun x => (name x, key_of x)))
       (process_cricket_data [("A", runs_only (CFloat "3.5"));
                              ("B", wickets_only (CFloat "0.07"))])
     = Ok [("B", NFloat (7881299347898369 # 2251799813685248));
           ("A", NFloat (7 # 2))]
  /\ rmap (fmap (fun x => (name x, key_of x)))
       (process_cricket_data [("A", runs_only (CInt 5000));
                              ("B", runs_only (CFloat "5000.0"))])
     = Ok [("A", NInt 5000); ("B", NFloat (5000 # 1))]
  /\ rmap (fmap (fun x => (name x, key_of x)))
       (process_cricket_data [("B", runs_only (CFloat "5000.0"));
                              ("A", runs_only (CInt 5000))])
     = Ok [("B", NFloat (5000 # 1)); ("A", NInt 5000)]
  /\ length (collect_players [("A", unsortable)]) = 1%nat
  /\ process_cricket_data [("A", unsortable)] = Raise OverflowError.
Proof.
  split; [|split; [|split; [|split; [|split]]]].
  - intros players_data out Hout.
    apply process_cricket_data_ok in Hout as [Hkeys ->].
    split; [|split; [|split; [|split]]].
    + eapply Permutation_Forall; [apply sort_reverse_perm|exact Hkeys].
    + apply (sort_reverse_sorted key_of).
    + apply sort_reverse_perm.
    + intros k. apply (sort_reverse_with_key key_of).
    + intros out' Hsorted Hstable.
      apply (sort_reverse_unique key_of); assumption.
  - intros players_data. split.
    + intros [out Hout]. apply process_cricket_data_ok in Hout as [Hkeys _].
      eapply Forall_impl; [exact Hkeys|]. intros x Hx. exists (key_of x). exact Hx.
    + intros Hkeys. exists (sort_reverse key_of (collect_players players_data)).
      apply process_cricket_data_ok. split; [|reflexivity].
      eapply Forall_impl; [exact Hkeys|]. intros x [k Hk].
      rewrite (key_of_ok x k Hk). exact Hk.
  - apply process_cricket_data_raises.
  - apply process_cricket_data_modest.
  - apply sort_key_int.
  - repeat split; vm_compute; reflexivity.
Qed.

Lemma output_sorted_stable_witness :
  exists out,
    process_cricket_data five_players = Ok out
    /\ name <$> out = ["D"; "C"; "A"; "B"; "E"]
    /\ Forall (fun x => sort_key x = Ok (key_of x)) out
    /\ StronglySorted (fun x y => num_le (key_of y) (key_of x)) out
    /\ Permutation (collect_players five_players) out
    /\ (forall k : num,
          filter (fun x => num_eq (key_of x) k = true) out
          = filter (fun x => num_eq (key_of x) k = true)
                   (collect_players five_players))
    /\ (forall out',
          StronglySorted (fun x y => num_le (key_of y) (key_of x)) out' ->
          (forall k : num,
             filter (fun x => num_eq (key_of x) k = true) out'
             = filter (fun x => num_eq (key_of x) k = true)
                      (collect_players five_players)) ->
          out' = out).
Proof.
  destruct (process_cricket_data five_players) as [out|e] eqn:Hout;
    [|vm_compute in Hout; discriminate].
  exists out. split; [reflexivity|]. split.
  - vm_compute in Hout. injection Hout as <-. reflexivity.
  - exact (proj1 output_sorted_stable five_players out Hout).
Defined.

(** ** What the merging loops compute *)

(** C2, where the code departs from it.  When the merging loops end, the
    averages are merged as the claim says: the merged batting (bowling)
    average is the first cleaned average, in the order Test, ODI, T20 of the
    rows present, that is not zero, and the totals of runs, matches and
    wickets are Python's sums of the cleaned values over the rows present.
    The loops end when no summed column holds an [int] of more than 300
    digits.  The span is not merged as the claim says: the loop keeps the
    first "Span" value that Python takes for true, and the NaN of an empty
    cell is true.  For a player whose Test row has an empty span and whose
    ODI row has the span "2000-2015" the merged span is that NaN and the era
    is "Unknown"; when the Test row has no "Span" entry the ODI span is
    taken and the era is "Modern". *)
Theorem merge_priority :
  (forall data b w,
     for_loop (batting_body data) priority batting_init = Ok b ->
     for_loop (bowling_body data) priority bowling_init = Ok w ->
     match first_nonzero ((fun r => cleaned r "Ave")
                            <$> rows_present (batting data) priority) with
     | Some n => batting_avg b = n
     | None => num_truthy (batting_avg b) = false
     end
     /\ match first_nonzero ((fun r => cleaned r "Ave")
                               <$> rows_present (bowling data) priority) with
        | Some n => bowling_avg w = n
        | None => num_truthy (bowling_avg w) = false
        end
     /\ num_sum ((fun r => cleaned r "Runs") <$> rows_present (batting data) priority)
        = Ok (total_runs b)
     /\ num_sum ((fun r => cleaned r "Mat") <$> rows_present (batting data) priority)
        = Ok (total_matches_batting b)
     /\ num_sum ((fun r => cleaned r "Wkts") <$> rows_present (bowling data) priority)
        = Ok (total_wickets w)
     /\ num_sum ((fun r => cleaned r "Mat") <$> rows_present (bowling data) priority)
        = Ok (total_matches_bowling w)
     /\ span b
        = default (CStr "")
            (head (filter (fun v => cell_truthy v = true)
                     ((fun r => row_get r "Span" CNone)
                        <$> rows_present (batting data) priority))))
  /\ (forall data,
        modest (batting data) "Runs" -> modest (batting data) "Mat" ->
        modest (bowling data) "Wkts" -> modest (bowling data) "Mat" ->
        exists b w,
          for_loop (batting_body data) priority batting_init = Ok b
          /\ for_loop (bowling_body data) priority bowling_init = Ok w)
  /\ for_loop (batting_body empty_test_span) priority batting_init
     = Ok {| total_runs := NInt 8000; total_matches_batting := NInt 250;
             batting_avg := NFloat (Qred 40.5); span := CFloat "nan" |}
  /\ rmap (fmap era) (process_cricket_data [("A", empty_test_span)]) = Ok ["Unknown"]
  /\ for_loop (batting_body no_test_span) priority batting_init
     = Ok {| total_runs := NInt 8000; total_matches_batting := NInt 250;
             batting_avg := NFloat (Qred 40.5); span := CStr "2000-2015" |}
  /\ rmap (fmap era) (process_cricket_data [("A", no_test_span)]) = Ok ["Modern"].
Proof.
  split; [|split].
  - intros data b w Hb Hw.
    split; [apply merged_batting_average, Hb|].
    split; [apply merged_bowling_average, Hw|].
    split; [apply merged_runs, Hb|]. split; [apply merged_batting_matches, Hb|].
    split; [apply merged_wickets, Hw|]. split; [apply merged_bowling_matches, Hw|].
    apply merged_span, Hb.
  - intros data H1 H2 H3 H4.
    destruct (batting_loop_ok data H1 H2) as [b Hb].
    destruct (bowling_loop_ok data H3 H4) as [w Hw].
    exists b, w. split; assumption.
  - repeat split; vm_compute; reflexivity.
Qed.

Lemma merge_priority_witness :
  (for_loop (batting_body empty_test_span) priority batting_init
   = Ok {| total_runs := NInt 8000; total_matches_batting := NInt 250;
           batting_avg := NFloat (Qred 40.5); span := CFloat "nan" |}
   /\ for_loop (bowling_body empty_test_span) priority bowling_init = Ok bowling_init
   /\ first_nonzero ((fun r => cleaned r "Ave")
                       <$> rows_present (batting empty_test_span) priority)
      = Some (NFloat (Qred 40.5))
   /\ num_sum ((fun r => cleaned r "Runs")
                 <$> rows_present (batting empty_test_span) priority)
      = Ok (NInt 8000)
   /\ head (filter (fun v => cell_truthy v = true)
              ((fun r => row_get r "Span" CNone)
                 <$> rows_present (batting empty_test_span) priority))
      = Some (CFloat "nan"))
  /\ (modest (batting empty_test_span) "Runs"
      /\ modest (batting empty_test_span) "Mat"
      /\ modest (bowling empty_test_span) "Wkts"
      /\ modest (bowling empty_test_span) "Mat"
      /\ exists b w,
           for_loop (batting_body empty_test_span) priority batting_init = Ok b
           /\ for_loop (bowling_body empty_test_span) priority bowling_init = Ok w).
Proof.
  split.
  - assert (for_loop (batting_body empty_test_span) priority batting_init
            = Ok {| total_runs := NInt 8000; total_matches_batting := NInt 250;
                    batting_avg := NFloat (Qred 40.5); span := CFloat "nan" |})
      as Hb by (vm_compute; reflexivity).
    assert (for_loop (bowling_body empty_test_span) priority bowling_init
            = Ok bowling_init) as Hw by (vm_compute; reflexivity).
    split; [exact Hb|]. split; [exact Hw|].
    destruct (proj1 merge_priority empty_test_span _ _ Hb Hw)
      as (_ & _ & Hruns & _).
    split; [vm_compute; reflexivity|]. split; [exact Hruns|].
    vm_compute. reflexivity.
  - assert (modest (batting empty_test_span) "Runs") as H1
      by (intros []; vm_compute; reflexivity).
    assert (modest (batting empty_test_span) "Mat") as H2
      by (intros []; vm_compute; reflexivity).
    assert (modest (bowling empty_test_span) "Wkts") as H3
      by (intros []; vm_compute; reflexivity).
    assert (modest (bowling empty_test_span) "Mat") as H4
      by (intros []; vm_compute; reflexivity).
    split; [exact H1|]. split; [exact H2|]. split; [exact H3|]. split; [exact H4|].
    exact (proj1 (proj2 merge_priority) empty_test_span H1 H2 H3 H4).
Defined.
(** ** Loading the rows *)

Lemma at_set_row (d : player_data) (cat cat' : category) (fmt fmt' : format)
    (row : gmap string cell) :
  at_format (at_category (set_row d cat fmt row) cat') fmt' =
  if decide (cat = cat' /\ fmt = fmt') then row
  else at_format (at_category d cat') fmt'.
Proof.
  destruct (decide (cat = cat' /\ fmt = fmt')) as [[<- <-]|Hne].
  - destruct cat, fmt; reflexivity.
  - destruct cat, cat', fmt, fmt'; try reflexivity; exfalso; apply Hne; split; reflexivity.
Qed.

Lemma stored_store_row (players_data : list (string * player_data))
    (n n' : string) (cat cat' : category) (fmt fmt' : format)
    (row : gmap string cell) :
  stored_row (store_row players_data n cat fmt row) n' cat' fmt' =
  if decide (n = n' /\ cat = cat' /\ fmt = fmt') then row
  else stored_row players_data n' cat' fmt'.
Proof.
  unfold stored_row.
  induction players_data as [|[m d] rest IH]; simpl.
  - destruct (String.eqb_spec n n') as [<-|Hn].
    + rewrite at_set_row.
      destruct (decide (cat = cat' /\ fmt = fmt')) as [Hc|Hc].
      * rewrite decide_True by tauto. reflexivity.
      * rewrite decide_False by tauto. destruct cat', fmt'; reflexivity.
    + rewrite decide_False by tauto. reflexivity.
  - destruct (String.eqb_spec m n) as [->|Hm]; simpl.
    + destruct (String.eqb_spec n n') as [<-|Hn].
      * rewrite at_set_row.
        destruct (decide (cat = cat' /\ fmt = fmt')) as [Hc|Hc].
        -- rewrite decide_True by tauto. reflexivity.
        -- rewrite decide_False by tauto. reflexivity.
      * rewrite decide_False by tauto. reflexivity.
    + destruct (String.eqb_spec m n') as [->|Hm'].
      * rewrite decide_False by (intros [? _]; congruence). reflexivity.
      * exact IH.
Qed.

Lemma default_last_cons {A} (a x : A) (l : list A) :
  default a (last (x :: l)) = default x (last l).
Proof. rewrite last_cons. destruct (last l); reflexivity. Qed.

(** After the rows of a file, the row held under its category and format
    for a name that is kept is the last row of the file with that name;
    every other row held is as before. *)
Lemma stored_load_file (cat cat' : category) (fmt fmt' : format)
    (rows : list (gmap string cell)) (players_data : list (string * player_data))
    (n : string) :
  stored_row (fold_left (load_row cat fmt) rows players_data) n cat' fmt' =
  if decide (cat = cat' /\ fmt = fmt' /\ name_kept n = true)
  then default (stored_row players_data n cat' fmt') (last (rows_named n rows))
  else stored_row players_data n cat' fmt'.
Proof.
  revert players_data. unfold rows_named.
  induction rows as [|x rows IH]; intros pd; simpl.
  - destruct (decide _); reflexivity.
  - rewrite IH, filter_cons. unfold load_row.
    destruct (name_kept (row_player x)) eqn:Hkept.
    + rewrite stored_store_row.
      destruct (decide (cat = cat' /\ fmt = fmt' /\ name_kept n = true))
        as [(-> & -> & Hn)|Hne].
      * destruct (decide (row_player x = n)) as [Hx|Hx].
        -- rewrite decide_True by tauto. rewrite default_last_cons. reflexivity.
        -- rewrite decide_False by tauto. reflexivity.
      * destruct (decide (row_player x = n /\ cat = cat' /\ fmt = fmt'))
          as [(Hx & -> & ->)|Hne']; [|reflexivity].
        exfalso. apply Hne. rewrite <- Hx. tauto.
    + destruct (decide (cat = cat' /\ fmt = fmt' /\ name_kept n = true))
        as [(-> & -> & Hn)|Hne]; [|reflexivity].
      rewrite decide_False by congruence. reflexivity.
Qed.

Section Loading.

Variable files : category -> format -> option (list (gmap string cell)).

Lemma load_players_sources :
  load_players files = fold_left (load_source files) sources [].
Proof. reflexivity. Qed.

Lemma stored_load_source (players_data : list (string * player_data))
    (src : category * format) (n : string) (cat : category) (fmt : format) :
  stored_row (load_source files players_data src) n cat fmt =
  if decide (src = (cat, fmt) /\ name_kept n = true)
  then match files cat fmt with
       | Some rows => default (stored_row players_data n cat fmt)
                              (last (rows_named n rows))
       | None => stored_row players_data n cat fmt
       end
  else stored_row players_data n cat fmt.
Proof.
  destruct src as [c f]. unfold load_source, load_file. simpl.
  destruct (decide ((c, f) = (cat, fmt) /\ name_kept n = true)) as [[[= -> ->] Hn]|Hne].
  - destruct (files cat fmt) as [rows|]; [|reflexivity].
    rewrite stored_load_file, decide_True by tauto. reflexivity.
  - destruct (files c f) as [rows|]; [|reflexivity].
    rewrite stored_load_file, decide_False; [reflexivity|].
    intros (-> & -> & Hn). apply Hne. tauto.
Qed.

Lemma stored_load_sources (srcs : list (category * format))
    (players_data : list (string * player_data)) (n : string)
    (cat : category) (fmt : format) :
  NoDup srcs ->
  stored_row (fold_left (load_source files) srcs players_data) n cat fmt =
  if decide ((cat, fmt) ∈ srcs /\ name_kept n = true)
  then match files cat fmt with
       | Some rows => default (stored_row players_data n cat fmt)
                              (last (rows_named n rows))
       | None => stored_row players_data n cat fmt
       end
  else stored_row players_data n cat fmt.
Proof.
  revert players_data.
  induction srcs as [|src srcs IH]; intros pd Hnd; cbn [fold_left].
  - destruct (decide ((cat, fmt) ∈ [] /\ name_kept n = true)) as [[H _]|_];
      [inversion H|reflexivity].
  - apply NoDup_cons in Hnd as [Hnotin Hnd]. rewrite (IH _ Hnd).
    rewrite stored_load_source.
    destruct (decide (src = (cat, fmt) /\ name_kept n = true)) as [[-> Hn]|Hne].
    + rewrite decide_False by tauto.
      rewrite decide_True by (split; [apply list_elem_of_here|exact Hn]).
      reflexivity.
    + destruct (decide ((cat, fmt) ∈ srcs /\ name_kept n = true)) as [[Hin Hn]|Hne'].
      * rewrite decide_True by (split; [apply list_elem_of_further, Hin|exact Hn]).
        reflexivity.
      * rewrite decide_False; [reflexivity|].
        intros [Hin Hn]. apply elem_of_cons in Hin as [Heq|Hin]; [|tauto].
        apply Hne. split; [congruence|exact Hn].
Qed.

(** What is held after the loading: for a name that is kept, the last row
    with that name of the file of that category and format; nothing for a
    missing file, for a name without a row and for a name that is not
    kept. *)
Lemma stored_load_players (n : string) (cat : category) (fmt : format) :
  stored_row (load_players files) n cat fmt =
  if name_kept n
  then match files cat fmt with
       | Some rows => default ∅ (last (rows_named n rows))
       | None => ∅
       end
  else ∅.
Proof.
  rewrite load_players_sources, stored_load_sources.
  2:{ compute_done. }
  destruct (name_kept n).
  - rewrite decide_True; [reflexivity|].
    split; [|reflexivity]. destruct cat, fmt; compute_done.
  - rewrite decide_False by (intros [_ ?]; discriminate). reflexivity.
Qed.

End Loading.

(** *** The names of the players, in the order of the dictionary *)

Lemma store_row_names (players_data : list (string * player_data)) (n : string)
    (cat : category) (fmt : format) (row : gmap string cell) :
  (store_row players_data n cat fmt row).*1 = add_name players_data.*1 n.
Proof.
  unfold add_name.
  induction players_data as [|[m d] rest IH]; [reflexivity|].
  cbn [store_row]. destruct (String.eqb_spec m n) as [->|Hm]; rewrite !fmap_cons; cbn [fst].
  - rewrite bool_decide_true by apply list_elem_of_here. reflexivity.
  - rewrite IH. destruct (decide (n ∈ rest.*1)) as [Hin|Hout].
    + rewrite !bool_decide_true; [reflexivity| |exact Hin].
      apply list_elem_of_further, Hin.
    + rewrite !bool_decide_false; [reflexivity| |exact Hout].
      intros [Heq|Hin]%elem_of_cons; [congruence|tauto].
Qed.

Lemma load_file_names (cat : category) (fmt : format)
    (file : option (list (gmap string cell)))
    (players_data : list (string * player_data)) :
  (load_file cat fmt players_data file).*1
  = fold_left add_name (kept_names file) players_data.*1.
Proof.
  destruct file as [rows|]; [|reflexivity]. simpl.
  revert players_data. induction rows as [|x rows IH]; intros pd; [reflexivity|].
  cbn [fold_left]. rewrite IH, fmap_cons, filter_cons. unfold load_row.
  destruct (name_kept (row_player x)) eqn:Hk.
  - rewrite decide_True by reflexivity. cbn [fold_left].
    rewrite store_row_names. reflexivity.
  - rewrite decide_False by discriminate. reflexivity.
Qed.

Lemma load_sources_names (files : category -> format -> option (list (gmap string cell)))
    (srcs : list (category * format)) (players_data : list (string * player_data)) :
  (fold_left (load_source files) srcs players_data).*1
  = fold_left add_name
      (concat ((fun src => kept_names (files src.1 src.2)) <$> srcs))
      players_data.*1.
Proof.
  revert players_data. induction srcs as [|src srcs IH]; intros pd; [reflexivity|].
  cbn [fold_left]. rewrite IH, fmap_cons. cbn [concat].
  rewrite fold_left_app. unfold load_source at 1. rewrite load_file_names.
  reflexivity.
Qed.

Lemma add_name_NoDup (names : list string) (n : string) :
  NoDup names -> NoDup (add_name names n).
Proof.
  intros Hnd. unfold add_name. case_bool_decide as Hin; [exact Hnd|].
  apply NoDup_app. split; [exact Hnd|]. split.
  - intros x Hx [->|H]%elem_of_cons; [tauto|inversion H].
  - apply NoDup_singleton.
Qed.

Lemma add_name_elem (names : list string) (n x : string) :
  x ∈ add_name names n <-> x ∈ names \/ x = n.
Proof.
  unfold add_name. case_bool_decide as Hin.
  - split; [tauto|]. intros [H| ->]; assumption.
  - rewrite elem_of_app, list_elem_of_singleton. reflexivity.
Qed.

Lemma fold_add_name_NoDup (l names : list string) :
  NoDup names -> NoDup (fold_left add_name l names).
Proof.
  revert names. induction l as [|n l IH]; intros names Hnd; [exact Hnd|].
  apply IH, add_name_NoDup, Hnd.
Qed.

Lemma fold_add_name_elem (l names : list string) (x : string) :
  x ∈ fold_left add_name l names <-> x ∈ names \/ x ∈ l.
Proof.
  revert names. induction l as [|n l IH]; intros names; cbn [fold_left].
  - split; [tauto|]. intros [H|H]; [exact H|inversion H].
  - rewrite IH, add_name_elem, elem_of_cons. tauto.
Qed.

Lemma lookup_player_names (players_data : list (string * player_data)) (n : string) :
  lookup_player players_data n = None <-> n ∉ players_data.*1.
Proof.
  induction players_data as [|[m d] rest IH]; simpl.
  - split; [intros _ H; inversion H|reflexivity].
  - destruct (String.eqb_spec m n) as [->|Hm].
    + split; [discriminate|]. intros H. exfalso. apply H, list_elem_of_here.
    + rewrite IH, elem_of_cons.
      split; [intros H [Heq|Hin]; [simpl in Heq; congruence|tauto]|tauto].
Qed.

Lemma lookup_player_elem (players_data : list (string * player_data)) (n : string)
    (d : player_data) :
  NoDup players_data.*1 -> (n, d) ∈ players_data ->
  lookup_player players_data n = Some d.
Proof.
  induction players_data as [|[m e] rest IH]; simpl; intros Hnd Hin.
  - inversion Hin.
  - apply NoDup_cons in Hnd as [Hm Hnd].
    apply elem_of_cons in Hin as [[= -> ->]|Hin].
    + rewrite String.eqb_refl. reflexivity.
    + destruct (String.eqb_spec m n) as [->|Hne]; [|apply IH; assumption].
      exfalso. apply Hm. apply list_elem_of_fmap. exists (n, d). split; [reflexivity|exact Hin].
Qed.

(** *** Stripping *)

Lemma rstrip_idem (s : string) : Str.rstrip (Str.rstrip s) = Str.rstrip s.
Proof.
  induction s as [|c s IH]; simpl; [reflexivity|].
  destruct (Str.rstrip s) as [|d r] eqn:Hr.
  - destruct (Str.is_space c) eqn:Hc; simpl; [reflexivity|]. rewrite Hc. reflexivity.
  - simpl. simpl in IH. rewrite IH. reflexivity.
Qed.

(** Stripping a stripped string changes nothing. *)
Lemma strip_idem (s : string) : Str.strip (Str.strip s) = Str.strip s.
Proof.
  unfold Str.strip.
  rewrite (head_kept_lstrip (Str.rstrip (Str.lstrip s))).
  - apply rstrip_idem.
  - apply rstrip_head_kept, lstrip_head_kept.
Qed.

Lemma contains_char_lstrip (c : ascii) (s : string) :
  Str.contains_char c s = false -> Str.contains_char c (Str.lstrip s) = false.
Proof.
  unfold Str.contains_char.
  induction s as [|x s IH]; simpl; [reflexivity|].
  intros [Hx Hs]%orb_false_elim.
  destruct (Str.is_space x); [apply IH, Hs|]. simpl. rewrite Hx, Hs. reflexivity.
Qed.

Lemma contains_char_rstrip (c : ascii) (s : string) :
  Str.contains_char c s = false -> Str.contains_char c (Str.rstrip s) = false.
Proof.
  unfold Str.contains_char.
  induction s as [|x s IH]; simpl; [reflexivity|].
  intros [Hx Hs]%orb_false_elim. specialize (IH Hs).
  destruct (Str.rstrip s) as [|d r].
  - destruct (Str.is_space x); simpl; [reflexivity|]. rewrite Hx. reflexivity.
  - cbn [Str.existsb]. rewrite Hx. exact IH.
Qed.

Lemma contains_char_strip (c : ascii) (s : string) :
  Str.contains_char c s = false -> Str.contains_char c (Str.strip s) = false.
Proof. intros H. apply contains_char_rstrip, contains_char_lstrip, H. Qed.

(** The first piece of a split does not hold the separator. *)
Lemma first_piece_clean (c : ascii) (s : string) :
  Str.contains_char c (nth_piece 0 (Str.split c s)) = false.
Proof.
  unfold Str.contains_char.
  induction s as [|x s IH]; simpl; [reflexivity|].
  destruct (Ascii.eqb x c) eqn:Hx; [reflexivity|].
  destruct (Str.split c s) as [|p ps]; simpl.
  - rewrite Ascii.eqb_sym, Hx. reflexivity.
  - rewrite Ascii.eqb_sym, Hx. exact IH.
Qed.

Lemma clean_name_no_paren (player_name : string) :
  Str.contains_char "(" (clean_name_of player_name) = false.
Proof.
  unfold clean_name_of.
  destruct (Str.contains_char "(" player_name) eqn:Hc; [|exact Hc].
  apply contains_char_strip, first_piece_clean.
Qed.

Lemma clean_name_stripped (player_name : string) :
  Str.strip player_name = player_name ->
  Str.strip (clean_name_of player_name) = clean_name_of player_name.
Proof.
  intros Hs. unfold clean_name_of.
  destruct (Str.contains_char "(" player_name); [apply strip_idem|exact Hs].
Qed.

(** X15: the display name is what stands before the first opening
    parenthesis, stripped, and the name itself when it has no opening
    parenthesis; it holds no opening parenthesis, and it is stripped
    whenever the name is. *)
Theorem clean_name_shape :
  (forall pre rest,
     Str.contains_char "(" pre = false ->
     clean_name_of (pre ++ String "(" rest) = Str.strip pre)
  /\ (forall player_name,
        Str.contains_char "(" player_name = false ->
        clean_name_of player_name = player_name)
  /\ (forall player_name,
        Str.contains_char "(" (clean_name_of player_name) = false)
  /\ (forall player_name,
        Str.strip player_name = player_name ->
        Str.strip (clean_name_of player_name) = clean_name_of player_name).
Proof.
  split; [|split; [|split]].
  - intros pre rest Hpre. unfold clean_name_of.
    rewrite contains_char_app, contains_char_cons, Ascii.eqb_refl, orb_true_r.
    rewrite (split_app "(" pre rest Hpre). reflexivity.
  - intros player_name Hno. unfold clean_name_of. rewrite Hno. reflexivity.
  - exact clean_name_no_paren.
  - exact clean_name_stripped.
Qed.

Lemma clean_name_shape_witness :
  (Str.contains_char "(" "V Kohli " = false
   /\ clean_name_of ("V Kohli " ++ String "(" "INDIA)") = Str.strip "V Kohli ")
  /\ (Str.contains_char "(" "V Kohli" = false
      /\ clean_name_of "V Kohli" = "V Kohli")
  /\ (Str.strip "V Kohli (INDIA)" = "V Kohli (INDIA)"
      /\ Str.strip (clean_name_of "V Kohli (INDIA)")
         = clean_name_of "V Kohli (INDIA)").
Proof.
  destruct clean_name_shape as (H1 & H2 & _ & H4).
  split; [|split].
  - split; [reflexivity|]. exact (H1 "V Kohli " "INDIA)" eq_refl).
  - split; [reflexivity|]. exact (H2 "V Kohli" eq_refl).
  - split; [reflexivity|]. exact (H4 "V Kohli (INDIA)" eq_refl).
Defined.

Lemma elem_of_concat {A} (x : A) (ls : list (list A)) :
  x ∈ concat ls <-> exists l, l ∈ ls /\ x ∈ l.
Proof.
  induction ls as [|l0 ls IH]; cbn [concat].
  - split; [intros H; inversion H|intros (l & H & _); inversion H].
  - rewrite elem_of_app, IH. split.
    + intros [H|(l & Hl & Hx)].
      * exists l0. split; [apply list_elem_of_here|exact H].
      * exists l. split; [apply list_elem_of_further, Hl|exact Hx].
    + intros (l & [->|Hl]%elem_of_cons & Hx); [left; exact Hx|].
      right. exists l. tauto.
Qed.

Lemma row_player_empty : row_player ∅ = "".
Proof. reflexivity. Qed.

Section Loaded.

Variable files : category -> format -> option (list (gmap string cell)).

Lemma loaded_names : (load_players files).*1 = first_seen (scanned_names files).
Proof. rewrite load_players_sources. apply load_sources_names. Qed.

Lemma loaded_NoDup : NoDup (load_players files).*1.
Proof. rewrite loaded_names. apply fold_add_name_NoDup, NoDup_nil. constructor. Qed.

Lemma loaded_name_elem (n : string) :
  n ∈ (load_players files).*1 <->
  name_kept n = true
  /\ exists cat fmt rows r,
       files cat fmt = Some rows /\ r ∈ rows /\ row_player r = n.
Proof.
  rewrite loaded_names. unfold first_seen, scanned_names.
  rewrite fold_add_name_elem, elem_of_concat. split.
  - intros [H|(l & Hl & Hn)]; [inversion H|].
    apply list_elem_of_fmap in Hl as ([cat fmt] & -> & _). simpl in Hn.
    destruct (files cat fmt) as [rows|] eqn:Hf; simpl in Hn; [|inversion Hn].
    apply list_elem_of_filter in Hn as [Hk Hn].
    apply list_elem_of_fmap in Hn as (r & -> & Hr).
    split; [exact Hk|]. exists cat, fmt, rows, r. tauto.
  - intros (Hk & cat & fmt & rows & r & Hf & Hr & <-). right.
    exists (kept_names (files cat fmt)). split.
    + apply (list_elem_of_fmap_2' _ _ (cat, fmt)); [|reflexivity].
      destruct cat, fmt; compute_done.
    + rewrite Hf. simpl. apply list_elem_of_filter. split; [exact Hk|].
      apply list_elem_of_fmap_2, Hr.
Qed.

Lemma loaded_row (n : string) (d : player_data) (cat : category) (fmt : format) :
  (n, d) ∈ load_players files ->
  at_format (at_category d cat) fmt =
  match files cat fmt with
  | Some rows => default ∅ (last (rows_named n rows))
  | None => ∅
  end.
Proof.
  intros Hin.
  assert (name_kept n = true) as Hk.
  { apply loaded_name_elem. apply list_elem_of_fmap. exists (n, d). tauto. }
  pose proof (stored_load_players files n cat fmt) as Hs.
  unfold stored_row in Hs.
  rewrite (lookup_player_elem _ n d loaded_NoDup Hin), Hk in Hs. exact Hs.
Qed.

End Loaded.

(** *** Sample files *)

Lemma sample_loaded :
  load_players sample_files = [("A (AUS)", sample_player_A); ("B", sample_player_B)].
Proof. vm_compute. reflexivity. Qed.

(** X1: after the loading, the row held for a name, a category and a
    format is the last row of that file whose "Player" text, stripped, is
    the name; nothing is held for a missing or unreadable file, for a name
    that no row of the file carries, and for the names "" and "nan".  So
    a later row of a file takes the place of an earlier row with the same
    name. *)
Theorem load_last_row_wins :
  (forall files n cat fmt,
     stored_row (load_players files) n cat fmt =
     if name_kept n
     then match files cat fmt with
          | Some rows => default ∅ (last (rows_named n rows))
          | None => ∅
          end
     else ∅)
  /\ (forall files cat fmt rows r,
        files cat fmt = Some (rows ++ [r])%list ->
        name_kept (row_player r) = true ->
        stored_row (load_players files) (row_player r) cat fmt = r).
Proof.
  split; [exact stored_load_players|].
  intros files cat fmt rows r Hf Hk.
  rewrite stored_load_players, Hk, Hf. unfold rows_named.
  rewrite filter_app, filter_cons, decide_True by reflexivity.
  rewrite filter_nil, last_snoc. reflexivity.
Qed.

Lemma load_last_row_wins_witness :
  sample_files Batting Test
  = Some ([ {[ "Player" := CStr " A (AUS)"; "Runs" := CInt 100; "Mat" := CInt 3 ]};
            {[ "Player" := CFloat "nan"; "Runs" := CInt 7 ]};
            {[ "Player" := CStr "B"; "Runs" := CInt 900; "Mat" := CInt 120 ]} ]
          ++ [ {[ "Player" := CStr "A (AUS) "; "Runs" := CInt 5000;
                  "Mat" := CInt 150 ]} ])%list
  /\ name_kept (row_player {[ "Player" := CStr "A (AUS) "; "Runs" := CInt 5000;
                              "Mat" := CInt 150 ]}) = true
  /\ stored_row (load_players sample_files)
       (row_player {[ "Player" := CStr "A (AUS) "; "Runs" := CInt 5000;
                      "Mat" := CInt 150 ]}) Batting Test
     = {[ "Player" := CStr "A (AUS) "; "Runs" := CInt 5000; "Mat" := CInt 150 ]}.
Proof.
  split; [reflexivity|]. split; [reflexivity|].
  exact (proj2 load_last_row_wins sample_files Batting Test
           [ {[ "Player" := CStr " A (AUS)"; "Runs" := CInt 100; "Mat" := CInt 3 ]};
             {[ "Player" := CFloat "nan"; "Runs" := CInt 7 ]};
             {[ "Player" := CStr "B"; "Runs" := CInt 900; "Mat" := CInt 120 ]} ]
           {[ "Player" := CStr "A (AUS) "; "Runs" := CInt 5000; "Mat" := CInt 150 ]}
           eq_refl eq_refl).
Defined.

(** X2: every player of the loaded dictionary has a name that is not
    empty, is not "nan" and is stripped, and has at least one row; every
    row held for the player is a row of the file of its category and
    format, and its "Player" text, stripped, is the name of the player. *)
Theorem loaded_players_rows (files : category -> format -> option (list (gmap string cell)))
    (n : string) (d : player_data) :
  (n, d) ∈ load_players files ->
  name_kept n = true
  /\ Str.strip n = n
  /\ (exists cat fmt, row_truthy (at_format (at_category d cat) fmt) = true)
  /\ (forall cat fmt,
        row_truthy (at_format (at_category d cat) fmt) = true ->
        row_player (at_format (at_category d cat) fmt) = n
        /\ exists rows, files cat fmt = Some rows
                        /\ at_format (at_category d cat) fmt ∈ rows).
Proof.
  intros Hin.
  assert (n ∈ (load_players files).*1) as Hn.
  { apply list_elem_of_fmap. exists (n, d). tauto. }
  apply loaded_name_elem in Hn as (Hk & cat & fmt & rows & r & Hf & Hr & Hrn).
  assert (forall x : gmap string cell, row_player x = n -> row_truthy x = true) as Hne.
  { intros x Hx. unfold row_truthy. rewrite bool_decide_false; [reflexivity|].
    intros ->. rewrite row_player_empty in Hx. rewrite <- Hx in Hk.
    vm_compute in Hk. discriminate. }
  split; [exact Hk|]. split; [subst n; apply strip_idem|]. split.
  - exists cat, fmt. rewrite (loaded_row files n d cat fmt Hin), Hf.
    destruct (last (rows_named n rows)) as [x|] eqn:Hlast.
    + apply last_Some_elem_of in Hlast. unfold rows_named in Hlast.
      apply list_elem_of_filter in Hlast as [Hx _]. apply Hne, Hx.
    + exfalso. apply last_None in Hlast.
      assert (r ∈ rows_named n rows) as Hr'
        by (apply list_elem_of_filter; tauto).
      rewrite Hlast in Hr'. inversion Hr'.
  - intros c f Ht. rewrite (loaded_row files n d c f Hin) in Ht |- *.
    destruct (files c f) as [rs|]; [|discriminate].
    destruct (last (rows_named n rs)) as [x|] eqn:Hlast; [|discriminate]. simpl.
    apply last_Some_elem_of in Hlast. unfold rows_named in Hlast.
    apply list_elem_of_filter in Hlast as [Hx Hxin].
    split; [exact Hx|]. exists rs. tauto.
Qed.

Lemma loaded_players_rows_witness :
  ("A (AUS)", sample_player_A) ∈ load_players sample_files
  /\ name_kept "A (AUS)" = true
  /\ exists cat fmt,
       row_truthy (at_format (at_category sample_player_A cat) fmt) = true.
Proof.
  assert (("A (AUS)", sample_player_A) ∈ load_players sample_files) as Hin.
  { rewrite sample_loaded. apply list_elem_of_here. }
  split; [exact Hin|].
  destruct (loaded_players_rows sample_files _ _ Hin) as (Hk & _ & Hrow & _).
  split; [exact Hk|exact Hrow].
Defined.

(** X3: the names of the loaded dictionary are the kept names of the rows,
    each once, in the order in which the rows are read -- batting, bowling,
    fielding, and ODI, T20, Test within each -- at the place where the name
    comes first. *)
Theorem loaded_names_order (files : category -> format -> option (list (gmap string cell))) :
  (load_players files).*1 = first_seen (scanned_names files)
  /\ NoDup (load_players files).*1
  /\ (forall n, n ∈ (load_players files).*1 <->
        name_kept n = true
        /\ exists cat fmt rows r,
             files cat fmt = Some rows /\ r ∈ rows /\ row_player r = n).
Proof.
  split; [apply loaded_names|]. split; [apply loaded_NoDup|].
  apply loaded_name_elem.
Qed.

(** ** More on [clean_numeric_value] *)

Lemma filter_app (p : ascii -> bool) (s t : string) :
  Str.filter p (s ++ t) = Str.filter p s ++ Str.filter p t.
Proof.
  induction s as [|c s IH]; [reflexivity|].
  change (String c s ++ t) with (String c (s ++ t)). cbn [Str.filter].
  rewrite IH. destruct (p c); reflexivity.
Qed.

Lemma filter_all (p : ascii -> bool) (s : string) :
  Str.forallb p s = true -> Str.filter p s = s.
Proof.
  induction s as [|c s IH]; simpl; [reflexivity|].
  intros [Hc Hs]%andb_prop. rewrite Hc, (IH Hs). reflexivity.
Qed.

Lemma filter_no_dot (s : string) :
  Str.contains_char "." s = false -> Str.filter digit_or_dot s = digits_of s.
Proof.
  unfold Str.contains_char, digits_of, digit_or_dot.
  induction s as [|c s IH]; [reflexivity|]. cbn [Str.filter Str.existsb].
  intros [Hc Hs]%orb_false_elim. rewrite Ascii.eqb_sym, Hc, orb_false_r, (IH Hs).
  reflexivity.
Qed.

Lemma digits_no_dot (s : string) :
  Str.forallb Str.is_digit s = true -> Str.contains_char "." s = false.
Proof.
  intros Hs. apply forallb_contains_char.
  eapply forallb_weaken; [|exact Hs].
  intros c. destruct c as [[] [] [] [] [] [] [] []]; vm_compute; congruence.
Qed.

Lemma digits_of_digits (s : string) : Str.forallb Str.is_digit (digits_of s) = true.
Proof. apply filter_forallb. Qed.

(** The cleaning looks at nothing but the digits and dots of the text of
    the value. *)
Lemma clean_spec_text (v : cell) :
  clean_spec v = parse_or_zero (Str.filter digit_or_dot (py_str v)).
Proof.
  unfold clean_spec, is_placeholder.
  destruct v as [|s|z|r|b]; simpl; try reflexivity.
  - destruct (String.eqb_spec s "-") as [->|_]; [reflexivity|].
    destruct (String.eqb_spec s "") as [->|_]; reflexivity.
  - destruct (String.eqb_spec r "nan") as [->|_]; reflexivity.
Qed.

Lemma py_float_decimal (ip fp : string) :
  Str.forallb Str.is_digit ip = true -> Str.forallb Str.is_digit fp = true ->
  ip ++ fp <> "" ->
  py_float (ip ++ String "." fp) = Ok (decimal_value ip fp).
Proof.
  intros Hip Hfp Hne. unfold py_float.
  rewrite (split_app "." ip fp (digits_no_dot ip Hip)).
  rewrite (split_none "." fp (digits_no_dot fp Hfp)).
  rewrite Hip, Hfp. simpl.
  destruct ip, fp; try reflexivity. exfalso. apply Hne. reflexivity.
Qed.

Lemma split_length_pos (c : ascii) (s : string) : (1 <= length (Str.split c s))%nat.
Proof.
  pose proof (split_not_nil c s). destruct (Str.split c s); [congruence|simpl; lia].
Qed.

Lemma split_app_length (c : ascii) (s t : string) :
  (length (Str.split c t) <= length (Str.split c (s ++ t)))%nat.
Proof.
  induction s as [|x s IH]; [reflexivity|].
  change (String x s ++ t) with (String x (s ++ t)). cbn [Str.split].
  destruct (Ascii.eqb x c); [simpl; lia|].
  destruct (Str.split c (s ++ t)); simpl in *; lia.
Qed.

Lemma split_two_seps (c : ascii) (x y z : string) :
  (3 <= length (Str.split c (x ++ String c (y ++ String c z))))%nat.
Proof.
  pose proof (split_app_length c x (String c (y ++ String c z))) as H1.
  pose proof (split_app_length c y (String c z)) as H2.
  pose proof (split_length_pos c z) as H3.
  cbn [Str.split] in H1, H2. rewrite Ascii.eqb_refl in H1, H2.
  simpl in H1, H2. lia.
Qed.

Lemma py_float_two_dots (x y z : string) :
  py_float (x ++ String "." (y ++ String "." z)) = Raise ValueError.
Proof.
  unfold py_float. pose proof (split_two_seps "." x y z) as Hlen.
  destruct (Str.split "." _) as [|p [|q [|r l]]]; simpl in Hlen; try lia; reflexivity.
Qed.

(** A text of dots only parses to 0. *)
Lemma parse_dots (t : string) :
  Str.forallb (Ascii.eqb ".") t = true -> parse_or_zero t = NInt 0.
Proof.
  destruct t as [|c [|c2 t]]; [reflexivity| |].
  - cbn [Str.forallb]. rewrite andb_true_r. intros <-%Ascii.eqb_eq. reflexivity.
  - cbn [Str.forallb]. intros [<-%Ascii.eqb_eq [<-%Ascii.eqb_eq _]%andb_prop]%andb_prop.
    unfold parse_or_zero.
    change (String "." (String "." t)) with ("" ++ String "." ("" ++ String "." t)).
    rewrite py_float_two_dots.
    destruct (Str.contains_char "." _); reflexivity.
Qed.

Lemma no_digit_dots (s : string) :
  digits_of s = "" -> Str.forallb (Ascii.eqb ".") (Str.filter digit_or_dot s) = true.
Proof.
  unfold digits_of, digit_or_dot.
  induction s as [|c s IH]; [reflexivity|]. cbn [Str.filter].
  destruct (Str.is_digit c); [discriminate|]. intros Hs. cbn [orb].
  destruct (Ascii.eqb c ".") eqn:Hc; [|exact (IH Hs)].
  cbn [Str.forallb]. rewrite Ascii.eqb_sym, Hc. exact (IH Hs).
Qed.

Lemma digit_or_dot_digit (c : ascii) : Str.is_digit c = true -> digit_or_dot c = true.
Proof. unfold digit_or_dot. intros ->. reflexivity. Qed.

Lemma py_int_digits (d : string) :
  Str.forallb Str.is_digit d = true -> d <> "" ->
  (String.length d <= int_max_str_digits)%nat ->
  py_int d = Ok (digits_val d).
Proof.
  intros Hdig Hne Hlen. unfold py_int. rewrite Hdig.
  apply Nat.ltb_ge in Hlen. rewrite Hlen.
  destruct d; [congruence|reflexivity].
Qed.

(** X4: what [clean_numeric_value] makes of the text of a value, whatever
    the type of the value.  A text [a.b] with one dot gives the float
    whose digits before the dot are the digits of [a] and whose digits
    behind it are the digits of [b]; a text without a dot gives the integer
    written by its digits (up to 4300 of them); a text with two dots or
    more gives 0, and so does a text without any digit. *)
Theorem clean_numeric_value_reading :
  (forall v a b,
     py_str v = a ++ String "." b ->
     Str.contains_char "." a = false -> Str.contains_char "." b = false ->
     digits_of a ++ digits_of b <> "" ->
     clean_numeric_value v
     = Ok (NFloat (decimal_value (digits_of a) (digits_of b))))
  /\ (forall v,
        Str.contains_char "." (py_str v) = false ->
        digits_of (py_str v) <> "" ->
        (String.length (digits_of (py_str v)) <= int_max_str_digits)%nat ->
        clean_numeric_value v = Ok (NInt (digits_val (digits_of (py_str v)))))
  /\ (forall v a b c,
        py_str v = a ++ String "." (b ++ String "." c) ->
        clean_numeric_value v = Ok (NInt 0))
  /\ (forall v,
        digits_of (py_str v) = "" -> clean_numeric_value v = Ok (NInt 0)).
Proof.
  split; [|split; [|split]].
  - intros v a b Hv Ha Hb Hne.
    rewrite clean_numeric_value_ok, clean_spec_text, Hv.
    change (a ++ String "." b) with (a ++ (String "." EmptyString ++ b)).
    rewrite !filter_app, (filter_no_dot a Ha), (filter_no_dot b Hb).
    change (Str.filter digit_or_dot (String "." EmptyString)) with (String "." EmptyString).
    change (digits_of a ++ String "." EmptyString ++ digits_of b)
      with (digits_of a ++ String "." (digits_of b)).
    unfold parse_or_zero.
    rewrite contains_char_app, contains_char_cons, Ascii.eqb_refl, orb_true_r.
    rewrite py_float_decimal; [reflexivity|apply digits_of_digits..|exact Hne].
  - intros v Hdot Hne Hlen.
    rewrite clean_numeric_value_ok, clean_spec_text, (filter_no_dot _ Hdot).
    unfold parse_or_zero.
    rewrite (digits_no_dot _ (digits_of_digits (py_str v))).
    rewrite (py_int_digits _ (digits_of_digits (py_str v)) Hne Hlen).
    destruct (digits_of (py_str v)); [congruence|reflexivity].
  - intros v a b c Hv.
    rewrite clean_numeric_value_ok, clean_spec_text, Hv.
    change (a ++ String "." (b ++ String "." c))
      with (a ++ (String "." EmptyString ++ (b ++ (String "." EmptyString ++ c)))).
    rewrite !filter_app.
    change (Str.filter digit_or_dot (String "." EmptyString)) with (String "." EmptyString).
    set (x := Str.filter digit_or_dot a). set (y := Str.filter digit_or_dot b).
    set (z := Str.filter digit_or_dot c).
    change (x ++ String "." EmptyString ++ y ++ String "." EmptyString ++ z)
      with (x ++ String "." (y ++ String "." z)).
    unfold parse_or_zero. rewrite py_float_two_dots.
    rewrite contains_char_app, contains_char_cons, Ascii.eqb_refl, orb_true_r.
    reflexivity.
  - intros v Hd. rewrite clean_numeric_value_ok, clean_spec_text.
    rewrite (parse_dots _ (no_digit_dots _ Hd)). reflexivity.
Qed.

Lemma clean_numeric_value_reading_witness :
  (py_str (CFloat "-12.50") = "-12" ++ String "." "50"
   /\ Str.contains_char "." "-12" = false /\ Str.contains_char "." "50" = false
   /\ digits_of "-12" ++ digits_of "50" <> ""
   /\ clean_numeric_value (CFloat "-12.50") = Ok (NFloat (decimal_value "12" "50")))
  /\ (Str.contains_char "." (py_str (CStr "1,234*")) = false
      /\ digits_of (py_str (CStr "1,234*")) <> ""
      /\ (String.length (digits_of (py_str (CStr "1,234*"))) <= int_max_str_digits)%nat
      /\ clean_numeric_value (CStr "1,234*") = Ok (NInt 1234))
  /\ (py_str (CStr "1.2.3") = "1" ++ String "." ("2" ++ String "." "3")
      /\ clean_numeric_value (CStr "1.2.3") = Ok (NInt 0))
  /\ (digits_of (py_str (CBool true)) = ""
      /\ clean_numeric_value (CBool true) = Ok (NInt 0)).
Proof.
  destruct clean_numeric_value_reading as (H1 & H2 & H3 & H4).
  split; [|split; [|split]].
  - assert (digits_of "-12" ++ digits_of "50" <> "") as Hne by discriminate.
    split; [reflexivity|]. split; [reflexivity|]. split; [reflexivity|].
    split; [exact Hne|].
    exact (H1 (CFloat "-12.50") "-12" "50" eq_refl eq_refl eq_refl Hne).
  - assert (digits_of (py_str (CStr "1,234*")) <> "") as Hne by discriminate.
    assert (String.length (digits_of (py_str (CStr "1,234*"))) <= int_max_str_digits)%nat
      as Hlen by (vm_compute; lia).
    split; [reflexivity|]. split; [exact Hne|]. split; [exact Hlen|].
    exact (H2 (CStr "1,234*") eq_refl Hne Hlen).
  - split; [reflexivity|]. exact (H3 (CStr "1.2.3") "1" "2" "3" eq_refl).
  - split; [reflexivity|]. exact (H4 (CBool true) eq_refl).
Defined.

(** *** Integers: printing and reading back *)

Lemma digits_of_uint_acc (d : Decimal.uint) (p : positive) :
  digits_val_acc (Z.pos p) (NilEmpty.string_of_uint d) = Z.pos (Pos.of_uint_acc d p).
Proof.
  revert p. induction d as [|d IH|d IH|d IH|d IH|d IH|d IH|d IH|d IH|d IH|d IH];
    intros p; cbn [NilEmpty.string_of_uint digits_val_acc Pos.of_uint_acc];
    [reflexivity|..]; rewrite <- IH; f_equal;
    unfold digit_val, Str.code; cbn [N_of_ascii N_of_digits Z.of_N N.add N.mul]; lia.
Qed.

Lemma digits_of_uint (d : Decimal.uint) :
  digits_val (NilEmpty.string_of_uint d) = Z.of_N (Pos.of_uint d).
Proof.
  unfold digits_val.
  induction d as [|d IH|d IH|d IH|d IH|d IH|d IH|d IH|d IH|d IH|d IH];
    cbn [NilEmpty.string_of_uint digits_val_acc Pos.of_uint]; [reflexivity|exact IH|..];
    cbn [Z.of_N]; rewrite <- digits_of_uint_acc; reflexivity.
Qed.

Lemma uint_digits (d : Decimal.uint) :
  Str.forallb Str.is_digit (NilEmpty.string_of_uint d) = true.
Proof.
  induction d; cbn [NilEmpty.string_of_uint Str.forallb]; [reflexivity|..]; exact IHd.
Qed.

Lemma uint_length (d : Decimal.uint) :
  String.length (NilEmpty.string_of_uint d) = Decimal.nb_digits d.
Proof. induction d; simpl; [reflexivity|..]; f_equal; exact IHd. Qed.

Lemma of_uint_acc_ge (d : Decimal.uint) (p : positive) :
  Z.pos p * 10 ^ Z.of_nat (Decimal.nb_digits d) <= Z.pos (Pos.of_uint_acc d p).
Proof.
  revert p. induction d as [|d IH|d IH|d IH|d IH|d IH|d IH|d IH|d IH|d IH|d IH];
    intros p; cbn [Decimal.nb_digits Pos.of_uint_acc]; [simpl; lia|..];
    rewrite Nat2Z.inj_succ, Z.pow_succ_r by lia;
    (etransitivity; [|apply IH]);
    assert (0 < 10 ^ Z.of_nat (Decimal.nb_digits d)) by (apply Z.pow_pos_nonneg; lia);
    nia.
Qed.

Lemma nzhead_not_D0 (u v : Decimal.uint) : Decimal.nzhead u <> Decimal.D0 v.
Proof. induction u; simpl; try discriminate. exact IHu. Qed.

(** The decimal numeral of a positive number does not start with 0. *)
Lemma to_uint_head (p : positive) :
  match Pos.to_uint p with
  | Decimal.Nil | Decimal.D0 _ => False
  | _ => True
  end.
Proof.
  pose proof (DecimalPos.Unsigned.to_of (Pos.to_uint p)) as Hn.
  rewrite DecimalPos.Unsigned.of_to in Hn. cbn [N.to_uint] in Hn.
  pose proof (DecimalPos.Unsigned.to_uint_nonnil p) as Hnil.
  destruct (Pos.to_uint p) as [|u| | | | | | | | | ] eqn:Hp; try exact I; [congruence|].
  unfold Decimal.unorm in Hn. cbn [Decimal.nzhead] in Hn.
  destruct (Decimal.nzhead u) eqn:Hu; try discriminate.
  - injection Hn as ->. exact (DecimalPos.Unsigned.to_uint_nonzero p Hp).
  - exact (nzhead_not_D0 u _ Hu).
Qed.

Lemma to_uint_length (p : positive) :
  10 ^ (Z.of_nat (Decimal.nb_digits (Pos.to_uint p)) - 1) <= Z.pos p.
Proof.
  pose proof (to_uint_head p) as Hh.
  pose proof (DecimalPos.Unsigned.of_to p) as Hv.
  destruct (Pos.to_uint p) as [|u|u|u|u|u|u|u|u|u|u]; try contradiction;
    cbn [Pos.of_uint] in Hv; injection Hv as <-;
    cbn [Decimal.nb_digits]; rewrite Nat2Z.inj_succ;
    replace (Z.succ (Z.of_nat (Decimal.nb_digits u)) - 1)
      with (Z.of_nat (Decimal.nb_digits u)) by lia;
    (etransitivity; [|apply of_uint_acc_ge]);
    assert (0 < 10 ^ Z.of_nat (Decimal.nb_digits u)) by (apply Z.pow_pos_nonneg; lia);
    nia.
Qed.

Lemma pos_text (p : positive) :
  Z.pos p < 10 ^ Z.of_nat int_max_str_digits ->
  py_int (NilEmpty.string_of_uint (Pos.to_uint p)) = Ok (Z.pos p).
Proof.
  intros Hlt.
  rewrite py_int_digits.
  - rewrite digits_of_uint, DecimalPos.Unsigned.of_to. reflexivity.
  - apply uint_digits.
  - pose proof (to_uint_head p). destruct (Pos.to_uint p); try contradiction; discriminate.
  - rewrite uint_length. pose proof (to_uint_length p) as Hge.
    destruct (Nat.le_gt_cases (Decimal.nb_digits (Pos.to_uint p)) int_max_str_digits)
      as [Hle|Hgt]; [exact Hle|exfalso].
    assert (10 ^ Z.of_nat int_max_str_digits
            <= 10 ^ (Z.of_nat (Decimal.nb_digits (Pos.to_uint p)) - 1))
      by (apply Z.pow_le_mono_r; lia).
    lia.
Qed.

Lemma pos_text_clean (p : positive) :
  Z.pos p < 10 ^ Z.of_nat int_max_str_digits ->
  parse_or_zero (NilEmpty.string_of_uint (Pos.to_uint p)) = NInt (Z.pos p).
Proof.
  intros Hlt. unfold parse_or_zero.
  rewrite (digits_no_dot _ (uint_digits _)), (pos_text p Hlt).
  pose proof (to_uint_head p). destruct (Pos.to_uint p); try contradiction; reflexivity.
Qed.

(** X5: an integer cleans to its absolute value: the sign is lost with
    the minus sign of its text, and the digits read back as the number
    they were printed from (numbers below 10^4300, which [int()] reads). *)
Theorem clean_numeric_value_int (z : Z) :
  Z.abs z < 10 ^ Z.of_nat int_max_str_digits ->
  clean_numeric_value (CInt z) = Ok (NInt (Z.abs z)).
Proof.
  intros Hlt. rewrite clean_numeric_value_ok, clean_spec_text.
  destruct z as [|p|p]; cbn [py_str Z.to_int NilZero.string_of_int Z.abs] in *.
  - reflexivity.
  - pose proof (to_uint_head p) as Hh.
    replace (NilZero.string_of_uint (Pos.to_uint p))
      with (NilEmpty.string_of_uint (Pos.to_uint p))
      by (destruct (Pos.to_uint p); try contradiction; reflexivity).
    rewrite filter_all by (eapply forallb_weaken;
                           [exact digit_or_dot_digit|apply uint_digits]).
    rewrite (pos_text_clean p Hlt). reflexivity.
  - pose proof (to_uint_head p) as Hh.
    replace (NilZero.string_of_uint (Pos.to_uint p))
      with (NilEmpty.string_of_uint (Pos.to_uint p))
      by (destruct (Pos.to_uint p); try contradiction; reflexivity).
    cbn [Str.filter].
    change (digit_or_dot "-") with false. cbn iota.
    rewrite filter_all by (eapply forallb_weaken;
                           [exact digit_or_dot_digit|apply uint_digits]).
    rewrite (pos_text_clean p Hlt). reflexivity.
Qed.

Lemma clean_numeric_value_int_witness :
  Z.abs (-5000) < 10 ^ Z.of_nat int_max_str_digits
  /\ clean_numeric_value (CInt (-5000)) = Ok (NInt (Z.abs (-5000))).
Proof.
  assert (Z.abs (-5000) < 10 ^ Z.of_nat int_max_str_digits) as Hlt
    by (vm_compute; reflexivity).
  split; [exact Hlt|]. exact (clean_numeric_value_int (-5000) Hlt).
Defined.

(** ** More on [determine_era] *)

Lemma era_of_year_eras (y : Z) : era_of_year y ∈ eras.
Proof.
  unfold era_of_year, eras.
  destruct (y >=? 2010); [|destruct (y >=? 1990)]; set_solver.
Qed.

Lemma four_digit_years_checked :
  forallb (fun y => match determine_era (CInt y) with
                    | Ok e => String.eqb e (era_of_year y)
                    | Raise _ => false
                    end) four_digit_years = true.
Proof. vm_compute. reflexivity. Qed.

Lemma era_of_eras (span : cell) : era_of span ∈ eras.
Proof.
  unfold era_of.
  destruct (pd_isna span || cell_eq_str span "-"); [compute_done|].
  destruct (end_year span); [apply era_of_year_eras|compute_done].
Qed.

(** X6: [determine_era] never raises, and what it returns is one of
    "Modern", "Classic", "Vintage" and "Unknown"; a span that is a number
    of four digits -- a single year, which pandas reads as an integer --
    is classified as that year. *)
Theorem determine_era_range :
  (forall span, exists e, determine_era span = Ok e /\ e ∈ eras)
  /\ (forall y, 1000 <= y <= 9999 ->
        determine_era (CInt y)
        = Ok (if 2010 <=? y then "Modern"
              else if 1990 <=? y then "Classic" else "Vintage")).
Proof.
  split.
  - intros span. rewrite determine_era_ok. eexists. split; [reflexivity|].
    apply era_of_eras.
  - intros y Hy.
    pose proof four_digit_years_checked as Hall.
    rewrite forallb_forall in Hall. specialize (Hall y).
    assert (In y four_digit_years) as Hin.
    { apply list_elem_of_In, elem_of_seqZ. lia. }
    specialize (Hall Hin).
    destruct (determine_era (CInt y)) as [e|]; [|discriminate].
    apply String.eqb_eq in Hall. subst e.
    unfold era_of_year. rewrite !Z.geb_leb. reflexivity.
Qed.

Lemma determine_era_range_witness :
  1000 <= 2005 <= 9999
  /\ determine_era (CInt 2005)
     = Ok (if 2010 <=? 2005 then "Modern"
           else if 1990 <=? 2005 then "Classic" else "Vintage").
Proof.
  assert (1000 <= 2005 <= 9999) as Hy by lia.
  split; [exact Hy|]. exact (proj2 determine_era_range 2005 Hy).
Defined.

(** ** More on [get_country_from_name] *)

Lemma table_values_kept :
  forallb (fun kv => negb (bool_decide (kv.2 ∈ exclude_teams))) country_codes = true.
Proof. vm_compute. reflexivity. Qed.

Lemma known_kept :
  forallb (fun c => negb (bool_decide (c ∈ exclude_teams)))
          ("Unknown" :: known_countries) = true.
Proof. vm_compute. reflexivity. Qed.

Lemma first_known_known (player_name : string) :
  default "Unknown" (first_known player_name) ∈ "Unknown" :: known_countries.
Proof.
  unfold first_known.
  destruct (head _) as [c|] eqn:Hh; simpl; [|apply list_elem_of_here].
  apply list_elem_of_further. apply head_Some_elem_of in Hh.
  apply list_elem_of_filter in Hh. tauto.
Qed.

Lemma full_name_kept (t : string) : t ∉ exclude_teams -> full_name t ∉ exclude_teams.
Proof.
  intros Ht. unfold full_name.
  destruct (country_mapping !! t) as [v|] eqn:Hv; simpl; [|exact Ht].
  apply elem_of_list_to_map_2 in Hv.
  pose proof table_values_kept as Hall. rewrite forallb_forall in Hall.
  specialize (Hall (t, v) (proj1 (list_elem_of_In _ _) Hv)). simpl in Hall.
  apply negb_true_iff, bool_decide_eq_false in Hall. exact Hall.
Qed.

Lemma fallback_kept (player_name : string) :
  default "Unknown" (first_known player_name) ∉ exclude_teams.
Proof.
  pose proof known_kept as Hall. rewrite forallb_forall in Hall.
  specialize (Hall _ (proj1 (list_elem_of_In _ _) (first_known_known player_name))).
  apply negb_true_iff, bool_decide_eq_false in Hall. exact Hall.
Qed.

Lemma country_kept (player_name : string) :
  get_country_from_name player_name ∉ exclude_teams.
Proof.
  rewrite get_country_from_name_eq.
  destruct (Str.contains_char "(" player_name && Str.contains_char ")" player_name);
    [|apply fallback_kept].
  destruct (head (surviving_tokens (segment_of player_name))) as [t|] eqn:Hh;
    [|apply fallback_kept].
  apply head_Some_elem_of in Hh. unfold surviving_tokens in Hh.
  apply list_elem_of_fmap in Hh as (t0 & -> & Ht0).
  apply list_elem_of_filter in Ht0 as [Ht0 _]. apply full_name_kept, Ht0.
Qed.

(** X7: the country found is never one of the regional teams of the
    exclusion set, and for a name without an opening or without a closing
    parenthesis it is one of the ten known countries or "Unknown". *)
Theorem get_country_from_name_range :
  (forall player_name, get_country_from_name player_name ∉ exclude_teams)
  /\ (forall player_name,
        Str.contains_char "(" player_name = false
        \/ Str.contains_char ")" player_name = false ->
        get_country_from_name player_name ∈ known_countries
        \/ get_country_from_name player_name = "Unknown").
Proof.
  split; [exact country_kept|].
  intros player_name Hno. rewrite get_country_from_name_eq.
  replace (Str.contains_char "(" player_name && Str.contains_char ")" player_name)
    with false by (destruct Hno as [-> | ->]; [|rewrite andb_false_r]; reflexivity).
  pose proof (first_known_known player_name) as Hk.
  apply elem_of_cons in Hk as [Hk|Hk]; [right|left]; exact Hk.
Qed.

Lemma get_country_from_name_range_witness :
  Str.contains_char "(" "Some Indian player" = false
  /\ (get_country_from_name "Some Indian player" ∈ known_countries
      \/ get_country_from_name "Some Indian player" = "Unknown").
Proof.
  split; [reflexivity|].
  apply (proj2 get_country_from_name_range "Some Indian player").
  left. reflexivity.
Defined.

(** *** Tokens made of letters *)

Lemma letters_token (t : string) :
  Str.forallb is_letter t = true ->
  Str.contains_char "(" t = false /\ Str.contains_char ")" t = false
  /\ Str.contains_char "/" t = false /\ Str.strip t = t.
Proof.
  intros Hl. repeat split.
  - apply forallb_contains_char. eapply forallb_weaken; [|exact Hl].
    intros c Hc. apply is_letter_plain in Hc as (_ & -> & _). reflexivity.
  - apply forallb_contains_char. eapply forallb_weaken; [|exact Hl].
    intros c Hc. apply is_letter_plain in Hc as (_ & _ & -> & _). reflexivity.
  - apply forallb_contains_char. eapply forallb_weaken; [|exact Hl].
    intros c Hc. apply is_letter_plain in Hc as (_ & _ & _ & ->). reflexivity.
  - apply strip_no_space. eapply forallb_weaken; [|exact Hl].
    intros c Hc. apply is_letter_plain in Hc as (-> & _). reflexivity.
Qed.

Lemma codes_letters :
  forallb (fun kv => Str.forallb is_letter kv.1
                     && negb (bool_decide (kv.1 ∈ exclude_teams))
                     && String.eqb (full_name kv.1) kv.2) country_codes = true.
Proof. vm_compute. reflexivity. Qed.

Lemma excluded_letters :
  forallb (Str.forallb is_letter) excluded_names = true.
Proof. vm_compute. reflexivity. Qed.

Lemma code_facts (k v : string) :
  (k, v) ∈ country_codes ->
  Str.forallb is_letter k = true /\ (k ∉ exclude_teams) /\ full_name k = v.
Proof.
  intros Hin. pose proof codes_letters as Hall. rewrite forallb_forall in Hall.
  specialize (Hall (k, v) (proj1 (list_elem_of_In _ _) Hin)).
  cbn beta iota delta [fst snd] in Hall.
  apply andb_prop in Hall as [[Hl He]%andb_prop Hf%String.eqb_eq].
  apply negb_true_iff, bool_decide_eq_false in He. tauto.
Qed.

Lemma excluded_facts (e : string) :
  e ∈ excluded_names -> Str.forallb is_letter e = true /\ e ∈ exclude_teams.
Proof.
  intros Hin. pose proof excluded_letters as Hall. rewrite forallb_forall in Hall.
  split; [apply Hall, list_elem_of_In, Hin|].
  unfold exclude_teams. apply elem_of_list_to_set, Hin.
Qed.

Lemma lstrip_spaces (s : string) :
  Str.forallb Str.is_space s = true -> Str.lstrip s = "".
Proof.
  induction s as [|c s IH]; simpl; [reflexivity|].
  intros [Hc Hs]%andb_prop. rewrite Hc. exact (IH Hs).
Qed.

Lemma space_plain (c : ascii) :
  Str.is_space c = true ->
  Ascii.eqb "(" c = false /\ Ascii.eqb ")" c = false /\ Ascii.eqb "/" c = false.
Proof.
  destruct c as [[] [] [] [] [] [] [] []]; vm_compute; intros; try discriminate;
    repeat split.
Qed.

(** X8: a code of the table in parentheses gives the country written
    beside it in the table, whatever stands before the parenthesis and
    behind it, also when a regional team of the exclusion set stands before
    the code.  An empty or blank pair of parentheses gives the empty
    string, not "Unknown". *)
Theorem get_country_from_name_codes :
  (forall k v pre post,
     (k, v) ∈ country_codes -> Str.contains_char "(" pre = false ->
     get_country_from_name (pre ++ "(" ++ k ++ ")" ++ post) = v)
  /\ (forall e k v pre post,
        e ∈ excluded_names -> (k, v) ∈ country_codes ->
        Str.contains_char "(" pre = false ->
        get_country_from_name (pre ++ "(" ++ (e ++ String "/" k) ++ ")" ++ post) = v)
  /\ (forall blank pre post,
        Str.forallb Str.is_space blank = true ->
        Str.contains_char "(" pre = false ->
        get_country_from_name (pre ++ "(" ++ blank ++ ")" ++ post) = "").
Proof.
  split; [|split].
  - intros k v pre post Hk Hpre.
    destruct (code_facts k v Hk) as (Hl & He & Hf).
    destruct (letters_token k Hl) as (H1 & H2 & H3 & H4).
    rewrite get_country_from_name_eq, contains_both.
    rewrite (segment_of_parenthesized pre k post Hpre H1 H2).
    unfold surviving_tokens. rewrite (split_none "/" k H3). simpl.
    rewrite H4, filter_cons, decide_True by exact He. simpl. exact Hf.
  - intros e k v pre post He Hk Hpre.
    destruct (code_facts k v Hk) as (Hl & Hke & Hf).
    destruct (letters_token k Hl) as (H1 & H2 & H3 & H4).
    destruct (excluded_facts e He) as (Hel & Hee).
    destruct (letters_token e Hel) as (E1 & E2 & E3 & E4).
    rewrite get_country_from_name_eq, contains_both.
    rewrite (segment_of_parenthesized pre (e ++ String "/" k) post Hpre).
    2:{ rewrite contains_char_app, contains_char_cons, E1, H1. reflexivity. }
    2:{ rewrite contains_char_app, contains_char_cons, E2, H2. reflexivity. }
    unfold surviving_tokens.
    rewrite (split_app "/" e k E3), (split_none "/" k H3). simpl.
    rewrite E4, H4, filter_cons, decide_False by tauto.
    rewrite filter_cons, decide_True by exact Hke. simpl. exact Hf.
  - intros blank pre post Hb Hpre.
    assert (Str.contains_char "(" blank = false /\ Str.contains_char ")" blank = false
            /\ Str.contains_char "/" blank = false) as (B1 & B2 & B3).
    { repeat split; apply forallb_contains_char;
        (eapply forallb_weaken; [|exact Hb]); intros c Hc;
        apply space_plain in Hc as (H1 & H2 & H3); rewrite ?H1, ?H2, ?H3; reflexivity. }
    rewrite get_country_from_name_eq, contains_both.
    rewrite (segment_of_parenthesized pre blank post Hpre B1 B2).
    unfold surviving_tokens. rewrite (split_none "/" blank B3). simpl.
    unfold Str.strip. rewrite (lstrip_spaces blank Hb). reflexivity.
Qed.

Lemma get_country_from_name_codes_witness :
  (("NZ", "New Zealand") ∈ country_codes /\ Str.contains_char "(" "B McCullum " = false
   /\ get_country_from_name ("B McCullum " ++ "(" ++ "NZ" ++ ")" ++ "") = "New Zealand")
  /\ ("ICC" ∈ excluded_names
      /\ get_country_from_name ("R Ponting " ++ "(" ++ ("ICC" ++ String "/" "AUS")
                                ++ ")" ++ "") = "Australia")
  /\ (Str.forallb Str.is_space " " = true
      /\ get_country_from_name ("X " ++ "(" ++ " " ++ ")" ++ "") = "").
Proof.
  destruct get_country_from_name_codes as (H1 & H2 & H3).
  assert (("NZ", "New Zealand") ∈ country_codes) as Hnz by compute_done.
  assert (("AUS", "Australia") ∈ country_codes) as Haus by compute_done.
  assert ("ICC" ∈ excluded_names) as Hicc by compute_done.
  split; [|split].
  - split; [exact Hnz|]. split; [reflexivity|].
    exact (H1 "NZ" "New Zealand" "B McCullum " "" Hnz eq_refl).
  - split; [exact Hicc|].
    exact (H2 "ICC" "AUS" "Australia" "R Ponting " "" Hicc Haus eq_refl).
  - split; [reflexivity|]. exact (H3 " " "X " "" eq_refl eq_refl).
Defined.

(** ** More on [determine_role] *)

(** X9: what the thresholds of [determine_role] exclude.  Without a
    stumping the role is never "Wicket-keeper", however many dismissals
    there are; with 10 wickets or fewer it is "Wicket-keeper" or "Batsman",
    unless [runs / 100] is beyond the floats and [OverflowError] is raised.
    Behind the all-rounder test the comparison of the wickets with a
    hundredth of the runs never decides: the role is "Bowler" exactly when
    the two earlier rules fail, the division is within the floats and there
    are more than 50 wickets.  The last test, more than 100 wickets, is
    never the one that gives "Bowler": where it would hold, the division
    has raised or the test before it holds. *)
Theorem determine_role_thresholds (bat bowl fld : gmap string num) :
  ((stat fld "St" <= 0)%Q -> determine_role bat bowl fld <> Ok "Wicket-keeper")
  /\ ((stat bowl "Wkts" <= 10)%Q ->
      determine_role bat bowl fld = Ok "Wicket-keeper"
      \/ determine_role bat bowl fld = Ok "Batsman"
      \/ (division_overflows (get0 bat "Runs")
          /\ determine_role bat bowl fld = Raise OverflowError))
  /\ (determine_role bat bowl fld = Ok "Bowler"
      <-> ~ keeper_rule (stat fld "Dis") (stat fld "St")
          /\ ~ all_rounder_rule (stat bat "Runs") (stat bat "Ave")
                                (stat bowl "Wkts") (stat bowl "Ave")
          /\ ~ division_overflows (get0 bat "Runs")
          /\ (50 < stat bowl "Wkts")%Q)
  /\ (~ all_rounder_rule (stat bat "Runs") (stat bat "Ave")
                         (stat bowl "Wkts") (stat bowl "Ave") ->
      num_gt (get0 bowl "Wkts") (NInt 100) = true ->
      (division_overflows (get0 bat "Runs")
       /\ num_div (get0 bat "Runs") (NInt 100) = Raise OverflowError)
      \/ exists hundredth,
           num_div (get0 bat "Runs") (NInt 100) = Ok hundredth
           /\ num_gt (get0 bowl "Wkts") hundredth
              && num_gt (get0 bowl "Wkts") (NInt 50) = true).
Proof.
  pose proof (bowler_rule_wickets (stat bat "Runs") (stat bat "Ave")
                (stat bowl "Wkts") (stat bowl "Ave")) as HB50.
  split; [|split; [|split]].
  - intros Hst.
    destruct (determine_role_cases bat bowl fld)
      as [(HK & _)|[(_ & _ & ->)|[(_ & _ & _ & ->)
         |[(_ & _ & _ & _ & ->)|(_ & _ & _ & _ & ->)]]]];
      try discriminate.
    exfalso. unfold keeper_rule in HK. lra.
  - intros Hw.
    destruct (determine_role_cases bat bowl fld)
      as [(_ & ->)|[(_ & HA & _)|[(_ & _ & HV & ->)
         |[(_ & HnA & _ & HB & _)|(_ & _ & _ & _ & ->)]]]].
    + left. reflexivity.
    + exfalso. unfold all_rounder_rule in HA. lra.
    + right. right. split; [exact HV|reflexivity].
    + exfalso. apply HB50 in HB; [lra|exact HnA].
    + right. left. reflexivity.
  - destruct (determine_role_cases bat bowl fld)
      as [(HK & ->)|[(HK & HA & ->)|[(HK & HnA & HV & ->)
         |[(HK & HnA & HnV & HB & ->)|(HK & HnA & HnV & HB & ->)]]]].
    + split; [discriminate|tauto].
    + split; [discriminate|tauto].
    + split; [discriminate|tauto].
    + split; [|reflexivity]. intros _. split; [exact HK|]. split; [exact HnA|].
      split; [exact HnV|]. apply HB50; assumption.
    + split; [discriminate|]. intros (_ & _ & _ & H50). exfalso.
      apply HB, HB50; assumption.
  - intros HnA H100.
    assert (50 < stat bowl "Wkts")%Q as H50.
    { apply num_gt_int in H100; [|reflexivity].
      change (inject_Z 100) with 100%Q in H100. unfold stat. lra. }
    destruct (num_div_100 (get0 bat "Runs"))
      as [(z & Hz & Hbig & Hraise)|(h & Hh & _ & Hten)].
    + left. split; [exists z; split; assumption|exact Hraise].
    + right. exists h. split; [exact Hh|].
      apply (bowler_test bat bowl h HnA Hten). exact H50.
Qed.

Lemma determine_role_thresholds_witness :
  ((stat {[ "Dis" := NInt 300; "St" := NInt 0 ]} "St" <= 0)%Q
   /\ determine_role ∅ ∅ {[ "Dis" := NInt 300; "St" := NInt 0 ]}
      <> Ok "Wicket-keeper")
  /\ ((stat {[ "Wkts" := NInt 10 ]} "Wkts" <= 10)%Q
      /\ (determine_role {[ "Runs" := NInt 9000; "Ave" := NInt 40 ]}
                         {[ "Wkts" := NInt 10 ]} ∅ = Ok "Wicket-keeper"
          \/ determine_role {[ "Runs" := NInt 9000; "Ave" := NInt 40 ]}
                            {[ "Wkts" := NInt 10 ]} ∅ = Ok "Batsman"
          \/ (division_overflows (get0 {[ "Runs" := NInt 9000; "Ave" := NInt 40 ]} "Runs")
              /\ determine_role {[ "Runs" := NInt 9000; "Ave" := NInt 40 ]}
                                {[ "Wkts" := NInt 10 ]} ∅ = Raise OverflowError)))
  /\ (~ all_rounder_rule (stat {[ "Runs" := NInt 900 ]} "Runs")
                         (stat {[ "Runs" := NInt 900 ]} "Ave")
                         (stat {[ "Wkts" := NInt 150 ]} "Wkts")
                         (stat {[ "Wkts" := NInt 150 ]} "Ave")
      /\ num_gt (get0 {[ "Wkts" := NInt 150 ]} "Wkts") (NInt 100) = true
      /\ ((division_overflows (get0 {[ "Runs" := NInt 900 ]} "Runs")
           /\ num_div (get0 {[ "Runs" := NInt 900 ]} "Runs") (NInt 100)
              = Raise OverflowError)
          \/ exists hundredth,
               num_div (get0 {[ "Runs" := NInt 900 ]} "Runs") (NInt 100)
               = Ok hundredth
               /\ num_gt (get0 {[ "Wkts" := NInt 150 ]} "Wkts") hundredth
                  && num_gt (get0 {[ "Wkts" := NInt 150 ]} "Wkts") (NInt 50) = true)).
Proof.
  assert (stat {[ "Dis" := NInt 300; "St" := NInt 0 ]} "St" <= 0)%Q as H1
    by (vm_compute; discriminate).
  assert (stat {[ "Wkts" := NInt 10 ]} "Wkts" <= 10)%Q as H2
    by (vm_compute; discriminate).
  assert (~ all_rounder_rule (stat {[ "Runs" := NInt 900 ]} "Runs")
                             (stat {[ "Runs" := NInt 900 ]} "Ave")
                             (stat {[ "Wkts" := NInt 150 ]} "Wkts")
                             (stat {[ "Wkts" := NInt 150 ]} "Ave")) as H3.
  { intros [[H _]|[H _]]; vm_compute in H; discriminate. }
  split; [|split].
  - split; [exact H1|].
    exact (proj1 (determine_role_thresholds ∅ ∅ _) H1).
  - split; [exact H2|].
    exact (proj1 (proj2 (determine_role_thresholds _ _ ∅)) H2).
  - split; [exact H3|]. split; [reflexivity|].
    exact (proj2 (proj2 (proj2 (determine_role_thresholds _ _ ∅))) H3 eq_refl).
Defined.
(** ** More on the merging and the filter *)

Lemma num_lt_le (a b : num) : num_lt a b = true <-> ~ num_le b a.
Proof.
  rewrite num_lt_gt. unfold num_le. destruct (num_gt b a); split; congruence.
Qed.

(** [max(a, b)] is below a bound when both are. *)
Lemma num_max_lt (a b c : num) :
  num_lt (num_max a b) c = true <-> num_lt a c = true /\ num_lt b c = true.
Proof.
  rewrite !num_lt_le. unfold num_max. destruct (num_gt b a) eqn:Hgt.
  - apply num_gt_le in Hgt. split; [|tauto].
    intros Hb. split; [|exact Hb]. intros Ha. apply Hb.
    eapply num_le_trans; [exact Ha|exact Hgt].
  - split; [|tauto].
    intros Ha. split; [exact Ha|]. intros Hb. apply Ha.
    eapply num_le_trans; [exact Hb|exact Hgt].
Qed.

Lemma total_matches_below (b : batting_vars) (w : bowling_vars) :
  num_lt (total_matches_of b w) (NInt 100) = true
  <-> (Qmax (num_val (total_matches_batting b)) (num_val (total_matches_bowling w))
       < 100)%Q.
Proof.
  rewrite total_matches_max, num_max_lt, !num_lt_int by reflexivity.
  change (inject_Z 100) with 100%Q. rewrite Q.max_lub_lt_iff. tauto.
Qed.

Section NoMatches.

Variable data : player_data.

Lemma column_absent (d : formats) (key : string) :
  (forall fmt, at_format d fmt !! key = None) ->
  Forall (fun n => n = NInt 0) (column d key).
Proof.
  intros Hno. unfold column, rows_present.
  apply Forall_fmap, Forall_forall. intros r Hr.
  apply list_elem_of_filter in Hr as [_ Hr].
  apply list_elem_of_fmap in Hr as (fmt & -> & _).
  apply cleaned_absent, Hno.
Qed.

(** Without a column "Mat" the matches stay 0. *)
Lemma batting_matches_absent (b : batting_vars) :
  (forall fmt, at_format (batting data) fmt !! "Mat" = None) ->
  for_loop (batting_body data) priority batting_init = Ok b ->
  total_matches_batting b = NInt 0.
Proof.
  intros Hno Hb. pose proof (merged_batting_matches data b Hb) as Hsum.
  rewrite (num_sum_zeros _ (column_absent _ _ Hno)) in Hsum. congruence.
Qed.

Lemma bowling_matches_absent (w : bowling_vars) :
  (forall fmt, at_format (bowling data) fmt !! "Mat" = None) ->
  for_loop (bowling_body data) priority bowling_init = Ok w ->
  total_matches_bowling w = NInt 0.
Proof.
  intros Hno Hw. pose proof (merged_bowling_matches data w Hw) as Hsum.
  rewrite (num_sum_zeros _ (column_absent _ _ Hno)) in Hsum. congruence.
Qed.

Lemma no_matches_skipped (b : batting_vars) (w : bowling_vars) :
  (forall fmt, at_format (batting data) fmt !! "Mat" = None) ->
  (forall fmt, at_format (bowling data) fmt !! "Mat" = None) ->
  for_loop (batting_body data) priority batting_init = Ok b ->
  for_loop (bowling_body data) priority bowling_init = Ok w ->
  skipped b w = true.
Proof.
  intros Hnb Hnw Hb Hw.
  rewrite skipped_matches, total_matches_max.
  rewrite (batting_matches_absent b Hnb Hb), (bowling_matches_absent w Hnw Hw).
  reflexivity.
Qed.

End NoMatches.

(** X10: the second test of the filter never decides: when the merging
    loops end, a player is left out by the filter exactly when the larger of
    the batting and the bowling matches is below 100.  So a player whose
    batting and bowling rows have no column "Mat" -- a player with fielding
    rows only, or with no rows -- adds no record, whatever the other numbers
    are: the filter leaves the player out when the loops end, and the
    [except] does when one of them raises. *)
Theorem filter_matches_only :
  (forall b w, skipped b w = num_lt (total_matches_of b w) (NInt 100))
  /\ (forall player_name data b w f,
        for_loop (batting_body data) priority batting_init = Ok b ->
        for_loop (bowling_body data) priority bowling_init = Ok w ->
        for_loop (fielding_body data) priority fielding_init = Ok f ->
        (player_body player_name data = Ok None
         <-> (Qmax (num_val (total_matches_batting b))
                   (num_val (total_matches_bowling w)) < 100)%Q))
  /\ (forall player_name data,
        (forall fmt, at_format (batting data) fmt !! "Mat" = None) ->
        (forall fmt, at_format (bowling data) fmt !! "Mat" = None) ->
        (forall final_players,
           player_step final_players (player_name, data) = final_players)
        /\ (forall player, player_body player_name data <> Ok (Some player))
        /\ ((exists b w f, merged_as data b w f) ->
            player_body player_name data = Ok None)).
Proof.
  split; [exact skipped_matches|]. split.
  - intros player_name data b w f Hb Hw Hf.
    rewrite <- total_matches_below, <- skipped_matches.
    rewrite player_body_eq, Hb, Hw, Hf. cbn [rbind].
    destruct (skipped b w); [tauto|].
    destruct (determine_role _ _ _); cbn [rbind]; split; discriminate.
  - intros player_name data Hnb Hnw.
    assert (forall player, player_body player_name data <> Ok (Some player)) as Hnone.
    { intros player Hbody.
      apply player_body_some in Hbody as (b & w & f & role & Hb & Hw & _ & Hs & _).
      rewrite (no_matches_skipped data b w Hnb Hnw Hb Hw) in Hs. discriminate. }
    split; [|split; [exact Hnone|]].
    + intros final_players. unfold player_step. cbn [fst snd].
      destruct (player_body player_name data) as [[player|]|e] eqn:Hbody;
        try reflexivity.
      exfalso. exact (Hnone player eq_refl).
    + intros (b & w & f & Hb & Hw & Hf). apply player_body_none.
      exists b, w, f. repeat split; try assumption.
      apply (no_matches_skipped data); assumption.
Qed.

Lemma filter_matches_only_witness :
  (for_loop (batting_body (test_batsman 5000 99)) priority batting_init
   = Ok (test_batsman_vars 5000 99)
   /\ for_loop (bowling_body (test_batsman 5000 99)) priority bowling_init
      = Ok bowling_init
   /\ for_loop (fielding_body (test_batsman 5000 99)) priority fielding_init
      = Ok fielding_init
   /\ (player_body "A" (test_batsman 5000 99) = Ok None
       <-> (Qmax (num_val (total_matches_batting (test_batsman_vars 5000 99)))
                 (num_val (total_matches_bowling bowling_init)) < 100)%Q))
  /\ ((forall fmt,
         at_format (batting {| batting := no_rows; bowling := no_rows;
                               fielding := test_only {[ "Dis" := CInt 400;
                                                        "St" := CInt 90 ]} |}) fmt
         !! "Mat" = None)
      /\ player_step [] ("A",
           {| batting := no_rows; bowling := no_rows;
              fielding := test_only {[ "Dis" := CInt 400; "St" := CInt 90 ]} |})
         = [])
  /\ ((exists b w f,
         merged_as {| batting := no_rows; bowling := no_rows;
                      fielding := test_only {[ "Dis" := CInt 400;
                                               "St" := CInt 90 ]} |} b w f)
      /\ player_body "A"
           {| batting := no_rows; bowling := no_rows;
              fielding := test_only {[ "Dis" := CInt 400; "St" := CInt 90 ]} |}
         = Ok None).
Proof.
  assert (forall fmt, at_format no_rows fmt !! "Mat" = None) as Hno
    by (intros []; reflexivity).
  split; [|split].
  - assert (for_loop (batting_body (test_batsman 5000 99)) priority batting_init
            = Ok (test_batsman_vars 5000 99)) as Hb by (vm_compute; reflexivity).
    assert (for_loop (bowling_body (test_batsman 5000 99)) priority bowling_init
            = Ok bowling_init) as Hw by (vm_compute; reflexivity).
    assert (for_loop (fielding_body (test_batsman 5000 99)) priority fielding_init
            = Ok fielding_init) as Hf by (vm_compute; reflexivity).
    split; [exact Hb|]. split; [exact Hw|]. split; [exact Hf|].
    exact (proj1 (proj2 filter_matches_only) "A" _ _ _ _ Hb Hw Hf).
  - split; [exact Hno|].
    exact (proj1 (proj2 (proj2 filter_matches_only) "A"
                    {| batting := no_rows; bowling := no_rows;
                       fielding := test_only {[ "Dis" := CInt 400;
                                                "St" := CInt 90 ]} |}
                    Hno Hno) []).
  - assert (exists b w f,
              merged_as {| batting := no_rows; bowling := no_rows;
                           fielding := test_only {[ "Dis" := CInt 400;
                                                    "St" := CInt 90 ]} |} b w f)
      as Hm.
    { exists batting_init, bowling_init,
        {| total_dismissals := NInt 400; total_stumpings := NInt 90 |}.
      repeat split; vm_compute; reflexivity. }
    split; [exact Hm|].
    exact (proj2 (proj2 (proj2 (proj2 filter_matches_only) "A"
                    {| batting := no_rows; bowling := no_rows;
                       fielding := test_only {[ "Dis" := CInt 400;
                                                "St" := CInt 90 ]} |}
                    Hno Hno)) Hm).
Defined.
(** ** The fielding totals *)

Lemma stumpings_absent (data : player_data) (f : fielding_vars) :
  (forall fmt, at_format (fielding data) fmt !! "St" = None) ->
  for_loop (fielding_body data) priority fielding_init = Ok f ->
  total_stumpings f = NInt 0.
Proof.
  intros Hno Hf. pose proof (merged_stumpings data f Hf) as Hsum.
  rewrite (num_sum_zeros _ (column_absent _ _ Hno)) in Hsum. congruence.
Qed.

Lemma combined_fielding_st (f : fielding_vars) :
  stat (combined_fielding f) "St" = num_val (total_stumpings f).
Proof. unfold stat, get0, combined_fielding. by simplify_map_eq. Qed.

(** X11: when the fielding loop ends, the dismissals and the stumpings it
    leaves are Python's sums of the cleaned "Dis" and "St" values over the
    fielding rows that are there.  It ends when neither column holds an
    [int] of more than 300 digits, and the only exception it raises is
    [OverflowError], as for the dismissals 10^400 and 0.5.  A player whose
    fielding rows have no column "St" -- one without fielding rows -- never
    gets the role "Wicket-keeper". *)
Theorem fielding_totals :
  (forall data f,
     for_loop (fielding_body data) priority fielding_init = Ok f ->
     num_sum ((fun r => cleaned r "Dis") <$> rows_present (fielding data) priority)
     = Ok (total_dismissals f)
     /\ num_sum ((fun r => cleaned r "St") <$> rows_present (fielding data) priority)
        = Ok (total_stumpings f))
  /\ (forall data,
        modest (fielding data) "Dis" -> modest (fielding data) "St" ->
        exists f, for_loop (fielding_body data) priority fielding_init = Ok f)
  /\ (forall data e,
        for_loop (fielding_body data) priority fielding_init = Raise e ->
        e = OverflowError)
  /\ for_loop (fielding_body huge_dismissals) priority fielding_init
     = Raise OverflowError
  /\ (forall player_name data player,
        (forall fmt, at_format (fielding data) fmt !! "St" = None) ->
        player_body player_name data = Ok (Some player) ->
        role player <> "Wicket-keeper").
Proof.
  split; [|split; [|split; [|split]]].
  - intros data f Hf.
    split; [apply merged_dismissals, Hf|apply merged_stumpings, Hf].
  - apply fielding_loop_ok.
  - intros data e. apply fielding_loop_raises.
  - vm_compute. reflexivity.
  - intros player_name data player Hno Hbody.
    apply player_body_some in Hbody
      as (b & w & f & r & _ & _ & Hf & _ & Hrole & ->).
    unfold record_of. cbn [role]. intros ->.
    pose proof (stumpings_absent data f Hno Hf) as Hst.
    destruct (determine_role_cases (combined_batting b) (combined_bowling w)
                (combined_fielding f))
      as [(HK & _)|[(_ & _ & H)|[(_ & _ & _ & H)
         |[(_ & _ & _ & _ & H)|(_ & _ & _ & _ & H)]]]];
      try (rewrite H in Hrole; discriminate).
    unfold keeper_rule in HK.
    rewrite combined_fielding_st, Hst in HK.
    change (num_val (NInt 0)) with 0%Q in HK. lra.
Qed.

Lemma fielding_totals_witness :
  (for_loop (fielding_body
               {| batting := no_rows; bowling := no_rows;
                  fielding := test_only {[ "Dis" := CInt 400; "St" := CInt 90 ]} |})
            priority fielding_init
   = Ok {| total_dismissals := NInt 400; total_stumpings := NInt 90 |}
   /\ num_sum ((fun r => cleaned r "Dis")
                 <$> rows_present (test_only {[ "Dis" := CInt 400; "St" := CInt 90 ]})
                       priority)
      = Ok (NInt 400))
  /\ (modest (fielding (test_batsman 5000 150)) "Dis"
      /\ modest (fielding (test_batsman 5000 150)) "St"
      /\ exists f,
           for_loop (fielding_body (test_batsman 5000 150)) priority fielding_init
           = Ok f)
  /\ ((forall fmt, at_format (fielding (test_batsman 5000 150)) fmt !! "St" = None)
      /\ player_body "A (AUS)" (test_batsman 5000 150) = Ok (Some test_batsman_record)
      /\ role test_batsman_record <> "Wicket-keeper").
Proof.
  split; [|split].
  - assert (for_loop (fielding_body
                        {| batting := no_rows; bowling := no_rows;
                           fielding := test_only {[ "Dis" := CInt 400;
                                                    "St" := CInt 90 ]} |})
                     priority fielding_init
            = Ok {| total_dismissals := NInt 400; total_stumpings := NInt 90 |})
      as Hf by (vm_compute; reflexivity).
    split; [exact Hf|].
    exact (proj1 (proj1 fielding_totals _ _ Hf)).
  - assert (modest (fielding (test_batsman 5000 150)) "Dis") as H1
      by (intros []; vm_compute; reflexivity).
    assert (modest (fielding (test_batsman 5000 150)) "St") as H2
      by (intros []; vm_compute; reflexivity).
    split; [exact H1|]. split; [exact H2|].
    exact (proj1 (proj2 fielding_totals) _ H1 H2).
  - assert (forall fmt, at_format (fielding (test_batsman 5000 150)) fmt !! "St" = None)
      as Hno by (intros []; reflexivity).
    assert (player_body "A (AUS)" (test_batsman 5000 150)
            = Ok (Some test_batsman_record)) as Hbody by (vm_compute; reflexivity).
    split; [exact Hno|]. split; [exact Hbody|].
    exact (proj2 (proj2 (proj2 (proj2 fielding_totals))) "A (AUS)" _ _ Hno Hbody).
Defined.
(** ** The records of the output *)

Lemma determine_role_labels (bat bowl fld : gmap string num) (role : string) :
  determine_role bat bowl fld = Ok role -> role ∈ role_labels.
Proof.
  destruct (determine_role_cases bat bowl fld)
    as [(_ & ->)|[(_ & _ & ->)|[(_ & _ & _ & ->)
       |[(_ & _ & _ & _ & ->)|(_ & _ & _ & _ & ->)]]]];
    intros [= <-]; compute_done.
Qed.

Lemma record_of_bounds (player_name : string) (data : player_data)
    (b : batting_vars) (w : bowling_vars) (role : string) :
  for_loop (batting_body data) priority batting_init = Ok b ->
  for_loop (bowling_body data) priority bowling_init = Ok w ->
  skipped b w = false ->
  (100 <= num_val (matches (record_of player_name b w role))
   /\ 0 <= num_val (runs (record_of player_name b w role))
   /\ 0 <= num_val (wickets (record_of player_name b w role))
   /\ 0 <= num_val (average (record_of player_name b w role)))%Q.
Proof.
  intros Hb Hw Hkept.
  destruct (merged_batting_nonneg data b Hb) as (Hr & _ & Ha).
  destruct (merged_bowling_nonneg data w Hw) as (Hwk & _ & Hbw).
  unfold record_of. cbn [matches runs wickets average].
  split; [|split; [exact Hr|split; [exact Hwk|]]].
  - rewrite skipped_matches in Hkept. apply Qnot_lt_le. intros Hlt.
    change 100%Q with (inject_Z 100) in Hlt.
    apply (num_lt_int _ 100 eq_refl) in Hlt. congruence.
  - destruct (num_gt (batting_avg b) (NInt 0)); [exact Ha|].
    destruct (String.eqb _ "Bowler"); [exact Hbw|apply Qle_refl].
Qed.

Lemma collected_record (players_data : list (string * player_data))
    (player : player_obj) :
  player ∈ collect_players players_data ->
  exists player_name data b w f role,
    (player_name, data) ∈ players_data
    /\ merged_as data b w f
    /\ skipped b w = false
    /\ determine_role (combined_batting b) (combined_bowling w) (combined_fielding f)
       = Ok role
    /\ player = record_of player_name b w role.
Proof.
  intros Hin. apply collected_from_body in Hin as (n & d & Hnd & Hbody).
  apply player_body_some in Hbody as (b & w & f & role & Hb & Hw & Hf & Hs & Hr & ->).
  exists n, d, b, w, f, role. repeat split; assumption.
Qed.

Lemma output_collected (players_data : list (string * player_data))
    (out : list player_obj) (player : player_obj) :
  process_cricket_data players_data = Ok out ->
  player ∈ out <-> player ∈ collect_players players_data.
Proof.
  intros Hout. apply process_cricket_data_ok in Hout as [_ ->].
  rewrite <- (sort_reverse_perm key_of). reflexivity.
Qed.

(** X12: every record that is collected, and so every record of the list
    that is returned, has at least 100 matches; its runs, wickets and
    average are not negative; its role is one of the four roles and its era
    one of the four eras; its name holds no opening parenthesis; and its
    country is none of the regional teams. *)
Theorem output_records (players_data : list (string * player_data))
    (player : player_obj) :
  player ∈ collect_players players_data
  \/ (exists out, process_cricket_data players_data = Ok out /\ player ∈ out) ->
  (100 <= num_val (matches player))%Q
  /\ (0 <= num_val (runs player))%Q
  /\ (0 <= num_val (wickets player))%Q
  /\ (0 <= num_val (average player))%Q
  /\ role player ∈ role_labels
  /\ era player ∈ eras
  /\ Str.contains_char "(" (name player) = false
  /\ country player ∉ exclude_teams.
Proof.
  intros Hin.
  assert (player ∈ collect_players players_data) as Hc.
  { destruct Hin as [Hc|(out & Hout & Hin)]; [exact Hc|].
    apply (output_collected _ _ _ Hout), Hin. }
  apply collected_record in Hc
    as (n & d & b & w & f & r & _ & (Hb & Hw & _) & Hkept & Hrole & ->).
  destruct (record_of_bounds n d b w r Hb Hw Hkept) as (Hm & Hr & Hwk & Ha).
  split; [exact Hm|]. split; [exact Hr|]. split; [exact Hwk|]. split; [exact Ha|].
  split; [apply (determine_role_labels _ _ _ _ Hrole)|]. split; [apply era_of_eras|].
  split; [apply clean_name_no_paren|apply country_kept].
Qed.

Lemma output_records_witness :
  (test_batsman_record ∈ collect_players [("A (AUS)", test_batsman 5000 150)]
   \/ (exists out,
         process_cricket_data [("A (AUS)", test_batsman 5000 150)] = Ok out
         /\ test_batsman_record ∈ out))
  /\ (100 <= num_val (matches test_batsman_record))%Q
  /\ role test_batsman_record ∈ role_labels.
Proof.
  assert (test_batsman_record ∈ collect_players [("A (AUS)", test_batsman 5000 150)]
          \/ (exists out,
                process_cricket_data [("A (AUS)", test_batsman 5000 150)] = Ok out
                /\ test_batsman_record ∈ out)) as Hin.
  { right. exists [test_batsman_record].
    split; [vm_compute; reflexivity|apply list_elem_of_here]. }
  split; [exact Hin|].
  destruct (output_records _ _ Hin) as (Hm & _ & _ & _ & Hr & _).
  split; [exact Hm|exact Hr].
Defined.
(** ** From the files to the output *)

Lemma omap_length_le {A B} (f : A -> option B) (l : list A) :
  (length (omap f l) <= length l)%nat.
Proof.
  induction l as [|x l IH]; [reflexivity|].
  cbn [omap list_omap]. destruct (f x); cbn [length]; lia.
Qed.

Lemma omap_all_none {A B} (f : A -> option B) (l : list A) :
  (forall x, x ∈ l -> f x = None) -> omap f l = [].
Proof.
  induction l as [|x l IH]; intros Hall; [reflexivity|].
  cbn [omap list_omap]. rewrite (Hall x) by apply list_elem_of_here.
  apply IH. intros y Hy. apply Hall, list_elem_of_further, Hy.
Qed.

Lemma first_seen_nil (l : list string) : l = [] -> first_seen l = [].
Proof. intros ->. reflexivity. Qed.

Section FromFiles.

Variable files : category -> format -> option (list (gmap string cell)).

(** A row held for a loaded player is empty or a row of the file. *)
Lemma loaded_row_cases (n : string) (d : player_data) (cat : category)
    (fmt : format) :
  (n, d) ∈ load_players files ->
  at_format (at_category d cat) fmt = ∅
  \/ exists rows, files cat fmt = Some rows
                  /\ at_format (at_category d cat) fmt ∈ rows.
Proof.
  intros Hin. rewrite (loaded_row files n d cat fmt Hin).
  destruct (files cat fmt) as [rows|]; [|left; reflexivity].
  destruct (last (rows_named n rows)) as [x|] eqn:Hlast; [|left; reflexivity].
  right. exists rows. split; [reflexivity|]. simpl.
  apply last_Some_elem_of in Hlast. unfold rows_named in Hlast.
  apply list_elem_of_filter in Hlast. tauto.
Qed.

Lemma loaded_no_column (key : string) (cat : category) (n : string)
    (d : player_data) :
  (forall fmt rows r, files cat fmt = Some rows -> r ∈ rows -> r !! key = None) ->
  (n, d) ∈ load_players files ->
  forall fmt, at_format (at_category d cat) fmt !! key = None.
Proof.
  intros Hno Hin fmt.
  destruct (loaded_row_cases n d cat fmt Hin) as [->|(rows & Hf & Hr)].
  - apply lookup_empty.
  - exact (Hno fmt rows _ Hf Hr).
Qed.

Lemma scanned_names_nil :
  (forall cat fmt, kept_names (files cat fmt) = []) -> scanned_names files = [].
Proof.
  intros Hno. unfold scanned_names, sources. simpl. rewrite !Hno. reflexivity.
Qed.

End FromFiles.

Lemma no_matches_left_out (player_name : string) (data : player_data) :
  (forall fmt, at_format (batting data) fmt !! "Mat" = None) ->
  (forall fmt, at_format (bowling data) fmt !! "Mat" = None) ->
  record_if_kept (player_name, data) = None.
Proof.
  intros Hnb Hnw. unfold record_if_kept. cbn [fst snd].
  destruct (player_body player_name data) as [[player|]|e] eqn:Hbody;
    try reflexivity.
  apply player_body_some in Hbody as (b & w & f & role & Hb & Hw & _ & Hs & _).
  rewrite (no_matches_skipped data b w Hnb Hnw Hb Hw) in Hs. discriminate.
Qed.

Lemma process_cricket_data_nil (players_data : list (string * player_data)) :
  collect_players players_data = [] -> process_cricket_data players_data = Ok [].
Proof.
  intros Hnil. apply process_cricket_data_ok. rewrite Hnil.
  split; [constructor|reflexivity].
Qed.

(** X13: from the files to the output.  Every record that is collected is
    made for a name under which some row of some file is stored, and its
    display name is stripped; there are no more records than such names;
    the list that is returned holds the records collected.  When the batting
    and the bowling files are missing, or none of their rows has a column
    "Mat", the output is the empty list whatever the fielding files hold; so
    it is when no file has a row with a name. *)
Theorem process_files_records
    (files : category -> format -> option (list (gmap string cell))) :
  (forall player,
     player ∈ collect_players (load_players files) ->
     Str.strip (name player) = name player
     /\ exists player_name data,
          (player_name, data) ∈ load_players files
          /\ player_body player_name data = Ok (Some player)
          /\ name_kept player_name = true
          /\ exists cat fmt rows r,
               files cat fmt = Some rows /\ r ∈ rows
               /\ row_player r = player_name)
  /\ (length (collect_players (load_players files))
      <= length (first_seen (scanned_names files)))%nat
  /\ (forall out,
        process_files files = Ok out ->
        Permutation (collect_players (load_players files)) out)
  /\ ((forall fmt rows r,
         files Batting fmt = Some rows -> r ∈ rows -> r !! "Mat" = None) ->
      (forall fmt rows r,
         files Bowling fmt = Some rows -> r ∈ rows -> r !! "Mat" = None) ->
      process_files files = Ok [])
  /\ ((forall cat fmt, kept_names (files cat fmt) = []) ->
      process_files files = Ok []).
Proof.
  split; [|split; [|split; [|split]]].
  - intros player Hin.
    apply collected_from_body in Hin as (n & d & Hnd & Hbody).
    assert (n ∈ (load_players files).*1) as Hn.
    { apply list_elem_of_fmap. exists (n, d). tauto. }
    apply loaded_name_elem in Hn as (Hk & cat & fmt & rows & r & Hf & Hr & Hrn).
    split.
    + pose proof Hbody as Hrec.
      apply player_body_some in Hrec as (b & w & f & role & _ & _ & _ & _ & _ & ->).
      unfold record_of. cbn [name]. apply clean_name_stripped.
      rewrite <- Hrn. apply strip_idem.
    + exists n, d. split; [exact Hnd|]. split; [exact Hbody|].
      split; [exact Hk|]. exists cat, fmt, rows, r. tauto.
  - rewrite collect_players_eq, <- loaded_names, length_fmap.
    apply omap_length_le.
  - intros out Hout. unfold process_files in Hout.
    apply process_cricket_data_ok in Hout as [_ ->]. apply sort_reverse_perm.
  - intros Hbat Hbowl. unfold process_files.
    apply process_cricket_data_nil. rewrite collect_players_eq. apply omap_all_none.
    intros [n d] Hin. apply no_matches_left_out.
    + exact (loaded_no_column files "Mat" Batting n d Hbat Hin).
    + exact (loaded_no_column files "Mat" Bowling n d Hbowl Hin).
  - intros Hno. unfold process_files.
    assert (load_players files = []) as ->; [|reflexivity].
    apply (fmap_nil_inv fst). rewrite loaded_names.
    apply first_seen_nil, scanned_names_nil, Hno.
Qed.

Lemma process_files_records_witness :
  (forall fmt rows r,
     fielding_files Batting fmt = Some rows -> r ∈ rows -> r !! "Mat" = None)
  /\ (forall fmt rows r,
        fielding_files Bowling fmt = Some rows -> r ∈ rows -> r !! "Mat" = None)
  /\ process_files fielding_files = Ok [].
Proof.
  assert (forall (cat : category) (fmt : format) (rows : list (gmap string cell))
                 (r : gmap string cell),
            cat <> Fielding ->
            fielding_files cat fmt = Some rows -> r ∈ rows -> r !! "Mat" = None)
    as Hno.
  { intros [] fmt rows r Hc Hf Hr; try discriminate. contradiction. }
  assert (forall fmt rows r,
            fielding_files Batting fmt = Some rows -> r ∈ rows -> r !! "Mat" = None)
    as Hbat by (intros fmt rows r; apply Hno; discriminate).
  assert (forall fmt rows r,
            fielding_files Bowling fmt = Some rows -> r ∈ rows -> r !! "Mat" = None)
    as Hbowl by (intros fmt rows r; apply Hno; discriminate).
  split; [exact Hbat|]. split; [exact Hbowl|].
  exact (proj1 (proj2 (proj2 (proj2 (process_files_records fielding_files))))
           Hbat Hbowl).
Defined.
(** ** The statistics printed by [main] *)

Lemma dict_get_set (d : list (string * Z)) (k k' : string) (v dflt : Z) :
  dict_get (dict_set d k v) k' dflt = if String.eqb k k' then v else dict_get d k' dflt.
Proof.
  induction d as [|[k0 v0] rest IH]; simpl.
  - reflexivity.
  - destruct (String.eqb_spec k0 k) as [->|Hk0]; simpl.
    + destruct (String.eqb k k'); reflexivity.
    + rewrite IH. destruct (String.eqb_spec k0 k') as [->|Hk0'].
      * apply not_eq_sym, String.eqb_neq in Hk0. rewrite Hk0. reflexivity.
      * reflexivity.
Qed.

Lemma dict_set_keys (d : list (string * Z)) (k : string) (v : Z) :
  (dict_set d k v).*1 = add_name d.*1 k.
Proof.
  unfold add_name.
  induction d as [|[k0 v0] rest IH]; [reflexivity|].
  cbn [dict_set]. destruct (String.eqb_spec k0 k) as [->|Hk]; rewrite !fmap_cons; cbn [fst].
  - rewrite bool_decide_true by apply list_elem_of_here. reflexivity.
  - rewrite IH. destruct (decide (k ∈ rest.*1)) as [Hin|Hout].
    + rewrite !bool_decide_true; [reflexivity| |exact Hin].
      apply list_elem_of_further, Hin.
    + rewrite !bool_decide_false; [reflexivity| |exact Hout].
      intros [Heq|Hin]%elem_of_cons; [congruence|tauto].
Qed.

Lemma dict_total_set (d : list (string * Z)) (k : string) (v : Z) :
  dict_total (dict_set d k v) = dict_total d - dict_get d k 0 + v.
Proof.
  unfold dict_total.
  induction d as [|[k0 v0] rest IH]; simpl; [lia|].
  destruct (String.eqb k0 k); simpl; [lia|]. rewrite IH. lia.
Qed.

Section Tally.

Variable field : player_obj -> string.

Lemma tally_fold_keys (players : list player_obj) (d : list (string * Z)) :
  (fold_left (count_step field) players d).*1
  = fold_left add_name (field <$> players) d.*1.
Proof.
  revert d. induction players as [|p players IH]; intros d; [reflexivity|].
  cbn [fold_left fmap list_fmap]. rewrite IH. unfold count_step.
  rewrite dict_set_keys. reflexivity.
Qed.

Lemma tally_fold_get (players : list player_obj) (d : list (string * Z))
    (k : string) :
  dict_get (fold_left (count_step field) players d) k 0
  = dict_get d k 0 + count_of field k players.
Proof.
  unfold count_of. revert d.
  induction players as [|p players IH]; intros d.
  - simpl. lia.
  - cbn [fold_left]. rewrite IH. unfold count_step.
    rewrite dict_get_set, filter_cons.
    destruct (String.eqb_spec (field p) k) as [Hk|Hk].
    + rewrite decide_True by exact Hk. rewrite Hk. cbn [length]. lia.
    + rewrite decide_False by exact Hk. lia.
Qed.

Lemma tally_fold_total (players : list player_obj) (d : list (string * Z)) :
  dict_total (fold_left (count_step field) players d)
  = dict_total d + Z.of_nat (length players).
Proof.
  revert d. induction players as [|p players IH]; intros d.
  - simpl. lia.
  - cbn [fold_left]. rewrite IH. unfold count_step.
    rewrite dict_total_set. cbn [length]. lia.
Qed.

End Tally.

Lemma statistics_fold (players : list player_obj)
    (roles eras : list (string * Z)) :
  fold_left statistics_body players (roles, eras)
  = (fold_left (count_step role) players roles,
     fold_left (count_step era) players eras).
Proof.
  revert roles eras.
  induction players as [|p players IH]; intros roles eras; [reflexivity|].
  cbn [fold_left].
  change (statistics_body (roles, eras) p)
    with (count_step role roles p, count_step era eras p).
  apply IH.
Qed.

(** X14: the two dictionaries that [main] fills and prints.  Their keys
    are the roles and the eras of the players, each at the place where it
    comes first, which is the order of the printed lines; the count under a
    key is the number of players with that role or era; and the counts of
    each dictionary add up to the number of players. *)
Theorem statistics_counts (players : list player_obj) :
  (statistics players).1.*1 = first_seen (role <$> players)
  /\ (statistics players).2.*1 = first_seen (era <$> players)
  /\ (forall k, dict_get (statistics players).1 k 0 = count_of role k players)
  /\ (forall k, dict_get (statistics players).2 k 0 = count_of era k players)
  /\ dict_total (statistics players).1 = Z.of_nat (length players)
  /\ dict_total (statistics players).2 = Z.of_nat (length players).
Proof.
  unfold statistics. rewrite statistics_fold. cbn [fst snd].
  split; [apply (tally_fold_keys role players [])|].
  split; [apply (tally_fold_keys era players [])|].
  split; [intros k; apply (tally_fold_get role players [] k)|].
  split; [intros k; apply (tally_fold_get era players [] k)|].
  split; [apply (tally_fold_total role players [])
         |apply (tally_fold_total era players [])].
Qed.
